(** * The air-quality engine of the Smart City dashboard

    A shallow embedding of the computational core of
    [src/js/environment.js] (class [EnvironmentalDataManager]):
    the six breakpoint tables, [calculateAQIFromBreakpoints],
    [calculateAQI], [getAQICategory], [generateSensorReadings], the
    health-risk scoring of [calculateHealthRisks],
    [generateHealthRecommendations], [generateForecasts], the sample data
    and [initialize], the getters of the manager, and what the display
    functions compute from them (colours, the rows of the forecast table,
    the filter of pollution sources).

    Objects.  An object used as a map is the association list of its own
    properties; a lookup also sees the names inherited from
    [Object.prototype], and no key assigned is taken to be [__proto__].

    Number model.  There are two.  In the first a JavaScript number is an
    exact rational ([Q]) and a number produced by [Math.round] an integer
    ([Z]); [NaN], the infinities and the rounding of binary64 arithmetic are
    outside it, so where the code rounds an intermediate result the exact
    value can fall on the other side of a half: PM10 at 16.74 has the exact
    sub-index 16 where the code computes 15.  Module [Binary64] is the
    second: the same computations on IEEE-754 primitive floats, with the
    decimal literals, [Math.round] and [toFixed] of the code.  The contract
    of the sub-index lookup is proved of [Binary64] for every double; the
    bounds of the sample readings and of the forecasts are proved of the
    exact model for draws in the closed interval from 0 to 1 and evaluated
    in [Binary64] on a grid of draws that includes the largest one; the
    other theorems on numbers evaluate [Binary64] at the finitely many
    points they name (table ends, the 30 scores, the 48 confidences). *)

From Stdlib Require Import ZArith QArith Qround Bool List Ascii String Lia Lqa.
From Stdlib Require Import DecimalString.
From Stdlib Require Import Floats.PrimFloat Floats.FloatOps Floats.SpecFloat.
From Stdlib Require Import Floats.FloatAxioms.
Import ListNotations.

Local Open Scope Q_scope.

(** ** JavaScript primitives used by the module *)

Module JS.

(** [Math.round]: the nearest integer, a tie going to the larger one. *)
Definition Math_round (x : Q) : Z := Qfloor (x + (1 # 2)).

(** [Math.max(x, ...xs)] on integers. *)
Definition Math_max (x : Z) (xs : list Z) : Z := fold_left Z.max xs x.

(** [Math.min(a, b)] on integers. *)
Definition Math_min (a b : Z) : Z := Z.min a b.

(** The only exception the embedded code can raise: reading a property of
    [undefined]. *)
Inductive Error : Set := TypeError.

(** The completion of a call: a returned value or a thrown exception. *)
Inductive Completion (A : Type) : Type :=
| Return (a : A)
| Throw (e : Error).
Arguments Return {A} a.
Arguments Throw {A} e.

Definition bind {A B} (m : Completion A) (k : A -> Completion B)
  : Completion B :=
  match m with
  | Return a => k a
  | Throw e => Throw e
  end.

(** [arr[arr.length - 1]]: [None] stands for [undefined]. *)
Definition last_element {A} (arr : list A) : option A :=
  nth_error arr (List.length arr - 1).

End JS.
Import JS.

Notation "x <- m ;; k" := (bind m (fun x => k))
  (at level 61, m at next level, right associativity).

(** ** Breakpoint tables *)

(** One entry [{ min, max, minAQI, maxAQI }] of a breakpoint table. *)
Record Breakpoint : Set := mkBreakpoint {
  min : Q;
  max : Q;
  minAQI : Z;
  maxAQI : Z
}.

Definition PM25_breakpoints : list Breakpoint :=
  [ mkBreakpoint 0 12 0 50;
    mkBreakpoint 12.1 35.4 51 100;
    mkBreakpoint 35.5 55.4 101 150;
    mkBreakpoint 55.5 150.4 151 200;
    mkBreakpoint 150.5 250.4 201 300;
    mkBreakpoint 250.5 500.4 301 500 ].

Definition PM10_breakpoints : list Breakpoint :=
  [ mkBreakpoint 0 54 0 50;
    mkBreakpoint 55 154 51 100;
    mkBreakpoint 155 254 101 150;
    mkBreakpoint 255 354 151 200;
    mkBreakpoint 355 424 201 300;
    mkBreakpoint 425 604 301 500 ].

Definition NO2_breakpoints : list Breakpoint :=
  [ mkBreakpoint 0 53 0 50;
    mkBreakpoint 54 100 51 100;
    mkBreakpoint 101 360 101 150;
    mkBreakpoint 361 649 151 200;
    mkBreakpoint 650 1249 201 300;
    mkBreakpoint 1250 2049 301 500 ].

Definition SO2_breakpoints : list Breakpoint :=
  [ mkBreakpoint 0 35 0 50;
    mkBreakpoint 36 75 51 100;
    mkBreakpoint 76 185 101 150;
    mkBreakpoint 186 304 151 200;
    mkBreakpoint 305 604 201 300;
    mkBreakpoint 605 1004 301 500 ].

Definition CO_breakpoints : list Breakpoint :=
  [ mkBreakpoint 0 4.4 0 50;
    mkBreakpoint 4.5 9.4 51 100;
    mkBreakpoint 9.5 12.4 101 150;
    mkBreakpoint 12.5 15.4 151 200;
    mkBreakpoint 15.5 30.4 201 300;
    mkBreakpoint 30.5 50.4 301 500 ].

Definition O3_breakpoints : list Breakpoint :=
  [ mkBreakpoint 0 54 0 50;
    mkBreakpoint 55 70 51 100;
    mkBreakpoint 71 85 101 150;
    mkBreakpoint 86 105 151 200;
    mkBreakpoint 106 200 201 300;
    mkBreakpoint 201 504 301 500 ].

(** ** [calculateAQIFromBreakpoints] *)

(** The test of the loop body: [concentration >= bp.min && concentration <= bp.max]. *)
Definition inBracket (concentration : Q) (bp : Breakpoint) : bool :=
  Qle_bool (min bp) concentration && Qle_bool concentration (max bp).

(** The linear interpolation formula of the loop body, before rounding,
    in exact arithmetic; [Binary64.interpolate] is the formula as the code
    evaluates it. *)
Definition interpolate (concentration : Q) (bp : Breakpoint) : Q :=
  ((inject_Z (maxAQI bp) - inject_Z (minAQI bp)) / (max bp - min bp))
  * (concentration - min bp) + inject_Z (minAQI bp).

(** The [for (const bp of breakpoints)] loop: [Some v] is the early
    [return v], [None] is falling out of the loop. *)
Fixpoint scanBreakpoints (concentration : Q) (breakpoints : list Breakpoint)
  : option Z :=
  match breakpoints with
  | [] => None
  | bp :: rest =>
      if inBracket concentration bp
      then Some (Math_round (interpolate concentration bp))
      else scanBreakpoints concentration rest
  end.

Definition calculateAQIFromBreakpoints (concentration : Q)
    (breakpoints : list Breakpoint) : Completion Z :=
  match scanBreakpoints concentration breakpoints with
  | Some aqi => Return aqi
  | None =>
      match last_element breakpoints with
      | None => Throw TypeError
      | Some top =>
          if negb (Qle_bool concentration (max top))
          then Return (maxAQI top)
          else Return 0%Z
      end
  end.

Definition calculatePM25AQI (concentration : Q) : Completion Z :=
  calculateAQIFromBreakpoints concentration PM25_breakpoints.

Definition calculatePM10AQI (concentration : Q) : Completion Z :=
  calculateAQIFromBreakpoints concentration PM10_breakpoints.

Definition calculateNO2AQI (concentration : Q) : Completion Z :=
  calculateAQIFromBreakpoints concentration NO2_breakpoints.

Definition calculateSO2AQI (concentration : Q) : Completion Z :=
  calculateAQIFromBreakpoints concentration SO2_breakpoints.

Definition calculateCOAQI (concentration : Q) : Completion Z :=
  calculateAQIFromBreakpoints concentration CO_breakpoints.

Definition calculateO3AQI (concentration : Q) : Completion Z :=
  calculateAQIFromBreakpoints concentration O3_breakpoints.

(** ** [calculateAQI] and [getAQICategory] *)

Definition calculateAQI (pm25 pm10 no2 so2 co o3 : Q) : Completion Z :=
  pm25AQI <- calculatePM25AQI pm25 ;;
  pm10AQI <- calculatePM10AQI pm10 ;;
  no2AQI <- calculateNO2AQI no2 ;;
  so2AQI <- calculateSO2AQI so2 ;;
  coAQI <- calculateCOAQI co ;;
  o3AQI <- calculateO3AQI o3 ;;
  Return (Math_max pm25AQI [pm10AQI; no2AQI; so2AQI; coAQI; o3AQI]).

Definition getAQICategory (aqi : Z) : string :=
  if (aqi <=? 50)%Z then "good"
  else if (aqi <=? 100)%Z then "moderate"
  else if (aqi <=? 150)%Z then "unhealthy_for_sensitive"
  else if (aqi <=? 200)%Z then "unhealthy"
  else if (aqi <=? 300)%Z then "very_unhealthy"
  else "hazardous".

(** The six pollutants of a reading, and the sub-index function of each:
    the operation the specification calls [computeSubIndex]. *)
Inductive Pollutant : Set := PM25 | PM10 | NO2 | SO2 | CO | O3.

Definition breakpointsOf (p : Pollutant) : list Breakpoint :=
  match p with
  | PM25 => PM25_breakpoints
  | PM10 => PM10_breakpoints
  | NO2 => NO2_breakpoints
  | SO2 => SO2_breakpoints
  | CO => CO_breakpoints
  | O3 => O3_breakpoints
  end.

Definition computeSubIndex (p : Pollutant) (concentration : Q) : Completion Z :=
  match p with
  | PM25 => calculatePM25AQI concentration
  | PM10 => calculatePM10AQI concentration
  | NO2 => calculateNO2AQI concentration
  | SO2 => calculateSO2AQI concentration
  | CO => calculateCOAQI concentration
  | O3 => calculateO3AQI concentration
  end.

(** ** [generateSensorReadings] *)

(** [Math.max(a, b)] on rationals. *)
Definition Math_maxQ (a b : Q) : Q := if Qle_bool a b then b else a.

(** [parseFloat(x.toFixed(1))]: the nearest multiple of one tenth, a tie
    going away from zero. *)
Definition toFixed1 (x : Q) : Q :=
  if Qle_bool 0 x
  then inject_Z (Math_round (x * 10)) / 10
  else - (inject_Z (Math_round (- x * 10)) / 10).

(** One entry of [baseValues]. *)
Record BaseValues : Set := mkBaseValues {
  basePm25 : Q;
  basePm10 : Q;
  baseNo2 : Q;
  baseSo2 : Q;
  baseCo : Q;
  baseO3 : Q
}.

Definition mixedBase : BaseValues := mkBaseValues 15 35 25 10 0.8 35.

Definition baseValues : list (string * BaseValues) :=
  [ ("industrial"%string, mkBaseValues 35 70 40 30 1.5 50);
    ("urban"%string, mkBaseValues 20 40 30 15 1.0 40);
    ("residential"%string, mkBaseValues 10 25 15 5 0.5 30);
    ("mixed"%string, mixedBase) ].

(** *** Objects and their properties *)

(** An object literal is kept as the association list of its own
    properties.  [property obj key] is the own property [key]. *)
Fixpoint property {A} (obj : list (string * A)) (key : string) : option A :=
  match obj with
  | [] => None
  | (k, v) :: rest => if String.eqb k key then Some v else property rest key
  end.

(** The property names every object inherits from [Object.prototype]. *)
Definition objectPrototypeNames : list string :=
  [ "constructor"; "hasOwnProperty"; "isPrototypeOf"; "propertyIsEnumerable";
    "toLocaleString"; "toString"; "valueOf"; "__proto__";
    "__defineGetter__"; "__defineSetter__"; "__lookupGetter__";
    "__lookupSetter__" ]%string.

Definition inheritedName (key : string) : bool :=
  existsb (String.eqb key) objectPrototypeNames.

(** The value of [obj[key]]: an own property, a value inherited from
    [Object.prototype] (a function, or the prototype itself: truthy, and
    without any of the properties the module reads), or [undefined]. *)
Inductive Lookup (A : Type) : Type :=
| Own (a : A)
| Inherited
| Missing.
Arguments Own {A} a.
Arguments Inherited {A}.
Arguments Missing {A}.

(** [obj[key]], for an object whose prototype is [Object.prototype]. *)
Definition getProperty {A} (obj : list (string * A)) (key : string) : Lookup A :=
  match property obj key with
  | Some v => Own v
  | None => if inheritedName key then Inherited else Missing
  end.

(** The base values a profile name selects: the entry of [baseValues], the
    entry [mixed] for another name. *)
Definition baseOf (profile : string) : BaseValues :=
  match property baseValues profile with
  | Some base => base
  | None => mixedBase
  end.

(** The values of the object [generateSensorReadings] returns (units and
    timestamps left out). *)
Record Readings : Set := mkReadings {
  pm25Value : Q;
  pm10Value : Q;
  no2Value : Q;
  so2Value : Q;
  coValue : Q;
  o3Value : Q;
  aqiReading : Z;
  aqiReadingCategory : string
}.

(** What [generateSensorReadings] returns.  [NotANumber] is the object it
    returns when [baseValues[profile]] is inherited from [Object.prototype]:
    the base values are then [undefined], the six concentrations [NaN],
    every comparison of [calculateAQIFromBreakpoints] false, hence the AQI 0
    and the category good. *)
Inductive Generated : Set :=
| Measured (readings : Readings)
| NotANumber.

(** [readings.aqi.value] and [readings.aqi.category]. *)
Definition generatedAqi (g : Generated) : Z :=
  match g with
  | Measured r => aqiReading r
  | NotANumber => 0%Z
  end.

Definition generatedCategory (g : Generated) : string :=
  match g with
  | Measured r => aqiReadingCategory r
  | NotANumber => "good"%string
  end.

(** The readings computed from the base values of a profile, in exact
    arithmetic; [Binary64.readingsFrom] is the computation as the code
    evaluates it (at the draw 0.4 the CO reading of an industrial location
    is 1.5 here and 1.4 there). *)
Definition readingsFrom (random : nat -> Q) (draw : nat) (base : BaseValues)
  : Completion Generated :=
  let noise k width := (random (draw + k)%nat - 0.5) * width in
  let pm25 := inject_Z (Math_max 0 [Math_round (basePm25 base + noise 0%nat 10)]) in
  let pm10 := inject_Z (Math_max 0 [Math_round (basePm10 base + noise 1%nat 20)]) in
  let no2 := inject_Z (Math_max 0 [Math_round (baseNo2 base + noise 2%nat 10)]) in
  let so2 := inject_Z (Math_max 0 [Math_round (baseSo2 base + noise 3%nat 5)]) in
  let co := Math_maxQ 0 (toFixed1 (baseCo base + noise 4%nat 0.5)) in
  let o3 := inject_Z (Math_max 0 [Math_round (baseO3 base + noise 5%nat 15)]) in
  aqi <- calculateAQI pm25 pm10 no2 so2 co o3 ;;
  let aqiCategory := getAQICategory aqi in
  Return (Measured {| pm25Value := pm25; pm10Value := pm10; no2Value := no2;
                      so2Value := so2; coValue := co; o3Value := o3;
                      aqiReading := aqi; aqiReadingCategory := aqiCategory |}).

(** [random] gives the successive values of [Math.random()], [draw] the
    number of calls made before; the function makes six. *)
Definition generateSensorReadings (random : nat -> Q) (draw : nat)
    (profile : string) : Completion Generated :=
  match getProperty baseValues profile with
  | Own base => readingsFrom random draw base
  | Missing => readingsFrom random draw mixedBase
  | Inherited => Return NotANumber
  end.

(** ** Health risks: [calculateHealthRisks] and [generateHealthRecommendations] *)

Local Open Scope string_scope.

(** The object literal [riskFactors]; [Object.keys] lists its keys in the
    order they are written. *)
Definition riskFactors : list (string * Q) :=
  [ ("general", 1.0%Q);
    ("elderly", 1.5%Q);
    ("children", 1.3%Q);
    ("respiratory", 2.0%Q);
    ("cardiovascular", 1.8%Q) ].

(** The first [switch (riskLevel)] of [generateHealthRecommendations]:
    the general recommendations; no [default] case. *)
Definition generalRecommendations (riskLevel : string) : list string :=
  if riskLevel =? "minimal" then
    [ "Air quality is good. No special precautions needed." ]
  else if riskLevel =? "low" then
    [ "Air quality is acceptable. Unusually sensitive individuals should consider reducing prolonged outdoor exertion." ]
  else if riskLevel =? "moderate" then
    [ "Members of sensitive groups may experience health effects. The general public is less likely to be affected.";
      "Consider reducing prolonged or heavy outdoor exertion." ]
  else if riskLevel =? "high" then
    [ "Everyone may begin to experience health effects. Members of sensitive groups may experience more serious effects.";
      "Avoid prolonged or heavy outdoor exertion. Consider moving activities indoors or rescheduling." ]
  else if riskLevel =? "very_high" then
    [ "Health alert: The risk of health effects is increased for everyone.";
      "Avoid all outdoor physical activity. Stay indoors with windows closed if possible." ]
  else if riskLevel =? "severe" then
    [ "Health warning of emergency conditions: everyone is more likely to be affected.";
      "Remain indoors with windows closed. If available, use air purifiers.";
      "Wear N95 masks if outdoor activity is unavoidable." ]
  else [].

(** [riskLevel === 'high' || riskLevel === 'very_high' || riskLevel === 'severe'] *)
Definition highOrWorse (riskLevel : string) : bool :=
  (riskLevel =? "high") || (riskLevel =? "very_high") || (riskLevel =? "severe").

(** The [if / else if] chain on [demographicGroup]: the recommendations
    pushed after the general ones. *)
Definition groupRecommendations (riskLevel demographicGroup : string)
  : list string :=
  if (demographicGroup =? "elderly") && negb (riskLevel =? "minimal") then
    [ "Elderly individuals should take extra precautions to limit exposure." ]
    ++ (if highOrWorse riskLevel
        then [ "Consider checking in with healthcare provider if respiratory symptoms develop." ]
        else [])
  else if (demographicGroup =? "children") && negb (riskLevel =? "minimal") then
    [ "Children should reduce outdoor play time." ]
    ++ (if highOrWorse riskLevel
        then [ "Keep children indoors with windows closed." ]
        else [])
  else if (demographicGroup =? "respiratory") && negb (riskLevel =? "minimal") then
    [ "Individuals with respiratory conditions should have medication readily available." ]
    ++ (if (riskLevel =? "moderate") || (riskLevel =? "high")
        then [ "Consider using a mask (N95 or better) when outdoors." ]
        else [])
    ++ (if (riskLevel =? "very_high") || (riskLevel =? "severe")
        then [ "Stay indoors and use air purifiers if available.";
               "Contact healthcare provider if symptoms worsen." ]
        else [])
  else if (demographicGroup =? "cardiovascular") && negb (riskLevel =? "minimal") then
    [ "Individuals with cardiovascular conditions should avoid physical exertion." ]
    ++ (if highOrWorse riskLevel
        then [ "Stay in air-conditioned environments when possible.";
               "Monitor blood pressure and contact healthcare provider if unusual symptoms occur." ]
        else [])
  else [].

Definition generateHealthRecommendations (riskLevel demographicGroup : string)
  : list string :=
  generalRecommendations riskLevel ++ groupRecommendations riskLevel demographicGroup.

(** "Determine base risk level from AQI": the [if] chain of the callback. *)
Definition baseRiskLevel (aqi : Z) : string :=
  if (aqi <=? 50)%Z then "minimal"
  else if (aqi <=? 100)%Z then "low"
  else if (aqi <=? 150)%Z then "moderate"
  else if (aqi <=? 200)%Z then "high"
  else if (aqi <=? 300)%Z then "very_high"
  else "severe".

(** "Calculate a numeric risk score (0-100)": the [switch] with its
    [default: riskScore = 0]. *)
Definition baseRiskScore (riskLevel : string) : Z :=
  if riskLevel =? "minimal" then 10
  else if riskLevel =? "low" then 30
  else if riskLevel =? "moderate" then 50
  else if riskLevel =? "high" then 70
  else if riskLevel =? "very_high" then 85
  else if riskLevel =? "severe" then 100
  else 0.

(** The value stored in [risks[group]]. *)
Record Risk : Set := mkRisk {
  level : string;
  score : Z;
  recommendations : list string
}.

(** The body of [Object.keys(riskFactors).forEach(group => ...)] for one
    group, [factor] being [riskFactors[group]]. *)
Definition groupRisk (aqi : Z) (group : string) (factor : Q) : Risk :=
  let riskLevel := baseRiskLevel aqi in
  let riskScore := baseRiskScore riskLevel in
  let riskScore := Math_min 100 (Math_round (inject_Z riskScore * factor)) in
  let recommendations := generateHealthRecommendations riskLevel group in
  {| level := riskLevel; score := riskScore; recommendations := recommendations |}.

(** What the module reads of a sensor: its id, its location name and
    [readings.aqi]. *)
Record Sensor : Set := mkSensor {
  id : string;
  locationName : string;
  aqiValue : Z;
  aqiCategory : string
}.

(** The value stored in [this.healthRisks[sensor.id]] (the timestamp, a
    reading of the wall clock, is left out). *)
Record HealthRisks : Set := mkHealthRisks {
  location : string;
  aqi : Z;
  category : string;
  risks : list (string * Risk)
}.

Definition sensorHealthRisks (sensor : Sensor) : HealthRisks :=
  {| location := locationName sensor;
     aqi := aqiValue sensor;
     category := aqiCategory sensor;
     risks := map (fun gf => (fst gf, groupRisk (aqiValue sensor) (fst gf) (snd gf)))
                  riskFactors |}.

(** [obj[key] = value] on an object kept as an association list: an
    existing key is overwritten in place, a new one is appended. *)
Fixpoint assign {A} (obj : list (string * A)) (key : string) (value : A)
  : list (string * A) :=
  match obj with
  | [] => [(key, value)]
  | (k, v) :: rest =>
      if k =? key then (k, value) :: rest else (k, v) :: assign rest key value
  end.

(** [calculateHealthRisks]: the state is [this.healthRisks]. *)
Definition calculateHealthRisks (sensors : list Sensor)
    (healthRisks : list (string * HealthRisks)) : list (string * HealthRisks) :=
  fold_left (fun hr sensor => assign hr (id sensor) (sensorHealthRisks sensor))
            sensors healthRisks.

(** ** Forecasts: [generateForecasts] *)

(** One element of [forecast.hourly]; [hourOffset] stands for the
    timestamp, which is the wall clock plus that many hours. *)
Record ForecastPoint : Set := mkForecastPoint {
  hourOffset : Z;
  forecastAqi : Z;
  forecastCategory : string;
  confidence : Z
}.

(** "Rush hour variations": the adjustment by hour of the day. *)
Definition rushHourVariation (hourOfDay : Z) : Q :=
  if (7 <=? hourOfDay)%Z && (hourOfDay <=? 9)%Z then 15%Q
  else if (16 <=? hourOfDay)%Z && (hourOfDay <=? 19)%Z then 20%Q
  else if (22 <=? hourOfDay)%Z || (hourOfDay <=? 5)%Z then (-10)%Q
  else 0%Q.

Section Forecasts.

(** The two sources of non-determinism: the local hour of the wall clock
    read in the iteration for [hour], and the successive values of
    [Math.random()].  [setHours] then [getHours] is taken to add the hours
    modulo 24 (no change of daylight saving time inside the horizon). *)
Variable clockHour : Z -> Z.
Variable random : nat -> Q.

(** The body of the [for] loop for one [hour]; [draw] is the number of
    [Math.random()] calls made before.  The arithmetic is exact;
    [Binary64.forecastedAQI] is the forecast value as the code evaluates
    it. *)
Definition forecastPoint (currentAQI hour : Z) (draw : nat) : ForecastPoint :=
  let hourOfDay := ((clockHour hour + hour) mod 24)%Z in
  let variation := rushHourVariation hourOfDay in
  let variation := (variation + (random draw - 0.5) * 15)%Q in
  let forecastedAQI := Z.max 0 (Math_round (inject_Z currentAQI + variation)) in
  {| hourOffset := hour;
     forecastAqi := forecastedAQI;
     forecastCategory := getAQICategory forecastedAQI;
     confidence := Math_round (90 - (inject_Z hour / 48) * 30) |}.

(** [for (let hour = ...; hour <= 48; hour++)], at most [fuel] iterations. *)
Fixpoint hourlyLoop (fuel : nat) (currentAQI hour : Z) (draw : nat)
  : list ForecastPoint :=
  match fuel with
  | O => []
  | S fuel' =>
      if (hour <=? 48)%Z
      then forecastPoint currentAQI hour draw
           :: hourlyLoop fuel' currentAQI (hour + 1) (S draw)
      else []
  end.

(** The loop started at [hour = 1]: the test fails at [hour = 49], within
    the fuel given. *)
Definition hourly (currentAQI : Z) (draw : nat) : list ForecastPoint :=
  hourlyLoop 49 currentAQI 1 draw.

Record Forecast : Set := mkForecast {
  sensorId : string;
  forecastLocation : string;
  hourlyPoints : list ForecastPoint
}.

(** [this.sensors.forEach(...)], threading the count of random draws. *)
Fixpoint forecastSensors (sensors : list Sensor) (draw : nat) : list Forecast :=
  match sensors with
  | [] => []
  | sensor :: rest =>
      {| sensorId := id sensor;
         forecastLocation := locationName sensor;
         hourlyPoints := hourly (aqiValue sensor) draw |}
      :: forecastSensors rest (draw + 48)
  end.

(** [generateForecasts]: the state is [this.forecasts], pushed to. *)
Definition generateForecasts (sensors : list Sensor) (forecasts : list Forecast)
  : list Forecast :=
  forecasts ++ forecastSensors sensors 0.

End Forecasts.

Local Close Scope string_scope.

(** ** The manager: sample data, [initialize] and the getters *)

Local Open Scope string_scope.

(** [s.includes(part)] *)
Definition includes (s part : string) : bool :=
  match String.index 0 part s with
  | Some _ => true
  | None => false
  end.

(** [n.toString()] of a non-negative integer. *)
Definition numberToString (n : nat) : string :=
  NilZero.string_of_uint (Nat.to_uint n).

(** [count] copies of a character. *)
Fixpoint repeatChar (c : ascii) (count : nat) : string :=
  match count with
  | O => EmptyString
  | S count' => String c (repeatChar c count')
  end.

(** [s.padStart(targetLength, c)] for a pad string of one character. *)
Definition padStart (s : string) (targetLength : nat) (c : ascii) : string :=
  repeatChar c (targetLength - String.length s) ++ s.

Module Sample.

(** An element of [sensorLocations], and the sensor object pushed for it
    ([lastUpdated], a reading of the wall clock, is left out). *)
Record Location : Set := mkLocation {
  lat : Q;
  lng : Q;
  name : string
}.

Record SensorObject : Set := mkSensorObject {
  id : string;
  location : Location;
  type : string;
  readings : Generated
}.

End Sample.

Definition sensorLocations : list Sample.Location :=
  [ Sample.mkLocation 40.7128 (-74.006) "Downtown";
    Sample.mkLocation 40.7138 (-74.013) "Westside";
    Sample.mkLocation 40.7118 (-74.009) "Eastside";
    Sample.mkLocation 40.7148 (-74.016) "Northside";
    Sample.mkLocation 40.7108 (-74.002) "Southside";
    Sample.mkLocation 40.7158 (-74.008) "Central Park";
    Sample.mkLocation 40.7168 (-74.018) "Industrial Zone";
    Sample.mkLocation 40.7098 (-74.019) "Residential Area" ].

(** "Create different pollution profiles based on location". *)
Definition pollutionProfileOf (name : string) : string :=
  if includes name "Industrial" then "industrial"
  else if includes name "Downtown" || includes name "Central" then "urban"
  else if includes name "Residential" then "residential"
  else "mixed".

(** The callback of [sensorLocations.forEach((location, index) => ...)]
    run over [locations] from [index] on; [sensors] is [this.sensors],
    [draw] the number of [Math.random()] calls made so far. *)
Fixpoint loadSensors (random : nat -> Q) (locations : list Sample.Location)
    (index draw : nat) (sensors : list Sample.SensorObject)
  : Completion (list Sample.SensorObject * nat) :=
  match locations with
  | [] => Return (sensors, draw)
  | location :: rest =>
      readings <- generateSensorReadings random draw
                    (pollutionProfileOf (Sample.name location)) ;;
      let sensor :=
        {| Sample.id := "sensor_" ++ padStart (numberToString (index + 1)) 3 "0";
           Sample.location := location;
           Sample.type := "air_quality";
           Sample.readings := readings |} in
      loadSensors random rest (S index) (draw + 6) (sensors ++ [sensor])
  end.

Definition loadSampleSensorData (random : nat -> Q) (draw : nat)
    (sensors : list Sample.SensorObject)
  : Completion (list Sample.SensorObject * nat) :=
  loadSensors random sensorLocations 0 draw sensors.

(** What [calculateHealthRisks] and [generateForecasts] read of a sensor
    object. *)
Definition sensorView (sensor : Sample.SensorObject) : Sensor :=
  {| id := Sample.id sensor;
     locationName := Sample.name (Sample.location sensor);
     aqiValue := generatedAqi (Sample.readings sensor);
     aqiCategory := generatedCategory (Sample.readings sensor) |}.

Module Source.

(** A pollution source: the fields every source has (the descriptive
    fields that only some sources carry are left out). *)
Record PollutionSource : Set := mkPollutionSource {
  id : string;
  type : string;
  name : string;
  lat : Q;
  lng : Q;
  pollutants : list string;
  emissionLevel : string
}.

End Source.

(** The array [loadSamplePollutionSources] assigns to
    [this.pollutionSources]. *)
Definition loadSamplePollutionSources : list Source.PollutionSource :=
  [ Source.mkPollutionSource "source_001" "industrial" "Manufacturing Plant"
      40.7168 (-74.018) ["pm25"; "pm10"; "so2"] "high";
    Source.mkPollutionSource "source_002" "transportation" "Highway Junction"
      40.7138 (-74.013) ["no2"; "pm25"; "co"] "medium";
    Source.mkPollutionSource "source_003" "construction" "Downtown Construction Site"
      40.7128 (-74.006) ["pm10"; "pm25"] "medium";
    Source.mkPollutionSource "source_004" "energy" "Power Plant"
      40.7158 (-74.022) ["so2"; "no2"; "pm25"] "high";
    Source.mkPollutionSource "source_005" "waste" "Waste Processing Facility"
      40.7088 (-74.025) ["pm10"; "so2"] "medium" ].

(** The fields of an [EnvironmentalDataManager]. *)
Record Manager : Set := mkManager {
  sensors : list Sample.SensorObject;
  pollutionSources : list Source.PollutionSource;
  healthRisks : list (string * HealthRisks);
  forecasts : list Forecast;
  initialized : bool
}.

(** The state the constructor leaves. *)
Definition newManager : Manager :=
  {| sensors := []; pollutionSources := []; healthRisks := [];
     forecasts := []; initialized := false |}.

(** [initialize()]; [draw] is the number of [Math.random()] calls made
    before the call. *)
Definition initialize (clockHour : Z -> Z) (random : nat -> Q) (draw : nat)
    (m : Manager) : Completion Manager :=
  if initialized m then Return m
  else
    loaded <- loadSampleSensorData random draw (sensors m) ;;
    let views := map sensorView (fst loaded) in
    Return {| sensors := fst loaded;
              pollutionSources := loadSamplePollutionSources;
              healthRisks := calculateHealthRisks views (healthRisks m);
              forecasts := generateForecasts clockHour
                             (fun n => random (snd loaded + n)%nat)
                             views (forecasts m);
              initialized := true |}.

(** [this.sensors.find(sensor => sensor.id === sensorId) || null] *)
Definition getSensorById (m : Manager) (sensorId : string)
  : option Sample.SensorObject :=
  find (fun sensor => Sample.id sensor =? sensorId) (sensors m).

(** [this.healthRisks[sensorId] || null]; [Missing] is [null]. *)
Definition getHealthRisks (m : Manager) (sensorId : string) : Lookup HealthRisks :=
  getProperty (healthRisks m) sensorId.

(** [this.forecasts.find(forecast => forecast.sensorId === sensorId) || null] *)
Definition getForecast (m : Manager) (wanted : string) : option Forecast :=
  find (fun forecast => sensorId forecast =? wanted) (forecasts m).

Module Advice.

(** The object [getPersonalizedRecommendations] returns (without the
    timestamp); [None] in a field is [undefined]. *)
Record Personalized : Set := mkPersonalized {
  location : string;
  aqi : Z;
  aqiCategory : string;
  riskLevel : option string;
  riskScore : option Z;
  recommendations : option (list string)
}.

End Advice.

(** [None] is [null].  When [this.healthRisks[sensorId]] is a value
    inherited from [Object.prototype], its [risks] is [undefined] and
    indexing it throws. *)
Definition getPersonalizedRecommendations (m : Manager)
    (sensorId demographicGroup : string) : Completion (option Advice.Personalized) :=
  match getProperty (healthRisks m) sensorId with
  | Missing => Return None
  | Inherited => Throw TypeError
  | Own healthRisk =>
      let groupRisk :=
        match getProperty (risks healthRisk) demographicGroup with
        | Missing => getProperty (risks healthRisk) "general"
        | found => found
        end in
      match groupRisk with
      | Missing => Return None
      | Inherited =>
          Return (Some {| Advice.location := location healthRisk;
                          Advice.aqi := aqi healthRisk;
                          Advice.aqiCategory := category healthRisk;
                          Advice.riskLevel := None;
                          Advice.riskScore := None;
                          Advice.recommendations := None |})
      | Own risk =>
          Return (Some {| Advice.location := location healthRisk;
                          Advice.aqi := aqi healthRisk;
                          Advice.aqiCategory := category healthRisk;
                          Advice.riskLevel := Some (level risk);
                          Advice.riskScore := Some (score risk);
                          Advice.recommendations := Some (recommendations risk) |})
      end
  end.

(** The group whose risk is reported: the one asked for when it is one of
    the five, the general public otherwise. *)
Definition reportedGroup (demographicGroup : string) : string :=
  if existsb (String.eqb demographicGroup) (map fst riskFactors)
  then demographicGroup else "general".

(** ** What the display functions compute *)

(** [c.toLowerCase()] for a character of ASCII; other bytes are left as
    they are. *)
Definition lowerChar (c : ascii) : ascii :=
  let n := nat_of_ascii c in
  if (65 <=? n)%nat && (n <=? 90)%nat then ascii_of_nat (n + 32) else c.

(** [s.toLowerCase()] on a string of ASCII characters. *)
Fixpoint toLowerCase (s : string) : string :=
  match s with
  | EmptyString => EmptyString
  | String c rest => String (lowerChar c) (toLowerCase rest)
  end.

Definition getAQIColor (category : string) : string :=
  let key := toLowerCase category in
  if key =? "good" then "#009966"
  else if key =? "moderate" then "#ffde33"
  else if key =? "unhealthy_for_sensitive" then "#ff9933"
  else if key =? "unhealthy" then "#cc0033"
  else if key =? "very_unhealthy" then "#660099"
  else if key =? "hazardous" then "#7e0023"
  else "#808080".

Definition formatAQICategory (category : string) : string :=
  let key := toLowerCase category in
  if key =? "good" then "Good"
  else if key =? "moderate" then "Moderate"
  else if key =? "unhealthy_for_sensitive" then "Unhealthy for Sensitive Groups"
  else if key =? "unhealthy" then "Unhealthy"
  else if key =? "very_unhealthy" then "Very Unhealthy"
  else if key =? "hazardous" then "Hazardous"
  else "Unknown".

Definition formatRiskLevel (level : string) : string :=
  let key := toLowerCase level in
  if key =? "minimal" then "Minimal Risk"
  else if key =? "low" then "Low Risk"
  else if key =? "moderate" then "Moderate Risk"
  else if key =? "high" then "High Risk"
  else if key =? "very_high" then "Very High Risk"
  else if key =? "severe" then "Severe Risk"
  else "Unknown Risk".

(** "Determine risk color": the [switch] of [updateHealthRiskDisplay]. *)
Definition riskColor (riskLevel : string) : string :=
  if riskLevel =? "minimal" then "#009966"
  else if riskLevel =? "low" then "#ffde33"
  else if riskLevel =? "moderate" then "#ff9933"
  else if riskLevel =? "high" then "#cc0033"
  else if riskLevel =? "very_high" then "#660099"
  else if riskLevel =? "severe" then "#7e0023"
  else "#808080".

(** [arr.slice(0, end)] for an integer [end]: a negative [end] counts
    from the end of the array. *)
Definition slice0 {A} (arr : list A) (finish : Z) : list A :=
  let len := Z.of_nat (List.length arr) in
  let final := if (finish <? 0)%Z then Z.max (len + finish) 0 else Z.min finish len in
  firstn (Z.to_nat final) arr.

(** [parseInt(value) || 24], [parsed] being the result of [parseInt]
    ([None] for [NaN]). *)
Definition forecastRangeOf (parsed : option Z) : Z :=
  match parsed with
  | None => 24
  | Some 0%Z => 24
  | Some n => n
  end.

(** "Limit forecast data to selected range" in [updateForecastDisplay]. *)
Definition forecastData (forecast : Forecast) (parsed : option Z)
  : list ForecastPoint :=
  slice0 (hourlyPoints forecast) (forecastRangeOf parsed).

(** The [filters] object of [updatePollutionSourcesDisplay], built from the
    value and the checked state of each check box; assigning a boolean to
    [__proto__] leaves an object as it is. *)
Definition filtersOf (checkboxes : list (string * bool)) : list (string * bool) :=
  fold_left (fun filters checkbox =>
               if fst checkbox =? "__proto__" then filters
               else assign filters (fst checkbox) (snd checkbox))
            checkboxes [].

(** The truth value of [filters[key]]. *)
Definition truthy (found : Lookup bool) : bool :=
  match found with
  | Own checked => checked
  | Inherited => true
  | Missing => false
  end.

(** "Filter sources based on selected types". *)
Definition filteredSources (checkboxes : list (string * bool))
    (sources : list Source.PollutionSource) : list Source.PollutionSource :=
  let filters := filtersOf checkboxes in
  let anyFilterChecked := existsb (fun filter => snd filter) filters in
  if anyFilterChecked
  then filter (fun source => truthy (getProperty filters (Source.type source))) sources
  else sources.

Local Close Scope string_scope.

(** ** The same computations on IEEE-754 binary64 numbers *)

Module Binary64.

Local Open Scope float_scope.

(** The double of an integer below [2^53] in absolute value. *)
Definition ofZ (z : Z) : float :=
  SF2Prim match z with
          | Z0 => S754_zero false
          | Zpos m => S754_finite false m 0
          | Zneg m => S754_finite true m 0
          end.

(** The double a decimal literal denotes, the literal given as the
    fraction [n / d] with [n] and [d] below [2^53]: the division of two
    exact doubles is correctly rounded. *)
Definition literal (q : Q) : float := ofZ (Qnum q) / ofZ (Zpos (Qden q)).

(** [Math.round] of a double, computed exactly on its mantissa and
    exponent; [None] for [NaN] and the infinities. *)
Definition Math_round (x : float) : option Z :=
  match Prim2SF x with
  | S754_zero _ => Some 0%Z
  | S754_finite s m e =>
      let n := if s then Zneg m else Zpos m in
      Some (if (0 <=? e)%Z then (n * 2 ^ e)%Z
            else ((2 * n + 2 ^ (- e)) / 2 ^ (1 - e))%Z)
  | S754_infinity _ | S754_nan => None
  end.

Definition inBracket (concentration : float) (bp : Breakpoint) : bool :=
  (literal (min bp) <=? concentration) && (concentration <=? literal (max bp)).

Definition interpolate (concentration : float) (bp : Breakpoint) : float :=
  ((ofZ (maxAQI bp) - ofZ (minAQI bp)) / (literal (max bp) - literal (min bp)))
  * (concentration - literal (min bp)) + ofZ (minAQI bp).

Fixpoint scanBreakpoints (concentration : float) (breakpoints : list Breakpoint)
  : option (option Z) :=
  match breakpoints with
  | [] => None
  | bp :: rest =>
      if inBracket concentration bp
      then Some (Math_round (interpolate concentration bp))
      else scanBreakpoints concentration rest
  end.

(** [None]: the call does not return a finite number. *)
Definition calculateAQIFromBreakpoints (concentration : float)
    (breakpoints : list Breakpoint) : option Z :=
  match scanBreakpoints concentration breakpoints with
  | Some aqi => aqi
  | None =>
      match last_element breakpoints with
      | None => None
      | Some top =>
          if literal (max top) <? concentration
          then Some (maxAQI top)
          else Some 0%Z
      end
  end.

Definition computeSubIndex (p : Pollutant) (concentration : float) : option Z :=
  calculateAQIFromBreakpoints concentration (breakpointsOf p).

(** [Math.min(100, Math.round(riskScore * factor))] *)
Definition scaledScore (riskScore : Z) (factor : Q) : option Z :=
  option_map (Math_min 100) (Math_round (ofZ riskScore * literal factor)).

(** [Math.round(90 - (hour / 48) * 30)] *)
Definition confidenceAt (hour : Z) : option Z :=
  Math_round (90 - (ofZ hour / 48) * 30).

(** *** The sample readings and the forecast values in binary64 *)

(** The largest double below 1, [1 - 2^-53]: no value of [Math.random()]
    is above it. *)
Definition maxDraw : float := SF2Prim (S754_finite false 9007199254740991 (-53)).

(** The draws [k / steps] for [k] below [steps], and the largest draw. *)
Definition drawGrid (steps : nat) : list float :=
  (map (fun k => ofZ (Z.of_nat k) / ofZ (Z.of_nat steps)) (seq 0 steps)
   ++ [maxDraw])%list.

(** The exact value of a finite double. *)
Definition toQ (x : float) : option Q :=
  match Prim2SF x with
  | S754_zero _ => Some 0%Q
  | S754_finite s m e =>
      let n := if s then Zneg m else Zpos m in
      Some (if (0 <=? e)%Z then inject_Z (n * 2 ^ e)
            else (n # Pos.pow 2 (Z.to_pos (- e)))%Q)
  | S754_infinity _ | S754_nan => None
  end.

(** [parseFloat(x.toFixed(1))]: [toFixed] rounds the exact value of the
    double to a multiple of one tenth, [parseFloat] reads the decimal back
    as the nearest double. *)
Definition toFixed1 (x : float) : option float :=
  option_map (fun q => literal (toFixed1 q)) (toQ x).

(** [Math.max(0, x)] *)
Definition Math_max0 (x : float) : float := if x <? 0 then 0 else x.

(** [Math.max(0, Math.round(base + (Math.random() - 0.5) * width))] *)
Definition roundedReading (base : Q) (draw : float) (width : Q) : option Z :=
  option_map (Z.max 0) (Math_round (literal base + (draw - 0.5) * literal width)).

(** [Math.max(0, parseFloat((base.co + (Math.random() - 0.5) * 0.5).toFixed(1)))] *)
Definition coReading (base : Q) (draw : float) : option float :=
  option_map Math_max0 (toFixed1 (literal base + (draw - 0.5) * 0.5)).

Definition calculateAQI (pm25 pm10 no2 so2 co o3 : float) : option Z :=
  match computeSubIndex PM25 pm25, computeSubIndex PM10 pm10,
        computeSubIndex NO2 no2, computeSubIndex SO2 so2,
        computeSubIndex CO co, computeSubIndex O3 o3 with
  | Some pm25AQI, Some pm10AQI, Some no2AQI, Some so2AQI, Some coAQI, Some o3AQI =>
      Some (Math_max pm25AQI [pm10AQI; no2AQI; so2AQI; coAQI; o3AQI])
  | _, _, _, _, _, _ => None
  end.

(** The values of the object [generateSensorReadings] returns. *)
Record Readings : Set := mkReadings {
  pm25 : Z;
  pm10 : Z;
  no2 : Z;
  so2 : Z;
  co : float;
  o3 : Z;
  aqi : Z;
  category : string
}.

(** The body of [generateSensorReadings] once [base] is chosen; [None]
    when a value is not a finite number. *)
Definition readingsFrom (random : nat -> float) (draw : nat) (base : BaseValues)
  : option Readings :=
  match roundedReading (basePm25 base) (random draw) 10,
        roundedReading (basePm10 base) (random (draw + 1)%nat) 20,
        roundedReading (baseNo2 base) (random (draw + 2)%nat) 10,
        roundedReading (baseSo2 base) (random (draw + 3)%nat) 5,
        coReading (baseCo base) (random (draw + 4)%nat),
        roundedReading (baseO3 base) (random (draw + 5)%nat) 15 with
  | Some pm25, Some pm10, Some no2, Some so2, Some co, Some o3 =>
      match calculateAQI (ofZ pm25) (ofZ pm10) (ofZ no2) (ofZ so2) co (ofZ o3) with
      | Some aqi =>
          Some {| pm25 := pm25; pm10 := pm10; no2 := no2; so2 := so2;
                  co := co; o3 := o3; aqi := aqi;
                  category := getAQICategory aqi |}
      | None => None
      end
  | _, _, _, _, _, _ => None
  end.

(** The bounds of the sample readings. *)
Definition withinSampleBounds (r : Readings) : bool :=
  (pm25 r <=? 40)%Z && (pm10 r <=? 80)%Z && (no2 r <=? 45)%Z
  && (so2 r <=? 33)%Z && (co r <=? literal 1.8) && (o3 r <=? 58)%Z
  && (0 <=? aqi r)%Z && (aqi r <=? 112)%Z.

Definition sampleBoundsOn (draws : list float) : bool :=
  forallb (fun base : string * BaseValues =>
             forallb (fun r =>
                        match readingsFrom (fun _ => r) 0 (snd base) with
                        | Some readings => withinSampleBounds readings
                        | None => false
                        end) draws)
          baseValues.

(** [Math.max(0, Math.round(currentAQI + variation))], the variation
    being that of the hour of the day plus [(Math.random() - 0.5) * 15]. *)
Definition forecastedAQI (currentAQI hourOfDay : Z) (draw : float) : option Z :=
  let variation := literal (rushHourVariation hourOfDay) in
  let variation := variation + (draw - 0.5) * 15 in
  option_map (Z.max 0) (Math_round (ofZ currentAQI + variation)).

(** The bounds of a forecast value, by the hour of the day. *)
Definition withinForecastBounds (currentAQI hourOfDay forecast : Z) : bool :=
  (Z.max 0 (currentAQI - 17) <=? forecast)%Z
  && (forecast <=? Z.max 0 (currentAQI + 28))%Z
  && (if (7 <=? hourOfDay)%Z && (hourOfDay <=? 9)%Z
      then (currentAQI + 8 <=? forecast)%Z else true)
  && (if (16 <=? hourOfDay)%Z && (hourOfDay <=? 19)%Z
      then (currentAQI + 13 <=? forecast)%Z else true)
  && (if (22 <=? hourOfDay)%Z || (hourOfDay <=? 5)%Z
      then (forecast <=? Z.max 0 (currentAQI - 2))%Z else true).

Definition forecastBoundsOn (values hours : list Z) (draws : list float) : bool :=
  forallb (fun currentAQI =>
    forallb (fun hourOfDay =>
      forallb (fun r =>
                 match forecastedAQI currentAQI hourOfDay r with
                 | Some forecast => withinForecastBounds currentAQI hourOfDay forecast
                 | None => false
                 end) draws) hours) values.

End Binary64.

(** ** Properties of the tables in binary64 *)

(** The order [SFcompare] decides on the specification floats: strictly
    below, and below or equal. *)
Definition SFlt (a b : spec_float) : Prop := SFcompare a b = Some Lt.

Definition SFle (a b : spec_float) : Prop :=
  SFcompare a b = Some Lt \/ SFcompare a b = Some Eq.

(** The bounds of a bracket as the doubles the literals denote. *)
Definition lowBound (b : Breakpoint) : float := Binary64.literal (min b).

Definition highBound (b : Breakpoint) : float := Binary64.literal (max b).

(** A table is separated when, as doubles, every bracket has its low
    bound at most its high bound and its high bound strictly below the low
    bound of every later bracket. *)
Fixpoint separated (bps : list Breakpoint) : bool :=
  match bps with
  | [] => true
  | b :: rest =>
      PrimFloat.leb (lowBound b) (highBound b)
      && forallb (fun b' => PrimFloat.ltb (highBound b) (lowBound b')) rest
      && separated rest
  end.

(** What the specification says of [computeSubIndex] at a concentration:
    it lies in a bracket and the result is the rounded interpolation there,
    or it exceeds the high bound of the highest bracket and the result is
    that bracket's [aqiHigh], or it is below the low bound of the lowest
    bracket and the result is 0. *)
Definition ContractAt (p : Pollutant) (c : float) : Prop :=
  (exists b, In b (breakpointsOf p) /\ Binary64.inBracket c b = true
             /\ Binary64.computeSubIndex p c
                = Binary64.Math_round (Binary64.interpolate c b))
  \/ (exists top, last_element (breakpointsOf p) = Some top
                  /\ PrimFloat.ltb (highBound top) c = true
                  /\ Binary64.computeSubIndex p c = Some (maxAQI top))
  \/ (exists low, hd_error (breakpointsOf p) = Some low
                  /\ PrimFloat.ltb c (lowBound low) = true
                  /\ Binary64.computeSubIndex p c = Some 0%Z).

(** ** Properties of the tables *)

(** A table is ascending when every bracket has [min < max] and ends
    strictly below the start of the next one. *)
Inductive Ascending : list Breakpoint -> Prop :=
| Ascending_nil : Ascending []
| Ascending_one b : min b < max b -> Ascending [b]
| Ascending_cons b b' rest :
    min b < max b -> max b < min b' -> Ascending (b' :: rest) ->
    Ascending (b :: b' :: rest).

(** A table is graded when the AQI ranges of its brackets are non-negative,
    well-formed and strictly increasing from a bracket to the next. *)
Inductive Graded : list Breakpoint -> Prop :=
| Graded_nil : Graded []
| Graded_one b : (0 <= minAQI b <= maxAQI b)%Z -> Graded [b]
| Graded_cons b b' rest :
    (0 <= minAQI b <= maxAQI b)%Z -> (maxAQI b < minAQI b')%Z ->
    Graded (b' :: rest) -> Graded (b :: b' :: rest).

(** [b'] follows [b] immediately in the table. *)
Definition Adjacent (b b' : Breakpoint) (bps : list Breakpoint) : Prop :=
  exists before after, bps = before ++ b :: b' :: after.

(** [c] lies in the bracket [[min b, max b]]. *)
Definition within (c : Q) (b : Breakpoint) : Prop := min b <= c <= max b.

(** The formula of the specification, on the fields of a bracket. *)
Definition specInterpolation (c : Q) (b : Breakpoint) : Z :=
  Math_round (((inject_Z (maxAQI b) - inject_Z (minAQI b)) / (max b - min b))
              * (c - min b) + inject_Z (minAQI b)).

(** The pairs of neighbouring brackets of a table. *)
Fixpoint adjacentPairs (bps : list Breakpoint) : list (Breakpoint * Breakpoint) :=
  match bps with
  | b :: ((b' :: _) as rest) => (b, b') :: adjacentPairs rest
  | _ => []
  end.

(** [c] lies inside some bracket of the pollutant's table or above the
    table's top. *)
Definition Covered (p : Pollutant) (c : Q) : Prop :=
  (exists b, In b (breakpointsOf p) /\ min b <= c <= max b)
  \/ (exists top, last_element (breakpointsOf p) = Some top /\ max top < c).

(** The step between the end of a bracket and the start of the next: the
    resolution the tables are written at. *)
Definition tableStep (p : Pollutant) : Q :=
  match p with
  | PM25 | CO => 0.1
  | PM10 | NO2 | SO2 | O3 => 1
  end.

(** ** The vocabulary of the specification *)

(** The six risk levels and the five demographic groups, with the strings
    the code uses for them. *)
Inductive RiskLevel : Set := Minimal | Low | Moderate | High | VeryHigh | Severe.

Inductive Group : Set := General | Elderly | Children | Respiratory | Cardiovascular.

Definition all_levels : list RiskLevel := [Minimal; Low; Moderate; High; VeryHigh; Severe].

Definition all_groups : list Group := [General; Elderly; Children; Respiratory; Cardiovascular].

Definition levelName (l : RiskLevel) : string :=
  match l with
  | Minimal => "minimal"
  | Low => "low"
  | Moderate => "moderate"
  | High => "high"
  | VeryHigh => "very_high"
  | Severe => "severe"
  end.

Definition groupName (g : Group) : string :=
  match g with
  | General => "general"
  | Elderly => "elderly"
  | Children => "children"
  | Respiratory => "respiratory"
  | Cardiovascular => "cardiovascular"
  end.

(** The risk level of an AQI value, by the thresholds of the
    specification. *)
Definition specLevel (aqi : Z) : RiskLevel :=
  if (aqi <=? 50)%Z then Minimal
  else if (aqi <=? 100)%Z then Low
  else if (aqi <=? 150)%Z then Moderate
  else if (aqi <=? 200)%Z then High
  else if (aqi <=? 300)%Z then VeryHigh
  else Severe.

(** The base score of a level and the factor of a group, as the
    specification lists them. *)
Definition specBaseScore (l : RiskLevel) : Z :=
  match l with
  | Minimal => 10
  | Low => 30
  | Moderate => 50
  | High => 70
  | VeryHigh => 85
  | Severe => 100
  end.

Definition specFactor (g : Group) : Q :=
  match g with
  | General => 1.0
  | Elderly => 1.5
  | Children => 1.3
  | Respiratory => 2.0
  | Cardiovascular => 1.8
  end.

(** The score of the specification: base score times factor, rounded,
    clamped to [0, 100]. *)
Definition specRiskScore (l : RiskLevel) (g : Group) : Z :=
  Z.max 0 (Z.min 100 (Math_round (inject_Z (specBaseScore l) * specFactor g))).

(** A call fails when it completes by throwing. *)
Definition failsFast {A} (r : Completion A) : Prop := exists e, r = Throw e.

(** [needle] occurs in [message]. *)
Definition mentions (needle message : string) : bool :=
  match String.index 0 needle message with
  | Some _ => true
  | None => false
  end.

(** Mask guidance: some recommendation speaks of a mask; medical-contact
    guidance: some recommendation speaks of the healthcare provider. *)
Definition maskGuidance (recommendations : list string) : bool :=
  existsb (mentions "mask") recommendations.

Definition medicalContactGuidance (recommendations : list string) : bool :=
  existsb (mentions "healthcare provider") recommendations.

(** ** Notions used for the sample data *)

Local Open Scope string_scope.

(** The id given to the sensor of index [index]. *)
Definition sensorIdOf (index : nat) : string :=
  "sensor_" ++ padStart (numberToString (index + 1)) 3 "0".

(** The readings of a loaded sensor come from [generateSensorReadings] for
    the profile of its location. *)
Definition Generates (random : nat -> Q) (sensor : Sample.SensorObject) : Prop :=
  exists draw,
    generateSensorReadings random draw
      (pollutionProfileOf (Sample.name (Sample.location sensor)))
    = Return (Sample.readings sensor).

(** What a loaded sensor shows of itself. *)
Definition WellFormedSensor (sensor : Sample.SensorObject) : Prop :=
  exists r,
    Sample.readings sensor = Measured r
    /\ (0 <= aqiReading r <= 500)%Z
    /\ aqiReadingCategory r = getAQICategory (aqiReading r)
    /\ calculateAQI (pm25Value r) (pm10Value r) (no2Value r) (so2Value r)
         (coValue r) (o3Value r) = Return (aqiReading r).

Local Close Scope string_scope.

(** * Proofs *)

(** ** Tactics *)

(** Proves a literal table ascending, bracket by bracket. *)
Ltac ascending_table :=
  repeat first [ apply Ascending_cons; [ reflexivity | reflexivity | ]
               | apply Ascending_one; reflexivity ].

(** Destructs a membership in a literal list into its cases. *)
Ltac each_member I :=
  repeat (destruct I as [I | I]; [ try injection I as <- <-; subst | ]);
  try destruct I.

(** [c] lies in the [n]-th bracket of a literal table; [c] lies above its
    last bracket. *)
Ltac in_bracket n :=
  left; eexists; split;
  [ apply (nth_error_In _ n); reflexivity
  | cbn; unfold Qle; cbn; lia ].

Ltac above_top :=
  right; eexists; split; [ reflexivity | cbn; unfold Qlt; cbn; lia ].

(** Settles a statement on a closed recommendation list by evaluation. *)
Ltac decide_table :=
  vm_compute; repeat split; intros;
  repeat match goal with
    | H : _ /\ _ |- _ => destruct H
    | H : _ \/ _ |- _ => destruct H
    | H : False |- _ => destruct H
    end;
  try discriminate; try congruence; try lia; auto 10.

(** Decides a comparison of specification floats by cases on the signs,
    the exponents and the mantissas. *)
Ltac sf_cases :=
  repeat match goal with
    | s : bool |- _ => destruct s
    end;
  cbn in *;
  repeat match goal with
    | H : context [Z.compare ?x ?y] |- _ => destruct (Z.compare_spec x y)
    | |- context [Z.compare ?x ?y] => destruct (Z.compare_spec x y)
    | H : context [Pos.compare_cont Eq ?x ?y] |- _ =>
        change (Pos.compare_cont Eq x y) with (Pos.compare x y) in *;
        destruct (Pos.compare_spec x y)
    | |- context [Pos.compare_cont Eq ?x ?y] =>
        change (Pos.compare_cont Eq x y) with (Pos.compare x y) in *;
        destruct (Pos.compare_spec x y)
    end;
  cbn in *; subst; try discriminate; try reflexivity; try lia;
  try (exfalso; lia).

(** ** Rounding *)

Lemma Math_round_inject_Z (z : Z) : Math_round (inject_Z z) = z.
Proof.
  unfold Math_round, Qfloor, Qplus, inject_Z; simpl.
  symmetry. apply (Z.div_unique_pos _ 2 z 1); lia.
Qed.

Lemma Math_round_comp (x y : Q) : x == y -> Math_round x = Math_round y.
Proof.
  intros E. unfold Math_round. apply Qfloor_comp. rewrite E. reflexivity.
Qed.

Lemma Math_round_le (x y : Q) : x <= y -> (Math_round x <= Math_round y)%Z.
Proof.
  intros L. unfold Math_round. apply Qfloor_resp_le.
  apply Qplus_le_compat; [ assumption | apply Qle_refl ].
Qed.

(** ** The tables are ascending *)


Lemma breakpoints_Ascending (p : Pollutant) : Ascending (breakpointsOf p).
Proof. destruct p; cbn [breakpointsOf]; ascending_table. Qed.

Lemma Ascending_tail b rest : Ascending (b :: rest) -> Ascending rest.
Proof. inversion 1; subst; [ constructor | assumption ]. Qed.

Lemma Ascending_head b rest : Ascending (b :: rest) -> min b < max b.
Proof. inversion 1; assumption. Qed.

(** Every later bracket starts above the end of the first one. *)
Lemma Ascending_later b rest :
  Ascending (b :: rest) -> forall b', In b' rest -> max b < min b'.
Proof.
  revert b. induction rest as [| b1 rest IH]; intros b A b' I.
  - destruct I.
  - inversion A as [| | ? ? ? Hb Hgap A' ]; subst.
    destruct I as [-> | I]; [ assumption | ].
    pose proof (IH b1 A' b' I). pose proof (Ascending_head _ _ A'). lra.
Qed.

Lemma Ascending_In b bps : Ascending bps -> In b bps -> min b < max b.
Proof.
  induction bps as [| b0 rest IH]; intros A I; [ destruct I | ].
  destruct I as [-> | I].
  - exact (Ascending_head _ _ A).
  - exact (IH (Ascending_tail _ _ A) I).
Qed.

(** ** The loop of [calculateAQIFromBreakpoints] *)

Lemma inBracket_iff c b : inBracket c b = true <-> within c b.
Proof.
  unfold inBracket, within. rewrite andb_true_iff, !Qle_bool_iff. tauto.
Qed.

Lemma inBracket_false c b : ~ within c b -> inBracket c b = false.
Proof.
  intros N. destruct (inBracket c b) eqn:E; [ | reflexivity ].
  apply inBracket_iff in E. contradiction.
Qed.

(** The loop falls through exactly when no bracket contains [c]. *)
Lemma scanBreakpoints_None c bps :
  scanBreakpoints c bps = None <-> forall b, In b bps -> ~ within c b.
Proof.
  induction bps as [| b0 rest IH]; simpl.
  - split; [ intros _ b [] | reflexivity ].
  - destruct (inBracket c b0) eqn:E.
    + split; [ discriminate | ].
      intros H. apply inBracket_iff in E. destruct (H b0 (or_introl eq_refl) E).
    + rewrite IH. split.
      * intros H b [<- | I]; [ | auto ].
        intros W. apply inBracket_iff in W. congruence.
      * intros H b I. apply H. right; assumption.
Qed.

(** In an ascending table the loop returns at the bracket containing [c]. *)
Lemma scanBreakpoints_within c b bps :
  Ascending bps -> In b bps -> within c b ->
  scanBreakpoints c bps = Some (specInterpolation c b).
Proof.
  induction bps as [| b0 rest IH]; intros A I W; [ destruct I | ].
  simpl. destruct I as [-> | I].
  - apply inBracket_iff in W. rewrite W. reflexivity.
  - rewrite inBracket_false.
    + apply IH; [ exact (Ascending_tail _ _ A) | assumption | assumption ].
    + pose proof (Ascending_later _ _ A b I). unfold within in *. lra.
Qed.

(** Two brackets of an ascending table that share a point are the same. *)
Lemma within_unique c b b' bps :
  Ascending bps -> In b bps -> In b' bps -> within c b -> within c b' -> b' = b.
Proof.
  induction bps as [| b0 rest IH]; intros A I I' W W'; [ destruct I | ].
  destruct I as [-> | I], I' as [-> | I'].
  - reflexivity.
  - pose proof (Ascending_later _ _ A b' I'). unfold within in *. lra.
  - pose proof (Ascending_later _ _ A b I). unfold within in *. lra.
  - exact (IH (Ascending_tail _ _ A) I I' W W').
Qed.

Lemma last_element_In {A} (top : A) (arr : list A) :
  last_element arr = Some top -> In top arr.
Proof. unfold last_element. apply nth_error_In. Qed.

Lemma last_element_cons {A} (a b : A) (arr : list A) :
  last_element (a :: b :: arr) = last_element (b :: arr).
Proof. unfold last_element. simpl. rewrite Nat.sub_0_r. reflexivity. Qed.

(** The last bracket of an ascending table has the largest [max]. *)
Lemma Ascending_top top bps :
  Ascending bps -> last_element bps = Some top ->
  forall b, In b bps -> max b <= max top.
Proof.
  induction bps as [| b0 rest IH]; intros A L b I; [ destruct I | ].
  destruct rest as [| b1 rest].
  - destruct I as [-> | []]. injection L as ->. lra.
  - rewrite last_element_cons in L.
    pose proof (IH (Ascending_tail _ _ A) L) as IH'.
    destruct I as [-> | I]; [ | auto ].
    pose proof (Ascending_later _ _ A b1 (or_introl eq_refl)).
    pose proof (Ascending_head _ _ (Ascending_tail _ _ A)).
    pose proof (IH' b1 (or_introl eq_refl)). lra.
Qed.

(** Above the last bracket the call saturates. *)
Lemma calculateAQIFromBreakpoints_above c top bps :
  Ascending bps -> last_element bps = Some top -> max top < c ->
  calculateAQIFromBreakpoints c bps = Return (maxAQI top).
Proof.
  intros A L G. unfold calculateAQIFromBreakpoints.
  replace (scanBreakpoints c bps) with (@None Z).
  - rewrite L.
    destruct (Qle_bool c (max top)) eqn:E; [ | reflexivity ].
    apply Qle_bool_iff in E. lra.
  - symmetry. apply scanBreakpoints_None. intros b I W.
    pose proof (Ascending_top _ _ A L b I). unfold within in W. lra.
Qed.

(** Where no bracket contains [c] and [c] is not above the last one, the
    call returns the default 0. *)
Lemma calculateAQIFromBreakpoints_default c top bps :
  (forall b, In b bps -> ~ within c b) ->
  last_element bps = Some top -> c <= max top ->
  calculateAQIFromBreakpoints c bps = Return 0%Z.
Proof.
  intros N L G. unfold calculateAQIFromBreakpoints.
  apply scanBreakpoints_None in N. rewrite N, L.
  apply Qle_bool_iff in G. rewrite G. reflexivity.
Qed.

Lemma calculateAQIFromBreakpoints_within c b bps :
  Ascending bps -> In b bps -> within c b ->
  calculateAQIFromBreakpoints c bps = Return (specInterpolation c b).
Proof.
  intros A I W. unfold calculateAQIFromBreakpoints.
  rewrite (scanBreakpoints_within c b bps A I W). reflexivity.
Qed.

Lemma computeSubIndex_table p c :
  computeSubIndex p c = calculateAQIFromBreakpoints c (breakpointsOf p).
Proof. destruct p; reflexivity. Qed.

Lemma breakpoints_top (p : Pollutant) :
  exists top, last_element (breakpointsOf p) = Some top.
Proof. destruct p; eexists; reflexivity. Qed.


(** The interpolation hits the AQI bounds at the ends of a bracket. *)
Lemma specInterpolation_max b :
  min b < max b -> specInterpolation (max b) b = maxAQI b.
Proof.
  intros L. unfold specInterpolation.
  transitivity (Math_round (inject_Z (maxAQI b))).
  - apply Math_round_comp. field. lra.
  - apply Math_round_inject_Z.
Qed.

Lemma specInterpolation_min b :
  min b < max b -> specInterpolation (min b) b = minAQI b.
Proof.
  intros L. unfold specInterpolation.
  transitivity (Math_round (inject_Z (minAQI b))).
  - apply Math_round_comp. field. lra.
  - apply Math_round_inject_Z.
Qed.


Lemma Adjacent_pairs b b' bps :
  Adjacent b b' bps -> In (b, b') (adjacentPairs bps).
Proof.
  intros (before & after & ->).
  induction before as [| a before IH]; simpl.
  - left; reflexivity.
  - destruct (before ++ b :: b' :: after) eqn:E.
    + destruct before; discriminate.
    + right. exact IH.
Qed.

Lemma Adjacent_In b b' bps : Adjacent b b' bps -> In b bps /\ In b' bps.
Proof.
  intros (before & after & ->). split; apply in_or_app; right; simpl; auto.
Qed.


(** ** The claims on the sub-index *)

(** C3. For every integer AQI value [v], [getAQICategory] returns good iff
    [v <= 50], moderate iff [50 < v <= 100], unhealthy-for-sensitive iff
    [100 < v <= 150], unhealthy iff [150 < v <= 200], very-unhealthy iff
    [200 < v <= 300] and hazardous iff [v > 300]; at the boundaries 50 is
    good, 51 and 100 moderate, 101 unhealthy-for-sensitive, and so on. *)
Theorem getAQICategory_thresholds (v : Z) :
  ((getAQICategory v = "good"%string <-> v <= 50)
   /\ (getAQICategory v = "moderate"%string <-> 50 < v <= 100)
   /\ (getAQICategory v = "unhealthy_for_sensitive"%string <-> 100 < v <= 150)
   /\ (getAQICategory v = "unhealthy"%string <-> 150 < v <= 200)
   /\ (getAQICategory v = "very_unhealthy"%string <-> 200 < v <= 300)
   /\ (getAQICategory v = "hazardous"%string <-> 300 < v))%Z
  /\ map getAQICategory [0; 50; 51; 100; 101; 150; 151; 200; 201; 300; 301; 500]%Z
     = [ "good"; "good"; "moderate"; "moderate";
         "unhealthy_for_sensitive"; "unhealthy_for_sensitive";
         "unhealthy"; "unhealthy"; "very_unhealthy"; "very_unhealthy";
         "hazardous"; "hazardous" ]%string.
Proof.
  split; [ | reflexivity ].
  unfold getAQICategory.
  destruct (Z.leb_spec v 50); [ | destruct (Z.leb_spec v 100);
    [ | destruct (Z.leb_spec v 150); [ | destruct (Z.leb_spec v 200);
    [ | destruct (Z.leb_spec v 300) ] ] ] ];
  repeat split; intros; try discriminate; try lia.
Qed.

(** *** The order of binary64 numbers *)

(** [SFcompare] is transitive on the specification floats, whatever
    their mantissas and exponents. *)
Lemma SFlt_le_trans a b c : SFlt a b -> SFle b c -> SFlt a c.
Proof.
  unfold SFlt, SFle. intros H [K | K]; revert H K;
    destruct a, b, c; intros H K; sf_cases.
Qed.

Lemma SFle_lt_trans a b c : SFle a b -> SFlt b c -> SFlt a c.
Proof.
  unfold SFlt, SFle. intros [H | H] K; revert H K;
    destruct a, b, c; intros H K; sf_cases.
Qed.

Lemma SFlt_not_leb a b : SFlt a b -> SFleb b a = false.
Proof. unfold SFlt, SFleb. destruct a, b; intros H; sf_cases. Qed.

Lemma SFlt_not_ltb a b : SFlt a b -> SFltb b a = false.
Proof. unfold SFlt, SFltb. destruct a, b; intros H; sf_cases. Qed.

Lemma ltb_SFlt (x y : float) :
  PrimFloat.ltb x y = true <-> SFlt (Prim2SF x) (Prim2SF y).
Proof.
  rewrite ltb_spec. unfold SFltb, SFlt.
  destruct (SFcompare (Prim2SF x) (Prim2SF y)) as [[ | | ] |];
    split; intros H; try discriminate H; reflexivity.
Qed.

Lemma leb_SFle (x y : float) :
  PrimFloat.leb x y = true <-> SFle (Prim2SF x) (Prim2SF y).
Proof.
  rewrite leb_spec. unfold SFleb, SFle.
  destruct (SFcompare (Prim2SF x) (Prim2SF y)) as [[ | | ] |];
    split; intros H; try discriminate H; try reflexivity; auto;
    destruct H as [H | H]; discriminate H.
Qed.

Lemma ltb_leb_trans (x y z : float) :
  PrimFloat.ltb x y = true -> PrimFloat.leb y z = true -> PrimFloat.ltb x z = true.
Proof.
  rewrite !ltb_SFlt, leb_SFle. apply SFlt_le_trans.
Qed.

Lemma leb_ltb_trans (x y z : float) :
  PrimFloat.leb x y = true -> PrimFloat.ltb y z = true -> PrimFloat.ltb x z = true.
Proof.
  rewrite !ltb_SFlt, leb_SFle. apply SFle_lt_trans.
Qed.

Lemma ltb_not_leb (x y : float) :
  PrimFloat.ltb x y = true -> PrimFloat.leb y x = false.
Proof. rewrite ltb_SFlt, leb_spec. apply SFlt_not_leb. Qed.

Lemma ltb_not_ltb (x y : float) :
  PrimFloat.ltb x y = true -> PrimFloat.ltb y x = false.
Proof. rewrite ltb_SFlt, ltb_spec. apply SFlt_not_ltb. Qed.

(** *** The loop on binary64 numbers *)

Lemma breakpoints_separated (p : Pollutant) : separated (breakpointsOf p) = true.
Proof. destruct p; vm_compute; reflexivity. Qed.

Lemma separated_cons b rest :
  separated (b :: rest) = true ->
  PrimFloat.leb (lowBound b) (highBound b) = true
  /\ (forall b', In b' rest -> PrimFloat.ltb (highBound b) (lowBound b') = true)
  /\ separated rest = true.
Proof.
  cbn [separated]. rewrite !andb_true_iff, forallb_forall. tauto.
Qed.

Lemma inBracket64_bounds (c : float) (b : Breakpoint) :
  Binary64.inBracket c b = true <->
  PrimFloat.leb (lowBound b) c = true /\ PrimFloat.leb c (highBound b) = true.
Proof. unfold Binary64.inBracket. apply andb_true_iff. Qed.

Lemma separated_In b bps :
  separated bps = true -> In b bps ->
  PrimFloat.leb (lowBound b) (highBound b) = true.
Proof.
  induction bps as [| b0 rest IH]; intros S I; [ destruct I | ].
  destruct (separated_cons _ _ S) as (H & _ & S').
  destruct I as [<- | I]; [ exact H | exact (IH S' I) ].
Qed.

(** A concentration in a later bracket is in no earlier one, and one in
    an earlier bracket is in no later one. *)
Lemma later_excludes (c : float) (b b' : Breakpoint) :
  PrimFloat.ltb (highBound b) (lowBound b') = true ->
  Binary64.inBracket c b' = true -> Binary64.inBracket c b = false.
Proof.
  intros L W. apply inBracket64_bounds in W. destruct W as [W _].
  unfold Binary64.inBracket. fold (lowBound b) (highBound b).
  rewrite (ltb_not_leb _ _ (ltb_leb_trans _ _ _ L W)). apply andb_false_r.
Qed.

Lemma scanBreakpoints64_None (c : float) (bps : list Breakpoint) :
  (forall b, In b bps -> Binary64.inBracket c b = false) ->
  Binary64.scanBreakpoints c bps = None.
Proof.
  induction bps as [| b0 rest IH]; intros N; [ reflexivity | ].
  cbn [Binary64.scanBreakpoints]. rewrite (N b0 (or_introl eq_refl)).
  apply IH. intros b I. apply N. right; exact I.
Qed.

Lemma scanBreakpoints64_within (c : float) (b : Breakpoint) (bps : list Breakpoint) :
  separated bps = true -> In b bps -> Binary64.inBracket c b = true ->
  Binary64.scanBreakpoints c bps
  = Some (Binary64.Math_round (Binary64.interpolate c b)).
Proof.
  induction bps as [| b0 rest IH]; intros S I W; [ destruct I | ].
  destruct (separated_cons _ _ S) as (_ & Later & S').
  cbn [Binary64.scanBreakpoints]. destruct I as [-> | I].
  - rewrite W. reflexivity.
  - rewrite (later_excludes c b0 b (Later b I) W). exact (IH S' I W).
Qed.

Lemma inBracket64_unique (c : float) (b b' : Breakpoint) (bps : list Breakpoint) :
  separated bps = true -> In b bps -> In b' bps ->
  Binary64.inBracket c b = true -> Binary64.inBracket c b' = true -> b' = b.
Proof.
  induction bps as [| b0 rest IH]; intros S I I' W W'; [ destruct I | ].
  destruct (separated_cons _ _ S) as (_ & Later & S').
  destruct I as [-> | I], I' as [-> | I'].
  - reflexivity.
  - rewrite (later_excludes c b b' (Later b' I') W') in W. discriminate W.
  - rewrite (later_excludes c b' b (Later b I) W) in W'. discriminate W'.
  - exact (IH S' I I' W W').
Qed.

(** No bracket of a separated table ends above the last one. *)
Lemma separated_top (top b : Breakpoint) (bps : list Breakpoint) :
  separated bps = true -> last_element bps = Some top -> In b bps ->
  b = top \/ PrimFloat.ltb (highBound b) (highBound top) = true.
Proof.
  induction bps as [| b0 rest IH]; intros S L I; [ destruct I | ].
  destruct (separated_cons _ _ S) as (_ & Later & S').
  destruct rest as [| b1 rest].
  - destruct I as [<- | []]. left. injection L as ->. reflexivity.
  - rewrite last_element_cons in L. destruct I as [<- | I].
    + right. pose proof (last_element_In _ _ L) as It.
      exact (ltb_leb_trans _ _ _ (Later top It) (separated_In top _ S' It)).
    + exact (IH S' L I).
Qed.

Lemma above_excludes (c : float) (top b : Breakpoint) (bps : list Breakpoint) :
  separated bps = true -> last_element bps = Some top -> In b bps ->
  PrimFloat.ltb (highBound top) c = true -> Binary64.inBracket c b = false.
Proof.
  intros S L I G. unfold Binary64.inBracket. fold (lowBound b) (highBound b).
  assert (PrimFloat.ltb (highBound b) c = true) as H.
  { destruct (separated_top top b bps S L I) as [-> | H]; [ exact G | ].
    apply (ltb_leb_trans _ (highBound top)); [ exact H | ].
    apply leb_SFle. left. apply ltb_SFlt. exact G. }
  rewrite (ltb_not_leb _ _ H). apply andb_false_r.
Qed.

Lemma below_excludes (c : float) (low b : Breakpoint) (rest : list Breakpoint) :
  separated (low :: rest) = true -> In b (low :: rest) ->
  PrimFloat.ltb c (lowBound low) = true ->
  Binary64.inBracket c b = false /\ PrimFloat.ltb (highBound b) c = false.
Proof.
  intros S I G. destruct (separated_cons _ _ S) as (H & Later & S').
  assert (PrimFloat.ltb c (lowBound b) = true) as Lb.
  { destruct I as [<- | I]; [ exact G | ].
    apply ltb_SFlt. apply (SFlt_le_trans _ (Prim2SF (lowBound low))).
    - apply ltb_SFlt. exact G.
    - left. apply ltb_SFlt. exact (leb_ltb_trans _ _ _ H (Later b I)). }
  split.
  - unfold Binary64.inBracket. fold (lowBound b) (highBound b).
    rewrite (ltb_not_leb _ _ Lb). reflexivity.
  - apply ltb_not_ltb.
    exact (ltb_leb_trans _ _ _ Lb (separated_In b _ S I)).
Qed.

Lemma computeSubIndex64_top (p : Pollutant) :
  exists top low rest,
    breakpointsOf p = low :: rest
    /\ last_element (breakpointsOf p) = Some top.
Proof. destruct p; do 3 eexists; split; reflexivity. Qed.

(** C1, amended.  On the binary64 numbers of the code, for every
    pollutant and concentration [c]: when a bracket of the pollutant's
    table contains [c], that bracket is the only one and the sub-index is
    [Math.round] of [(aqiHigh - aqiLow) / (high - low) * (c - low) + aqiLow]
    as binary64 arithmetic evaluates it; when [c] exceeds the high bound of
    the highest bracket the sub-index is that bracket's [aqiHigh] (1000 for
    PM2.5 gives 500); when [c] is below the low bound of the lowest bracket
    the sub-index is 0. *)
Theorem computeSubIndex_contract_binary64 (p : Pollutant) (c : float) :
  (forall b, In b (breakpointsOf p) ->
     PrimFloat.leb (Binary64.literal (min b)) c = true ->
     PrimFloat.leb c (Binary64.literal (max b)) = true ->
     Binary64.computeSubIndex p c
     = Binary64.Math_round
         (PrimFloat.add
            (PrimFloat.mul
               (PrimFloat.div
                  (PrimFloat.sub (Binary64.ofZ (maxAQI b)) (Binary64.ofZ (minAQI b)))
                  (PrimFloat.sub (Binary64.literal (max b)) (Binary64.literal (min b))))
               (PrimFloat.sub c (Binary64.literal (min b))))
            (Binary64.ofZ (minAQI b)))
     /\ (forall b', In b' (breakpointsOf p) ->
           PrimFloat.leb (Binary64.literal (min b')) c = true ->
           PrimFloat.leb c (Binary64.literal (max b')) = true -> b' = b))
  /\ (exists top, last_element (breakpointsOf p) = Some top
        /\ (PrimFloat.ltb (Binary64.literal (max top)) c = true ->
            Binary64.computeSubIndex p c = Some (maxAQI top)))
  /\ (exists low, hd_error (breakpointsOf p) = Some low
        /\ (PrimFloat.ltb c (Binary64.literal (min low)) = true ->
            Binary64.computeSubIndex p c = Some 0%Z))
  /\ Binary64.computeSubIndex PM25 1000 = Some 500%Z.
Proof.
  pose proof (breakpoints_separated p) as S.
  destruct (computeSubIndex64_top p) as (top & low & rest & E & L).
  unfold Binary64.computeSubIndex, Binary64.calculateAQIFromBreakpoints.
  split; [ | split; [ | split; [ | reflexivity ] ] ].
  - intros b I W1 W2.
    assert (Binary64.inBracket c b = true) as W
      by (apply inBracket64_bounds; split; assumption).
    split.
    + rewrite (scanBreakpoints64_within c b _ S I W). reflexivity.
    + intros b' I' W1' W2'.
      apply (inBracket64_unique c b b' _ S I I' W).
      apply inBracket64_bounds; split; assumption.
  - exists top. split; [ exact L | ]. intros G.
    rewrite scanBreakpoints64_None, L.
    + rewrite G. reflexivity.
    + intros b I. exact (above_excludes c top b _ S L I G).
  - exists low. rewrite E in *. split; [ reflexivity | ]. intros G.
    rewrite scanBreakpoints64_None, L.
    + pose proof (last_element_In _ _ L) as It.
      pose proof (proj2 (below_excludes c low top rest S It G)) as N.
      unfold highBound in N. rewrite N. reflexivity.
    + intros b I. exact (proj1 (below_excludes c low b rest S I G)).
Qed.

(** The amended C1 at PM2.5 = 9.6, inside the first bracket, and at
    PM10 = 16.74, where binary64 arithmetic rounds the interpolation to 15. *)
Lemma computeSubIndex_contract_binary64_witness :
  Binary64.computeSubIndex PM25 (Binary64.literal 9.6) = Some 40%Z
  /\ Binary64.computeSubIndex PM10 (Binary64.literal 16.74) = Some 15%Z.
Proof.
  split.
  - destruct (computeSubIndex_contract_binary64 PM25 (Binary64.literal 9.6)) as [H _].
    destruct (H (mkBreakpoint 0 12 0 50)) as [E _];
      [ left; reflexivity | vm_compute; reflexivity | vm_compute; reflexivity | ].
    rewrite E. vm_compute. reflexivity.
  - destruct (computeSubIndex_contract_binary64 PM10 (Binary64.literal 16.74)) as [H _].
    destruct (H (mkBreakpoint 0 54 0 50)) as [E _];
      [ left; reflexivity | vm_compute; reflexivity | vm_compute; reflexivity | ].
    rewrite E. vm_compute. reflexivity.
Defined.

(** The claim of C1 fails for PM2.5 at 12.05, a concentration [c >= 0]:
    no bracket contains it, it is neither above the highest bracket nor
    below the lowest, and the code returns 0. *)
Lemma gap_concentration_breaks_contract :
  PrimFloat.leb 0 (Binary64.literal 12.05) = true
  /\ Binary64.computeSubIndex PM25 (Binary64.literal 12.05) = Some 0%Z
  /\ ~ ContractAt PM25 (Binary64.literal 12.05).
Proof.
  split; [ vm_compute; reflexivity | split; [ vm_compute; reflexivity | ] ].
  intros [(b & I & W & _) | [(top & L & G & _) | (low & L & G & _)]].
  - cbn in I; each_member I; vm_compute in W; discriminate W.
  - injection L as <-. vm_compute in G. discriminate G.
  - injection L as <-. vm_compute in G. discriminate G.
Qed.


(** Neighbouring brackets of the six tables carry consecutive AQI values. *)
Lemma adjacent_AQI_consecutive (p : Pollutant) (b b' : Breakpoint) :
  Adjacent b b' (breakpointsOf p) -> minAQI b' = (maxAQI b + 1)%Z.
Proof.
  intros Adj. apply Adjacent_pairs in Adj.
  destruct p; cbn in Adj; each_member Adj; reflexivity.
Qed.

(** C4. For every pollutant and every bracket of its table, the sub-index
    at the bracket's [concentrationHigh] is the bracket's [aqiHigh], the
    sub-index at a bracket's [concentrationLow] is its [aqiLow] (so also at
    the next bracket's low bound), and the next bracket's [aqiLow] is the
    [aqiHigh] plus one: the derived AQI neither skips nor repeats a value
    at a boundary.  The same results come out in binary64 arithmetic. *)
Theorem boundary_continuity (p : Pollutant) (b : Breakpoint) :
  In b (breakpointsOf p) ->
  computeSubIndex p (max b) = Return (maxAQI b)
  /\ computeSubIndex p (min b) = Return (minAQI b)
  /\ (forall b', Adjacent b b' (breakpointsOf p) ->
        computeSubIndex p (min b') = Return (minAQI b')
        /\ minAQI b' = (maxAQI b + 1)%Z)
  /\ Binary64.computeSubIndex p (Binary64.literal (max b)) = Some (maxAQI b)
  /\ Binary64.computeSubIndex p (Binary64.literal (min b)) = Some (minAQI b).
Proof.
  intros I. pose proof (breakpoints_Ascending p) as A.
  assert (forall x, In x (breakpointsOf p) ->
            computeSubIndex p (max x) = Return (maxAQI x)
            /\ computeSubIndex p (min x) = Return (minAQI x)) as Ends.
  { intros x Ix. pose proof (Ascending_In x _ A Ix) as Lx.
    rewrite !computeSubIndex_table. split.
    - rewrite (calculateAQIFromBreakpoints_within (max x) x _ A Ix).
      + rewrite (specInterpolation_max x Lx). reflexivity.
      + unfold within. lra.
    - rewrite (calculateAQIFromBreakpoints_within (min x) x _ A Ix).
      + rewrite (specInterpolation_min x Lx). reflexivity.
      + unfold within. lra. }
  split; [ apply Ends; assumption | ].
  split; [ apply Ends; assumption | ].
  split.
  - intros b' Adj. split.
    + apply Ends. apply (Adjacent_In b b'). assumption.
    + exact (adjacent_AQI_consecutive p b b' Adj).
  - destruct p; cbn in I; each_member I; split; vm_compute; reflexivity.
Qed.

(** C4 at the bracket [35.5, 55.4] of PM2.5. *)
Lemma boundary_continuity_witness :
  computeSubIndex PM25 55.4 = Return 150%Z
  /\ computeSubIndex PM25 35.5 = Return 101%Z.
Proof.
  destruct (boundary_continuity PM25 (mkBreakpoint 35.5 55.4 101 150))
    as (Hmax & Hmin & _).
  - cbn. right; right; left; reflexivity.
  - split; assumption.
Defined.



(** ** Coverage of the concentration axis *)


(** The claim of C5 fails for PM2.5 at 12.05: the brackets [0, 12] and
    [12.1, 35.4] leave it out, and it is not above the top, 500.4. *)
Lemma breakpoints_leave_gaps : 0 <= 12.05 /\ ~ Covered PM25 12.05.
Proof.
  split; [ discriminate | ].
  intros [(b & I & W) | (top & L & G)].
  - cbn in I; each_member I; cbn in W; destruct W as [W1 W2];
      first [ now apply W1 | now apply W2 ].
  - injection L as <-. discriminate G.
Qed.


(** Every non-negative multiple of the table step is covered. *)
Lemma grid_Covered (p : Pollutant) (k : Z) :
  (0 <= k)%Z -> Covered p (inject_Z k * tableStep p).
Proof.
  intros Hk. unfold Covered.
  destruct p; cbn [tableStep breakpointsOf].
  - destruct (Z_le_gt_dec k 120); [ in_bracket 0%nat | ].
    destruct (Z_le_gt_dec k 354); [ in_bracket 1%nat | ].
    destruct (Z_le_gt_dec k 554); [ in_bracket 2%nat | ].
    destruct (Z_le_gt_dec k 1504); [ in_bracket 3%nat | ].
    destruct (Z_le_gt_dec k 2504); [ in_bracket 4%nat | ].
    destruct (Z_le_gt_dec k 5004); [ in_bracket 5%nat | above_top ].
  - destruct (Z_le_gt_dec k 54); [ in_bracket 0%nat | ].
    destruct (Z_le_gt_dec k 154); [ in_bracket 1%nat | ].
    destruct (Z_le_gt_dec k 254); [ in_bracket 2%nat | ].
    destruct (Z_le_gt_dec k 354); [ in_bracket 3%nat | ].
    destruct (Z_le_gt_dec k 424); [ in_bracket 4%nat | ].
    destruct (Z_le_gt_dec k 604); [ in_bracket 5%nat | above_top ].
  - destruct (Z_le_gt_dec k 53); [ in_bracket 0%nat | ].
    destruct (Z_le_gt_dec k 100); [ in_bracket 1%nat | ].
    destruct (Z_le_gt_dec k 360); [ in_bracket 2%nat | ].
    destruct (Z_le_gt_dec k 649); [ in_bracket 3%nat | ].
    destruct (Z_le_gt_dec k 1249); [ in_bracket 4%nat | ].
    destruct (Z_le_gt_dec k 2049); [ in_bracket 5%nat | above_top ].
  - destruct (Z_le_gt_dec k 35); [ in_bracket 0%nat | ].
    destruct (Z_le_gt_dec k 75); [ in_bracket 1%nat | ].
    destruct (Z_le_gt_dec k 185); [ in_bracket 2%nat | ].
    destruct (Z_le_gt_dec k 304); [ in_bracket 3%nat | ].
    destruct (Z_le_gt_dec k 604); [ in_bracket 4%nat | ].
    destruct (Z_le_gt_dec k 1004); [ in_bracket 5%nat | above_top ].
  - destruct (Z_le_gt_dec k 44); [ in_bracket 0%nat | ].
    destruct (Z_le_gt_dec k 94); [ in_bracket 1%nat | ].
    destruct (Z_le_gt_dec k 124); [ in_bracket 2%nat | ].
    destruct (Z_le_gt_dec k 154); [ in_bracket 3%nat | ].
    destruct (Z_le_gt_dec k 304); [ in_bracket 4%nat | ].
    destruct (Z_le_gt_dec k 504); [ in_bracket 5%nat | above_top ].
  - destruct (Z_le_gt_dec k 54); [ in_bracket 0%nat | ].
    destruct (Z_le_gt_dec k 70); [ in_bracket 1%nat | ].
    destruct (Z_le_gt_dec k 85); [ in_bracket 2%nat | ].
    destruct (Z_le_gt_dec k 105); [ in_bracket 3%nat | ].
    destruct (Z_le_gt_dec k 200); [ in_bracket 4%nat | ].
    destruct (Z_le_gt_dec k 504); [ in_bracket 5%nat | above_top ].
Qed.

(** C5, amended. For every pollutant the brackets are ascending and
    disjoint, the first starts at 0, every bracket starts one table step
    (0.1 for PM2.5 and CO, 1 for the others) after the end of the one
    before; every concentration [c >= 0] that is a multiple of the table
    step lies inside some bracket or above the table's top. *)
Theorem breakpoints_cover_table_grid (p : Pollutant) :
  Ascending (breakpointsOf p)
  /\ (exists low, hd_error (breakpointsOf p) = Some low /\ min low == 0)
  /\ (forall b b', Adjacent b b' (breakpointsOf p) ->
        max b < min b' /\ min b' == max b + tableStep p)
  /\ (forall k : Z, (0 <= k)%Z -> Covered p (inject_Z k * tableStep p)).
Proof.
  split; [ apply breakpoints_Ascending | ].
  split; [ destruct p; eexists; split; reflexivity | ].
  split.
  - intros b b' Adj. apply Adjacent_pairs in Adj.
    destruct p; cbn in Adj; each_member Adj; split; reflexivity.
  - intros k Hk. apply grid_Covered. assumption.
Qed.

(** The amended C5 at PM2.5 = 12.1, the 121st multiple of 0.1. *)
Lemma breakpoints_cover_table_grid_witness :
  Covered PM25 (inject_Z 121 * tableStep PM25).
Proof.
  refine (proj2 (proj2 (proj2 (breakpoints_cover_table_grid PM25))) 121%Z _).
  lia.
Defined.

(** Coverage does not depend on how the rational is written. *)
Lemma Covered_comp (p : Pollutant) (c c' : Q) : c == c' -> Covered p c -> Covered p c'.
Proof.
  intros E [(b & I & W) | (top & L & G)].
  - left. exists b. split; [ assumption | lra ].
  - right. exists top. split; [ assumption | lra ].
Qed.

(** Every non-negative integer concentration is covered. *)
Lemma integer_Covered (p : Pollutant) (k : Z) : (0 <= k)%Z -> Covered p (inject_Z k).
Proof.
  intros Hk.
  assert (inject_Z (10 * k) * 0.1 == inject_Z k) as Tenths
    by (rewrite inject_Z_mult; field).
  assert (inject_Z k * 1 == inject_Z k) as Units by field.
  destruct p;
    first [ apply (Covered_comp _ _ _ Units); apply grid_Covered; lia
          | apply (Covered_comp _ _ _ Tenths); apply grid_Covered; lia ].
Qed.

Lemma Math_max_0 (v : Z) : (0 <= Math_max 0 [v])%Z.
Proof. unfold Math_max; simpl. lia. Qed.

(** The CO reading is a non-negative number of tenths. *)
Lemma coReading_tenths (x : Q) :
  exists k, (0 <= k)%Z /\ Math_maxQ 0 (toFixed1 x) == inject_Z k * 0.1.
Proof.
  unfold Math_maxQ. destruct (Qle_bool 0 (toFixed1 x)) eqn:E.
  - apply Qle_bool_iff in E. unfold toFixed1 in *.
    destruct (Qle_bool 0 x).
    + exists (Math_round (x * 10)). split; [ | field ].
      rewrite Zle_Qle. change (inject_Z 0) with 0.
      generalize dependent (inject_Z (Math_round (x * 10))). intros m E.
      setoid_replace (m / 10) with (m * 0.1) in E by field. lra.
    + exists (- Math_round (- x * 10))%Z. split.
      * rewrite Zle_Qle, inject_Z_opp. change (inject_Z 0) with 0.
        generalize dependent (inject_Z (Math_round (- x * 10))). intros m E.
        setoid_replace (- (m / 10)) with (- m * 0.1) in E by field. lra.
      * rewrite inject_Z_opp. field.
  - exists 0%Z. split; [ lia | reflexivity ].
Qed.

(** ** Aggregation *)

(** [Math.max] returns one of its arguments, and none of them is larger. *)
Lemma Math_max_spec (x : Z) (xs : list Z) :
  In (Math_max x xs) (x :: xs)
  /\ (forall a, In a (x :: xs) -> (a <= Math_max x xs)%Z).
Proof.
  unfold Math_max. revert x.
  induction xs as [| y ys IH]; intros x; simpl.
  - split; [ left; reflexivity | intros a [-> | []]; lia ].
  - destruct (IH (Z.max x y)) as [Hin Hle]. split.
    + destruct Hin as [E | Hin]; [ | right; right; assumption ].
      rewrite <- E. destruct (Z.max_spec x y) as [[_ ->] | [_ ->]]; auto.
    + intros a [-> | [-> | Ia]].
      * pose proof (Hle (Z.max a y) (or_introl eq_refl)). lia.
      * pose proof (Hle (Z.max x a) (or_introl eq_refl)). lia.
      * apply Hle. right; assumption.
Qed.

(** A sub-index call on one of the six tables always returns. *)
Lemma computeSubIndex_returns (p : Pollutant) (c : Q) :
  exists v, computeSubIndex p c = Return v.
Proof.
  rewrite computeSubIndex_table. unfold calculateAQIFromBreakpoints.
  destruct (scanBreakpoints c (breakpointsOf p)); [ eexists; reflexivity | ].
  destruct (breakpoints_top p) as [top ->].
  destruct (negb (Qle_bool c (max top))); eexists; reflexivity.
Qed.

(** [calculateAQI] in terms of the six sub-indices. *)
Lemma calculateAQI_subindices (pm25 pm10 no2 so2 co o3 : Q) (a1 a2 a3 a4 a5 a6 : Z) :
  calculatePM25AQI pm25 = Return a1 -> calculatePM10AQI pm10 = Return a2 ->
  calculateNO2AQI no2 = Return a3 -> calculateSO2AQI so2 = Return a4 ->
  calculateCOAQI co = Return a5 -> calculateO3AQI o3 = Return a6 ->
  calculateAQI pm25 pm10 no2 so2 co o3 = Return (Math_max a1 [a2; a3; a4; a5; a6]).
Proof.
  intros E1 E2 E3 E4 E5 E6. unfold calculateAQI.
  rewrite E1, E2, E3, E4, E5, E6. reflexivity.
Qed.

(** C2. For every six concentrations, [calculateAQI] returns the maximum
    of the six sub-indices: one of them, and at least each of them.  A
    reading with PM2.5 sub-index 40 and NO2 sub-index 90, the other
    concentrations zero, gives 90, category moderate; so does the reading
    PM2.5 = 9.6, NO2 = 91. *)
Theorem calculateAQI_is_max (pm25 pm10 no2 so2 co o3 : Q) :
  (exists a1 a2 a3 a4 a5 a6 v,
     computeSubIndex PM25 pm25 = Return a1
     /\ computeSubIndex PM10 pm10 = Return a2
     /\ computeSubIndex NO2 no2 = Return a3
     /\ computeSubIndex SO2 so2 = Return a4
     /\ computeSubIndex CO co = Return a5
     /\ computeSubIndex O3 o3 = Return a6
     /\ calculateAQI pm25 pm10 no2 so2 co o3 = Return v
     /\ In v [a1; a2; a3; a4; a5; a6]
     /\ (forall a, In a [a1; a2; a3; a4; a5; a6] -> (a <= v)%Z))
  /\ (computeSubIndex PM25 pm25 = Return 40%Z ->
      computeSubIndex NO2 no2 = Return 90%Z ->
      calculateAQI pm25 0 no2 0 0 0 = Return 90%Z
      /\ getAQICategory 90 = "moderate"%string)
  /\ computeSubIndex PM25 9.6 = Return 40%Z
  /\ computeSubIndex NO2 91 = Return 90%Z
  /\ calculateAQI 9.6 0 91 0 0 0 = Return 90%Z.
Proof.
  split; [ | split; [ | repeat split; vm_compute; reflexivity ] ].
  - destruct (computeSubIndex_returns PM25 pm25) as [a1 E1].
    destruct (computeSubIndex_returns PM10 pm10) as [a2 E2].
    destruct (computeSubIndex_returns NO2 no2) as [a3 E3].
    destruct (computeSubIndex_returns SO2 so2) as [a4 E4].
    destruct (computeSubIndex_returns CO co) as [a5 E5].
    destruct (computeSubIndex_returns O3 o3) as [a6 E6].
    exists a1, a2, a3, a4, a5, a6, (Math_max a1 [a2; a3; a4; a5; a6]).
    repeat (split; [ assumption | ]).
    split; [ exact (calculateAQI_subindices _ _ _ _ _ _ _ _ _ _ _ _ E1 E2 E3 E4 E5 E6) | ].
    apply Math_max_spec.
  - intros E1 E3. split; [ | reflexivity ].
    rewrite (calculateAQI_subindices pm25 0 no2 0 0 0 40 0 90 0 0 0);
      solve [ assumption | reflexivity ].
Qed.

(** C2 at the reading PM2.5 = 9.6, NO2 = 91. *)
Lemma calculateAQI_is_max_witness :
  calculateAQI 9.6 0 91 0 0 0 = Return 90%Z
  /\ getAQICategory 90 = "moderate"%string.
Proof.
  refine (proj1 (proj2 (calculateAQI_is_max 9.6 0 91 0 0 0)) _ _);
    vm_compute; reflexivity.
Defined.

(** ** Health risks *)

Lemma baseRiskLevel_spec (aqi : Z) : baseRiskLevel aqi = levelName (specLevel aqi).
Proof.
  unfold baseRiskLevel, specLevel.
  repeat match goal with |- context [(?a <=? ?b)%Z] => destruct (a <=? b)%Z end;
    reflexivity.
Qed.

Lemma baseRiskScore_spec (l : RiskLevel) : baseRiskScore (levelName l) = specBaseScore l.
Proof. destruct l; reflexivity. Qed.

(** Reading back the property just assigned. *)
Lemma property_assign {A} (obj : list (string * A)) (key : string) (value : A) :
  property (assign obj key value) key = Some value.
Proof.
  induction obj as [| [k v] rest IH]; simpl.
  - rewrite String.eqb_refl. reflexivity.
  - destruct (String.eqb k key) eqn:E; simpl; rewrite E; [ reflexivity | exact IH ].
Qed.

(** [calculateHealthRisks] leaves under the id of the last sensor the
    risks computed from that sensor. *)
Lemma calculateHealthRisks_stores (sensors : list Sensor) (sensor : Sensor)
    (healthRisks : list (string * HealthRisks)) :
  property (calculateHealthRisks (sensors ++ [sensor]) healthRisks) (id sensor)
  = Some (sensorHealthRisks sensor).
Proof.
  unfold calculateHealthRisks. rewrite fold_left_app. simpl.
  apply property_assign.
Qed.

(** C6. For every sensor (AQI value) and every demographic group: the
    code's factor of the group is the listed one; the stored score is the
    base score of the AQI's risk level (10, 30, 50, 70, 85, 100) times the
    group factor (1.0, 1.5, 1.3, 2.0, 1.8), rounded and clamped to [0,100],
    in exact and in binary64 arithmetic; the stored level is the base level
    of the AQI whatever the factor. *)
Theorem groupRisk_score (sensor : Sensor) (g : Group) :
  let aqi := aqiValue sensor in
  let stored := groupRisk aqi (groupName g) (specFactor g) in
  map fst riskFactors = map groupName all_groups
  /\ In (groupName g, specFactor g) riskFactors
  /\ In (groupName g, stored) (risks (sensorHealthRisks sensor))
  /\ score stored = specRiskScore (specLevel aqi) g
  /\ (0 <= score stored <= 100)%Z
  /\ Binary64.scaledScore (specBaseScore (specLevel aqi)) (specFactor g)
     = Some (score stored)
  /\ (forall factor,
        level (groupRisk aqi (groupName g) factor) = levelName (specLevel aqi))
  /\ map specBaseScore all_levels = [10; 30; 50; 70; 85; 100]%Z
  /\ map specFactor all_groups = [1.0; 1.5; 1.3; 2.0; 1.8].
Proof.
  intros aqi stored.
  assert (score stored = specRiskScore (specLevel aqi) g) as Escore.
  { unfold stored, groupRisk; cbn [score].
    rewrite baseRiskLevel_spec, baseRiskScore_spec.
    destruct (specLevel aqi), g; vm_compute; reflexivity. }
  split; [ reflexivity | ].
  split; [ destruct g; cbn; tauto | ].
  split.
  { unfold sensorHealthRisks; cbn [risks]. fold aqi.
    apply in_map_iff. exists (groupName g, specFactor g).
    split; [ reflexivity | destruct g; cbn; tauto ]. }
  split; [ exact Escore | ].
  rewrite Escore.
  split; [ unfold specRiskScore; lia | ].
  split; [ destruct (specLevel aqi), g; vm_compute; reflexivity | ].
  split; [ | split; reflexivity ].
  intros factor. unfold groupRisk; cbn [level]. apply baseRiskLevel_spec.
Qed.

(** ** Forecasts *)

Section ForecastProofs.

Variable clockHour : Z -> Z.
Variable random : nat -> Q.
Variable currentAQI : Z.

(** The [for] loop, once [hour] is [n] iterations before 49, makes exactly
    [n] iterations if it has fuel for one more. *)
Lemma hourlyLoop_unroll (n : nat) : forall (fuel : nat) (hour : Z) (draw : nat),
  hour = (49 - Z.of_nat n)%Z -> (n < fuel)%nat ->
  hourlyLoop clockHour random fuel currentAQI hour draw
  = map (fun i => forecastPoint clockHour random currentAQI
                    (hour + Z.of_nat i) (draw + i))
        (seq 0 n).
Proof.
  induction n as [| n IH]; intros fuel hour draw Eh Hf.
  - destruct fuel as [| fuel]; [ lia | ]. simpl.
    replace (hour <=? 48)%Z with false by (symmetry; apply Z.leb_gt; lia).
    reflexivity.
  - destruct fuel as [| fuel]; [ lia | ].
    cbn [hourlyLoop].
    replace (hour <=? 48)%Z with true by (symmetry; apply Z.leb_le; lia).
    rewrite (IH fuel (hour + 1)%Z (S draw)) by lia.
    cbn [seq map]. rewrite <- seq_shift, map_map.
    rewrite Z.add_0_r, Nat.add_0_r. f_equal.
    apply map_ext. intros i. f_equal; lia.
Qed.

Lemma hourly_points (draw : nat) :
  hourly clockHour random currentAQI draw
  = map (fun i => forecastPoint clockHour random currentAQI
                    (1 + Z.of_nat i) (draw + i))
        (seq 0 48).
Proof. unfold hourly. apply hourlyLoop_unroll; [ reflexivity | lia ]. Qed.

Lemma hourly_nth (draw i : nat) :
  (i < 48)%nat ->
  nth_error (hourly clockHour random currentAQI draw) i
  = Some (forecastPoint clockHour random currentAQI (1 + Z.of_nat i) (draw + i)).
Proof.
  intros Hi. rewrite hourly_points, nth_error_map, nth_error_seq.
  apply Nat.ltb_lt in Hi. rewrite Hi. reflexivity.
Qed.

Lemma confidence_forecastPoint (hour : Z) (draw : nat) :
  confidence (forecastPoint clockHour random currentAQI hour draw)
  = Math_round (90 - (inject_Z hour / 48) * 30).
Proof. reflexivity. Qed.

End ForecastProofs.

(** The confidence formula does not increase with the hour. *)
Lemma confidence_formula_antitone (h h' : Z) :
  (h <= h')%Z ->
  (Math_round (90 - (inject_Z h' / 48) * 30)
   <= Math_round (90 - (inject_Z h / 48) * 30))%Z.
Proof.
  intros L. apply Math_round_le. rewrite Zle_Qle in L.
  generalize dependent (inject_Z h'). generalize (inject_Z h).
  intros x y L.
  setoid_replace (y / 48 * 30) with (y * (5 # 8)) by field.
  setoid_replace (x / 48 * 30) with (x * (5 # 8)) by field.
  lra.
Qed.

(** The binary64 confidence agrees with the exact one at the 48 hours. *)
Lemma confidence_binary64 (h : Z) :
  (1 <= h <= 48)%Z ->
  Binary64.confidenceAt h = Some (Math_round (90 - (inject_Z h / 48) * 30)).
Proof.
  intros Hh.
  assert (forallb (fun i =>
            match Binary64.confidenceAt (Z.of_nat i) with
            | Some v => (v =? Math_round (90 - (inject_Z (Z.of_nat i) / 48) * 30))%Z
            | None => false
            end) (seq 1 48) = true) as All by (vm_compute; reflexivity).
  rewrite forallb_forall in All.
  specialize (All (Z.to_nat h)). rewrite Z2Nat.id in All by lia.
  destruct (Binary64.confidenceAt h) as [v |].
  - f_equal. apply Z.eqb_eq, All, in_seq. lia.
  - discriminate All. apply in_seq. lia.
Qed.

(** C7. Whatever the clock, the random draws and the current AQI, the
    hourly forecast has 48 points; for every hour [h] from 1 to 48 the
    point of that hour has confidence [round(90 - (h / 48) * 30)], in
    exact and in binary64 arithmetic; the confidence is 89 at [h = 1] and
    60 at [h = 48], and it never increases from a point to a later one. *)
Theorem forecast_confidence (clockHour : Z -> Z) (random : nat -> Q)
    (currentAQI : Z) (draw : nat) :
  let points := hourly clockHour random currentAQI draw in
  List.length points = 48%nat
  /\ (forall h, (1 <= h <= 48)%Z ->
        exists point,
          nth_error points (Z.to_nat (h - 1)) = Some point
          /\ hourOffset point = h
          /\ confidence point = Math_round (90 - (inject_Z h / 48) * 30)
          /\ Binary64.confidenceAt h = Some (confidence point))
  /\ (forall i j pi pj, (i <= j)%nat ->
        nth_error points i = Some pi -> nth_error points j = Some pj ->
        (confidence pj <= confidence pi)%Z)
  /\ option_map confidence (nth_error points 0) = Some 89%Z
  /\ option_map confidence (nth_error points 47) = Some 60%Z.
Proof.
  intros points. unfold points.
  split; [ rewrite hourly_points, length_map, length_seq; reflexivity | ].
  split; [ | split ].
  - intros h Hh. eexists. split; [ apply hourly_nth; lia | ].
    replace (1 + Z.of_nat (Z.to_nat (h - 1)))%Z with h by lia.
    cbn [hourOffset confidence forecastPoint].
    split; [ reflexivity | split; [ reflexivity | ] ].
    apply confidence_binary64. assumption.
  - intros i j pi pj Hij Hi Hj.
    assert (j < 48)%nat as Hj48.
    { assert (nth_error (hourly clockHour random currentAQI draw) j <> None) as Hs
        by congruence.
      apply nth_error_Some in Hs.
      rewrite hourly_points, length_map, length_seq in Hs. exact Hs. }
    rewrite hourly_nth in Hi, Hj by lia.
    assert (pi = forecastPoint clockHour random currentAQI
                   (1 + Z.of_nat i) (draw + i)) as -> by congruence.
    assert (pj = forecastPoint clockHour random currentAQI
                   (1 + Z.of_nat j) (draw + j)) as -> by congruence.
    rewrite !confidence_forecastPoint.
    apply confidence_formula_antitone. lia.
  - rewrite !hourly_nth by lia. split; vm_compute; reflexivity.
Qed.

(** C7 at hour 4, a tie of the rounding: 87.5 gives 88. *)
Lemma forecast_confidence_witness :
  exists point,
    nth_error (hourly (fun _ => 8%Z) (fun _ => 0.5) 40 0) 3 = Some point
    /\ confidence point = 88%Z.
Proof.
  destruct (proj1 (proj2 (forecast_confidence (fun _ => 8%Z) (fun _ => 0.5) 40 0))
              4%Z ltac:(lia)) as (point & Hn & _ & Hc & _).
  exists point. split; [ exact Hn | rewrite Hc; reflexivity ].
Defined.

(** ** Invalid input *)

(** Below the first bracket a sub-index call returns the default. *)
Lemma computeSubIndex_negative (p : Pollutant) (c : Q) :
  c < 0 -> computeSubIndex p c = Return 0%Z.
Proof.
  intros Hc. pose proof (breakpoints_Ascending p) as A.
  destruct (breakpoints_top p) as [top L].
  rewrite computeSubIndex_table.
  apply (calculateAQIFromBreakpoints_default c top); trivial.
  - intros b I [W _]. revert b I W.
    destruct p; cbn; intros b I W; each_member I; cbn in W; lra.
  - destruct p; injection L as <-; cbn; lra.
Qed.

(** The claim of C8 fails at [computeSubIndex('pm25', -5)]: the call does
    not fail, it returns 0. *)
Lemma negative_concentration_does_not_fail :
  -5 < 0
  /\ computeSubIndex PM25 (-5) = Return 0%Z
  /\ ~ failsFast (computeSubIndex PM25 (-5)).
Proof.
  split; [ reflexivity | split; [ reflexivity | ] ].
  intros [e E]. discriminate E.
Qed.

(** C8, amended. No operation fails on invalid input.  A negative
    concentration gives sub-index 0 for every pollutant; [calculateAQI]
    takes six concentrations, always returns, and returns 0 when all six
    are negative; a group name outside the four with messages of their own
    gets the general recommendations of the level; a level name outside
    the six gets base score 0 and no general recommendation. *)
Theorem invalid_input_defaults :
  (forall p c, c < 0 ->
     computeSubIndex p c = Return 0%Z /\ ~ failsFast (computeSubIndex p c))
  /\ (forall pm25 pm10 no2 so2 co o3,
        (exists v, calculateAQI pm25 pm10 no2 so2 co o3 = Return v)
        /\ ~ failsFast (calculateAQI pm25 pm10 no2 so2 co o3))
  /\ (forall pm25 pm10 no2 so2 co o3,
        pm25 < 0 -> pm10 < 0 -> no2 < 0 -> so2 < 0 -> co < 0 -> o3 < 0 ->
        calculateAQI pm25 pm10 no2 so2 co o3 = Return 0%Z)
  /\ (forall riskLevel group,
        ~ In group (map groupName [Elderly; Children; Respiratory; Cardiovascular]) ->
        generateHealthRecommendations riskLevel group
        = generalRecommendations riskLevel)
  /\ (forall riskLevel,
        ~ In riskLevel (map levelName all_levels) ->
        baseRiskScore riskLevel = 0%Z /\ generalRecommendations riskLevel = []).
Proof.
  split; [ | split; [ | split; [ | split ] ] ].
  - intros p c Hc. rewrite (computeSubIndex_negative p c Hc).
    split; [ reflexivity | intros [e E]; discriminate E ].
  - intros pm25 pm10 no2 so2 co o3.
    destruct (computeSubIndex_returns PM25 pm25) as [a1 E1].
    destruct (computeSubIndex_returns PM10 pm10) as [a2 E2].
    destruct (computeSubIndex_returns NO2 no2) as [a3 E3].
    destruct (computeSubIndex_returns SO2 so2) as [a4 E4].
    destruct (computeSubIndex_returns CO co) as [a5 E5].
    destruct (computeSubIndex_returns O3 o3) as [a6 E6].
    rewrite (calculateAQI_subindices _ _ _ _ _ _ _ _ _ _ _ _ E1 E2 E3 E4 E5 E6).
    split; [ eexists; reflexivity | intros [e E]; discriminate E ].
  - intros pm25 pm10 no2 so2 co o3 H1 H2 H3 H4 H5 H6.
    exact (calculateAQI_subindices _ _ _ _ _ _ _ _ _ _ _ _
             (computeSubIndex_negative PM25 _ H1) (computeSubIndex_negative PM10 _ H2)
             (computeSubIndex_negative NO2 _ H3) (computeSubIndex_negative SO2 _ H4)
             (computeSubIndex_negative CO _ H5) (computeSubIndex_negative O3 _ H6)).
  - intros riskLevel group N. cbn in N.
    unfold generateHealthRecommendations, groupRecommendations.
    replace (group =? "elderly")%string with false
      by (symmetry; apply String.eqb_neq; intros ->; tauto).
    replace (group =? "children")%string with false
      by (symmetry; apply String.eqb_neq; intros ->; tauto).
    replace (group =? "respiratory")%string with false
      by (symmetry; apply String.eqb_neq; intros ->; tauto).
    replace (group =? "cardiovascular")%string with false
      by (symmetry; apply String.eqb_neq; intros ->; tauto).
    cbn. apply app_nil_r.
  - intros riskLevel N. cbn in N.
    unfold baseRiskScore, generalRecommendations.
    replace (riskLevel =? "minimal")%string with false
      by (symmetry; apply String.eqb_neq; intros ->; tauto).
    replace (riskLevel =? "low")%string with false
      by (symmetry; apply String.eqb_neq; intros ->; tauto).
    replace (riskLevel =? "moderate")%string with false
      by (symmetry; apply String.eqb_neq; intros ->; tauto).
    replace (riskLevel =? "high")%string with false
      by (symmetry; apply String.eqb_neq; intros ->; tauto).
    replace (riskLevel =? "very_high")%string with false
      by (symmetry; apply String.eqb_neq; intros ->; tauto).
    replace (riskLevel =? "severe")%string with false
      by (symmetry; apply String.eqb_neq; intros ->; tauto).
    split; reflexivity.
Qed.

(** The amended C8 at [computeSubIndex('pm25', -5)] and at a reading of
    six negative concentrations. *)
Lemma invalid_input_defaults_witness :
  computeSubIndex PM25 (-5) = Return 0%Z
  /\ calculateAQI (-5) (-1) (-1) (-1) (-0.5) (-1) = Return 0%Z.
Proof.
  destruct invalid_input_defaults as (Hneg & _ & Hall & _).
  split.
  - apply Hneg. reflexivity.
  - apply Hall; reflexivity.
Defined.

(** ** Recommendations *)

Local Open Scope string_scope.


(** The claim of C9 fails for the Respiratory group at High, which gets no
    medical-contact guidance, and at VeryHigh, which gets no mask guidance. *)
Lemma respiratory_high_lacks_medical_contact :
  generateHealthRecommendations "high" "respiratory"
  = [ "Everyone may begin to experience health effects. Members of sensitive groups may experience more serious effects.";
      "Avoid prolonged or heavy outdoor exertion. Consider moving activities indoors or rescheduling.";
      "Individuals with respiratory conditions should have medication readily available.";
      "Consider using a mask (N95 or better) when outdoors." ]
  /\ medicalContactGuidance (generateHealthRecommendations "high" "respiratory") = false
  /\ maskGuidance (generateHealthRecommendations "very_high" "respiratory") = false.
Proof. repeat split. Qed.

(** C9, amended. For every risk level and group the recommendation list
    is the general message set of the level followed by the messages of
    the group.  The General group and the Minimal level add none; Elderly,
    Children and Cardiovascular add one message from Low on and more from
    High on.  Respiratory adds the medication message from Low on, the
    mask-consideration message at Moderate and High only, and the
    stay-indoors and contact-healthcare-provider messages at VeryHigh and
    Severe only; so a Respiratory list carries mask guidance at Moderate,
    High and Severe (there from the general set) and medical-contact
    guidance at VeryHigh and Severe.  At AQI 101 the Respiratory list holds
    the general sensitive-groups message and the mask-consideration
    message. *)
Theorem recommendation_gating (l : RiskLevel) (g : Group) :
  let recs := generateHealthRecommendations (levelName l) (groupName g) in
  let own := groupRecommendations (levelName l) (groupName g) in
  recs = (generalRecommendations (levelName l) ++ own)%list
  /\ generalRecommendations (levelName l) <> []
  /\ (own = [] <-> g = General \/ l = Minimal)
  /\ (g = Elderly \/ g = Children \/ g = Cardiovascular ->
        ((1 < List.length own)%nat <-> l = High \/ l = VeryHigh \/ l = Severe))
  /\ (In "Consider using a mask (N95 or better) when outdoors." recs <->
        g = Respiratory /\ (l = Moderate \/ l = High))
  /\ (In "Contact healthcare provider if symptoms worsen." recs <->
        g = Respiratory /\ (l = VeryHigh \/ l = Severe))
  /\ (In "Stay indoors and use air purifiers if available." recs <->
        g = Respiratory /\ (l = VeryHigh \/ l = Severe))
  /\ (In "Individuals with respiratory conditions should have medication readily available." recs <->
        g = Respiratory /\ l <> Minimal)
  /\ (g = Respiratory ->
        (maskGuidance recs = true <-> l = Moderate \/ l = High \/ l = Severe)
        /\ (medicalContactGuidance recs = true <-> l = VeryHigh \/ l = Severe))
  /\ (let at101 := recommendations (groupRisk 101 "respiratory" 2.0) in
      level (groupRisk 101 "respiratory" 2.0) = "moderate"
      /\ In "Members of sensitive groups may experience health effects. The general public is less likely to be affected." at101
      /\ In "Consider using a mask (N95 or better) when outdoors." at101).
Proof.
  intros recs own. unfold recs, own.
  split; [ reflexivity | ].
  split; [ destruct l; discriminate | ].
  repeat match goal with |- _ /\ _ => split end;
    try (vm_compute; solve [ auto 10 ]);
    destruct l, g; decide_table.
Qed.

(** The amended C9 for the Respiratory group at High. *)
Lemma recommendation_gating_witness :
  maskGuidance (generateHealthRecommendations "high" "respiratory") = true.
Proof.
  destruct (recommendation_gating High Respiratory)
    as (_ & _ & _ & _ & _ & _ & _ & _ & Hr & _).
  apply (proj1 (Hr eq_refl)). right; left; reflexivity.
Defined.

Local Close Scope string_scope.

(** * Further properties of the module *)

(** ** Range and monotonicity of the sub-index *)

Lemma breakpoints_Graded (p : Pollutant) : Graded (breakpointsOf p).
Proof.
  destruct p; cbn [breakpointsOf];
    repeat first [ apply Graded_cons; [ cbn; lia | cbn; lia | ]
                 | apply Graded_one; cbn; lia ].
Qed.

Lemma Graded_tail b rest : Graded (b :: rest) -> Graded rest.
Proof. inversion 1; subst; [ constructor | assumption ]. Qed.

Lemma Graded_head b rest : Graded (b :: rest) -> (0 <= minAQI b <= maxAQI b)%Z.
Proof. inversion 1; assumption. Qed.

Lemma Graded_In b bps : Graded bps -> In b bps -> (0 <= minAQI b <= maxAQI b)%Z.
Proof.
  induction bps as [| b0 rest IH]; intros G I; [ destruct I | ].
  destruct I as [-> | I].
  - exact (Graded_head _ _ G).
  - exact (IH (Graded_tail _ _ G) I).
Qed.

(** Every later bracket has AQI values above those of the first one. *)
Lemma Graded_later b rest :
  Graded (b :: rest) -> forall b', In b' rest -> (maxAQI b < minAQI b')%Z.
Proof.
  revert b. induction rest as [| b1 rest IH]; intros b G b' I.
  - destruct I.
  - inversion G as [| | ? ? ? Hb Hstep G' ]; subst.
    destruct I as [-> | I]; [ assumption | ].
    pose proof (IH b1 G' b' I). pose proof (Graded_head _ _ G'). lia.
Qed.

(** Two brackets of a table are the same, or one lies before the other
    both in concentration and in AQI. *)
Lemma table_order b b' bps :
  Ascending bps -> Graded bps -> In b bps -> In b' bps ->
  b = b'
  \/ (max b < min b' /\ (maxAQI b < minAQI b')%Z)
  \/ (max b' < min b /\ (maxAQI b' < minAQI b)%Z).
Proof.
  induction bps as [| b0 rest IH]; intros A G I I'; [ destruct I | ].
  destruct I as [-> | I], I' as [-> | I'].
  - left; reflexivity.
  - right; left. split;
      [ exact (Ascending_later _ _ A b' I') | exact (Graded_later _ _ G b' I') ].
  - right; right. split;
      [ exact (Ascending_later _ _ A b I) | exact (Graded_later _ _ G b I) ].
  - exact (IH (Ascending_tail _ _ A) (Graded_tail _ _ G) I I').
Qed.

(** The slope of the interpolation is not negative. *)
Lemma slope_nonneg b :
  min b < max b -> (minAQI b <= maxAQI b)%Z ->
  0 <= (inject_Z (maxAQI b) - inject_Z (minAQI b)) / (max b - min b).
Proof.
  intros L H. rewrite Zle_Qle in H.
  apply Qle_shift_div_l; lra.
Qed.

(** Inside a bracket the interpolated value stays in the AQI range of the
    bracket, and it does not decrease with the concentration. *)
Lemma specInterpolation_range c b :
  min b < max b -> (minAQI b <= maxAQI b)%Z -> within c b ->
  (minAQI b <= specInterpolation c b <= maxAQI b)%Z.
Proof.
  intros L H [W1 W2]. pose proof (slope_nonneg b L H) as S.
  assert ((inject_Z (maxAQI b) - inject_Z (minAQI b)) / (max b - min b)
          * (max b - min b)
          == inject_Z (maxAQI b) - inject_Z (minAQI b)) as Full by (field; lra).
  unfold specInterpolation.
  generalize dependent ((inject_Z (maxAQI b) - inject_Z (minAQI b)) / (max b - min b)).
  intros s S Full. split.
  - rewrite <- (Math_round_inject_Z (minAQI b)) at 1.
    apply Math_round_le. nra.
  - rewrite <- (Math_round_inject_Z (maxAQI b)).
    apply Math_round_le. nra.
Qed.

Lemma specInterpolation_monotone c c' b :
  min b < max b -> (minAQI b <= maxAQI b)%Z -> c <= c' ->
  (specInterpolation c b <= specInterpolation c' b)%Z.
Proof.
  intros L H Hc. pose proof (slope_nonneg b L H) as S.
  unfold specInterpolation. apply Math_round_le.
  generalize dependent ((inject_Z (maxAQI b) - inject_Z (minAQI b)) / (max b - min b)).
  intros s S. nra.
Qed.

(** When the loop returns, it returns the interpolation in a bracket that
    contains the concentration. *)
Lemma scanBreakpoints_Some c bps v :
  scanBreakpoints c bps = Some v ->
  exists b, In b bps /\ within c b /\ v = specInterpolation c b.
Proof.
  induction bps as [| b0 rest IH]; simpl; [ discriminate | ].
  destruct (inBracket c b0) eqn:E.
  - intros [= <-]. exists b0. apply inBracket_iff in E. auto.
  - intros H. destruct (IH H) as (b & I & W & ->). exists b. auto.
Qed.

(** The three ways a sub-index call ends. *)
Lemma computeSubIndex_cases (p : Pollutant) (c : Q) (v : Z) :
  computeSubIndex p c = Return v ->
  (exists b, In b (breakpointsOf p) /\ within c b /\ v = specInterpolation c b)
  \/ (exists top, last_element (breakpointsOf p) = Some top
        /\ max top < c /\ v = maxAQI top)
  \/ ((forall b, In b (breakpointsOf p) -> ~ within c b)
        /\ ~ Covered p c /\ v = 0%Z).
Proof.
  rewrite computeSubIndex_table. unfold calculateAQIFromBreakpoints.
  destruct (scanBreakpoints c (breakpointsOf p)) as [w |] eqn:S.
  - intros [= <-]. left. exact (scanBreakpoints_Some _ _ _ S).
  - destruct (breakpoints_top p) as [top L]. rewrite L.
    destruct (Qle_bool c (max top)) eqn:E; cbn [negb]; intros [= <-].
    + right; right. apply Qle_bool_iff in E.
      pose proof (proj1 (scanBreakpoints_None _ _) S) as N.
      split; [ exact N | split; [ | reflexivity ] ].
      intros [(b & I & W) | (top' & L' & G)].
      * exact (N b I W).
      * rewrite L in L'. injection L' as <-. lra.
    + right; left. exists top. split; [ reflexivity | split; [ | reflexivity ] ].
      apply Qnot_le_lt. intros H. apply Qle_bool_iff in H. congruence.
Qed.

(** Every AQI value of the six tables lies between 0 and 500. *)
Lemma breakpoints_AQI_bounds (p : Pollutant) (b : Breakpoint) :
  In b (breakpointsOf p) -> (0 <= minAQI b /\ maxAQI b <= 500)%Z.
Proof.
  intros I. destruct p; cbn in I; each_member I; cbn; lia.
Qed.

Lemma subIndex_bounds (p : Pollutant) (c : Q) (v : Z) :
  computeSubIndex p c = Return v -> (0 <= v <= 500)%Z.
Proof.
  intros E.
  pose proof (breakpoints_Ascending p) as A.
  pose proof (breakpoints_Graded p) as G.
  destruct (computeSubIndex_cases p c v E)
    as [(b & I & W & ->) | [(top & L & _ & ->) | (_ & _ & ->)]].
  - pose proof (specInterpolation_range c b (Ascending_In b _ A I)
                  (proj2 (Graded_In b _ G I)) W).
    pose proof (breakpoints_AQI_bounds p b I). lia.
  - pose proof (last_element_In _ _ L) as I.
    pose proof (breakpoints_AQI_bounds p top I).
    pose proof (Graded_In top _ G I). lia.
  - lia.
Qed.

(** Whatever the pollutant and the concentration (negative, inside a gap
    or beyond the table), the sub-index lies between 0 and 500. *)
Theorem computeSubIndex_range (p : Pollutant) (c : Q) :
  exists v, computeSubIndex p c = Return v /\ (0 <= v <= 500)%Z.
Proof.
  destruct (computeSubIndex_returns p c) as [v E]. exists v.
  split; [ exact E | exact (subIndex_bounds p c v E) ].
Qed.

(** The largest AQI value of a table is the last bracket's. *)
Lemma Graded_top top bps :
  Ascending bps -> Graded bps -> last_element bps = Some top ->
  forall b, In b bps -> (maxAQI b <= maxAQI top)%Z.
Proof.
  intros A G L b I. pose proof (last_element_In _ _ L) as It.
  destruct (table_order b top bps A G I It) as [-> | [[_ H] | [H _]]].
  - lia.
  - pose proof (Graded_In top _ G It). lia.
  - pose proof (Ascending_top _ _ A L b I).
    pose proof (Ascending_In b _ A I). lra.
Qed.

Lemma subIndex_monotone (p : Pollutant) (c c' : Q) (v v' : Z) :
  Covered p c -> Covered p c' -> c <= c' ->
  computeSubIndex p c = Return v -> computeSubIndex p c' = Return v' ->
  (v <= v')%Z.
Proof.
  intros Cc Cc' Hc E E'.
  pose proof (breakpoints_Ascending p) as A.
  pose proof (breakpoints_Graded p) as G.
  destruct (computeSubIndex_cases p c v E)
    as [(b & I & W & ->) | [(top & L & Gt & ->) | (_ & N & _)]];
    [ | | contradiction ];
  destruct (computeSubIndex_cases p c' v' E')
    as [(b' & I' & W' & ->) | [(top' & L' & Gt' & ->) | (_ & N' & _)]];
    try contradiction.
  - destruct (table_order b b' _ A G I I') as [<- | [[_ H] | [H _]]].
    + exact (specInterpolation_monotone c c' b (Ascending_In b _ A I)
               (proj2 (Graded_In b _ G I)) Hc).
    + pose proof (specInterpolation_range c b (Ascending_In b _ A I)
                    (proj2 (Graded_In b _ G I)) W).
      pose proof (specInterpolation_range c' b' (Ascending_In b' _ A I')
                    (proj2 (Graded_In b' _ G I')) W').
      lia.
    + unfold within in W, W'. lra.
  - pose proof (specInterpolation_range c b (Ascending_In b _ A I)
                  (proj2 (Graded_In b _ G I)) W).
    pose proof (Graded_top _ _ A G L' b I). lia.
  - pose proof (Ascending_top _ _ A L b' I'). unfold within in W'. lra.
  - rewrite L in L'. injection L' as <-. lia.
Qed.

(** On concentrations that lie in a bracket or above the table, the
    sub-index does not decrease when the concentration grows.  It is not so
    through a gap: PM2.5 gives 50 at 12 and 0 at 12.05. *)
Theorem computeSubIndex_monotone (p : Pollutant) (c c' : Q) (v v' : Z) :
  Covered p c -> Covered p c' -> c <= c' ->
  computeSubIndex p c = Return v -> computeSubIndex p c' = Return v' ->
  (v <= v')%Z
  /\ computeSubIndex PM25 12 = Return 50%Z
  /\ computeSubIndex PM25 12.05 = Return 0%Z.
Proof.
  intros Cc Cc' Hc E E'. split; [ | split; vm_compute; reflexivity ].
  exact (subIndex_monotone p c c' v v' Cc Cc' Hc E E').
Qed.

(** Monotonicity between PM2.5 at 12, the end of the first bracket, and at
    12.1, the start of the second. *)
Lemma computeSubIndex_monotone_witness : (50 <= 51)%Z.
Proof.
  refine (proj1 (computeSubIndex_monotone PM25 12 12.1 50 51 _ _ _ _ _)).
  - left. exists (mkBreakpoint 0 12 0 50). split; [ left; reflexivity | ].
    split; discriminate.
  - left. exists (mkBreakpoint 12.1 35.4 51 100).
    split; [ right; left; reflexivity | ]. split; discriminate.
  - discriminate.
  - vm_compute; reflexivity.
  - vm_compute; reflexivity.
Defined.

(** ** The aggregate AQI *)

Lemma calculateAQI_returns (pm25 pm10 no2 so2 co o3 : Q) :
  exists a1 a2 a3 a4 a5 a6,
    computeSubIndex PM25 pm25 = Return a1 /\ computeSubIndex PM10 pm10 = Return a2
    /\ computeSubIndex NO2 no2 = Return a3 /\ computeSubIndex SO2 so2 = Return a4
    /\ computeSubIndex CO co = Return a5 /\ computeSubIndex O3 o3 = Return a6
    /\ calculateAQI pm25 pm10 no2 so2 co o3
       = Return (Math_max a1 [a2; a3; a4; a5; a6]).
Proof.
  destruct (computeSubIndex_returns PM25 pm25) as [a1 E1].
  destruct (computeSubIndex_returns PM10 pm10) as [a2 E2].
  destruct (computeSubIndex_returns NO2 no2) as [a3 E3].
  destruct (computeSubIndex_returns SO2 so2) as [a4 E4].
  destruct (computeSubIndex_returns CO co) as [a5 E5].
  destruct (computeSubIndex_returns O3 o3) as [a6 E6].
  exists a1, a2, a3, a4, a5, a6. repeat (split; [ assumption | ]).
  exact (calculateAQI_subindices _ _ _ _ _ _ _ _ _ _ _ _ E1 E2 E3 E4 E5 E6).
Qed.

(** [Math.max] is below a bound exactly when every argument is. *)
Lemma Math_max_le (x : Z) (xs : list Z) (t : Z) :
  (Math_max x xs <= t)%Z <-> forall a, In a (x :: xs) -> (a <= t)%Z.
Proof.
  destruct (Math_max_spec x xs) as [Hin Hle]. split.
  - intros H a I. pose proof (Hle a I). lia.
  - intros H. apply H. exact Hin.
Qed.

Lemma calculateAQI_bounds (pm25 pm10 no2 so2 co o3 : Q) (v : Z) :
  calculateAQI pm25 pm10 no2 so2 co o3 = Return v -> (0 <= v <= 500)%Z.
Proof.
  destruct (calculateAQI_returns pm25 pm10 no2 so2 co o3)
    as (a1 & a2 & a3 & a4 & a5 & a6 & E1 & E2 & E3 & E4 & E5 & E6 & E).
  rewrite E. intros [= <-].
  destruct (Math_max_spec a1 [a2; a3; a4; a5; a6]) as [Hin Hle].
  pose proof (subIndex_bounds _ _ _ E1). pose proof (subIndex_bounds _ _ _ E2).
  pose proof (subIndex_bounds _ _ _ E3). pose proof (subIndex_bounds _ _ _ E4).
  pose proof (subIndex_bounds _ _ _ E5). pose proof (subIndex_bounds _ _ _ E6).
  cbn in Hin. intuition subst; lia.
Qed.

(** For every six concentrations [calculateAQI] returns a value between 0
    and 500, and that value is at most a threshold exactly when each of the
    six sub-indices is: the category of the aggregate is the worst category
    among the pollutants (good only when all six are good, and so on). *)
Theorem calculateAQI_worst_pollutant (pm25 pm10 no2 so2 co o3 : Q) :
  exists a1 a2 a3 a4 a5 a6 v,
    computeSubIndex PM25 pm25 = Return a1 /\ computeSubIndex PM10 pm10 = Return a2
    /\ computeSubIndex NO2 no2 = Return a3 /\ computeSubIndex SO2 so2 = Return a4
    /\ computeSubIndex CO co = Return a5 /\ computeSubIndex O3 o3 = Return a6
    /\ calculateAQI pm25 pm10 no2 so2 co o3 = Return v
    /\ (0 <= v <= 500)%Z
    /\ (forall t, (v <= t)%Z <->
          (a1 <= t /\ a2 <= t /\ a3 <= t /\ a4 <= t /\ a5 <= t /\ a6 <= t)%Z)
    /\ (getAQICategory v = "good"%string <->
          Forall (fun a => getAQICategory a = "good"%string) [a1; a2; a3; a4; a5; a6]).
Proof.
  destruct (calculateAQI_returns pm25 pm10 no2 so2 co o3)
    as (a1 & a2 & a3 & a4 & a5 & a6 & E1 & E2 & E3 & E4 & E5 & E6 & E).
  exists a1, a2, a3, a4, a5, a6, (Math_max a1 [a2; a3; a4; a5; a6]).
  repeat (split; [ assumption | ]).
  split; [ exact (calculateAQI_bounds _ _ _ _ _ _ _ E) | ].
  assert (forall t, (Math_max a1 [a2; a3; a4; a5; a6] <= t)%Z <->
            (a1 <= t /\ a2 <= t /\ a3 <= t /\ a4 <= t /\ a5 <= t /\ a6 <= t)%Z) as T.
  { intros t. rewrite Math_max_le. cbn. split.
    - intros H. repeat split; apply H; tauto.
    - intros H a I. intuition subst; assumption. }
  split; [ exact T | ].
  assert (forall a, getAQICategory a = "good"%string <-> (a <= 50)%Z) as Good.
  { intros a. unfold getAQICategory.
    destruct (Z.leb_spec a 50); [ split; [ lia | reflexivity ] | ].
    repeat match goal with |- context [(?x <=? ?y)%Z] => destruct (x <=? y)%Z end;
      split; try discriminate; lia. }
  rewrite Good, T. split.
  - intros H. repeat constructor; apply Good; lia.
  - intros H.
    repeat match goal with
      | H : Forall _ (_ :: _) |- _ => inversion H; clear H; subst
      end.
    repeat split; apply Good; assumption.
Qed.

(** ** Generated readings *)

Lemma Math_round_upper (x : Q) (n : Z) :
  x < inject_Z n + (1 # 2) -> (Math_round x <= n)%Z.
Proof.
  intros H. unfold Math_round.
  pose proof (Qfloor_le (x + (1 # 2))) as F.
  assert (inject_Z (Qfloor (x + (1 # 2))) < inject_Z (n + 1)) as L
    by (rewrite inject_Z_plus; change (inject_Z 1) with 1; lra).
  rewrite <- Zlt_Qlt in L. lia.
Qed.

Lemma Math_round_lower (x : Q) (n : Z) :
  inject_Z n - (1 # 2) <= x -> (n <= Math_round x)%Z.
Proof.
  intros H. unfold Math_round. rewrite <- (Qfloor_Z n) at 1.
  apply Qfloor_resp_le. lra.
Qed.

Lemma property_In {A} (obj : list (string * A)) (key : string) (v : A) :
  property obj key = Some v -> In (key, v) obj.
Proof.
  induction obj as [| [k w] rest IH]; simpl; [ discriminate | ].
  destruct (String.eqb_spec k key) as [-> | N].
  - intros [= ->]. left; reflexivity.
  - intros H. right. exact (IH H).
Qed.

Lemma baseOf_bounds (profile : string) :
  let base := baseOf profile in
  10 <= basePm25 base <= 35 /\ 25 <= basePm10 base <= 70
  /\ 15 <= baseNo2 base <= 40 /\ 5 <= baseSo2 base <= 30
  /\ 0.5 <= baseCo base <= 1.5 /\ 30 <= baseO3 base <= 50.
Proof.
  unfold baseOf. destruct (property baseValues profile) as [base |] eqn:E.
  - apply property_In in E. cbn in E.
    repeat (destruct E as [E | E]; [ injection E as <- <- | ]); try destruct E;
      cbn; repeat split; discriminate.
  - cbn; repeat split; discriminate.
Qed.

Lemma generateSensorReadings_baseOf (random : nat -> Q) (draw : nat) (profile : string) :
  inheritedName profile = false ->
  generateSensorReadings random draw profile
  = readingsFrom random draw (baseOf profile).
Proof.
  intros N. unfold generateSensorReadings, getProperty, baseOf.
  destruct (property baseValues profile); [ reflexivity | ].
  rewrite N. reflexivity.
Qed.

(** The object [readingsFrom] builds, field by field. *)
Lemma readingsFrom_Measured (random : nat -> Q) (draw : nat) (base : BaseValues) :
  exists r,
    readingsFrom random draw base = Return (Measured r)
    /\ pm25Value r = inject_Z (Math_max 0 [Math_round (basePm25 base + (random (draw + 0)%nat - 0.5) * 10)])
    /\ pm10Value r = inject_Z (Math_max 0 [Math_round (basePm10 base + (random (draw + 1)%nat - 0.5) * 20)])
    /\ no2Value r = inject_Z (Math_max 0 [Math_round (baseNo2 base + (random (draw + 2)%nat - 0.5) * 10)])
    /\ so2Value r = inject_Z (Math_max 0 [Math_round (baseSo2 base + (random (draw + 3)%nat - 0.5) * 5)])
    /\ coValue r = Math_maxQ 0 (toFixed1 (baseCo base + (random (draw + 4)%nat - 0.5) * 0.5))
    /\ o3Value r = inject_Z (Math_max 0 [Math_round (baseO3 base + (random (draw + 5)%nat - 0.5) * 15)])
    /\ calculateAQI (pm25Value r) (pm10Value r) (no2Value r) (so2Value r)
         (coValue r) (o3Value r) = Return (aqiReading r)
    /\ aqiReadingCategory r = getAQICategory (aqiReading r).
Proof.
  unfold readingsFrom.
  match goal with
  | |- context [calculateAQI ?a ?b ?c ?d ?e ?f] =>
      destruct (calculateAQI_returns a b c d e f)
        as (a1 & a2 & a3 & a4 & a5 & a6 & _ & _ & _ & _ & _ & _ & E)
  end.
  rewrite E. cbn [bind]. eexists. split; [ reflexivity | ].
  cbn [pm25Value pm10Value no2Value so2Value coValue o3Value aqiReading
       aqiReadingCategory].
  repeat split. exact E.
Qed.

Lemma Math_max_0_le (v t : Z) : (0 <= t)%Z -> (v <= t)%Z -> (Math_max 0 [v] <= t)%Z.
Proof. unfold Math_max; simpl. lia. Qed.

Lemma generatedReadings_covered (r : Readings) (k1 k2 k3 k4 k6 : Z) (x : Q) :
  pm25Value r = inject_Z (Math_max 0 [k1]) -> pm10Value r = inject_Z (Math_max 0 [k2]) ->
  no2Value r = inject_Z (Math_max 0 [k3]) -> so2Value r = inject_Z (Math_max 0 [k4]) ->
  coValue r = Math_maxQ 0 (toFixed1 x) -> o3Value r = inject_Z (Math_max 0 [k6]) ->
  (0 <= pm25Value r /\ Covered PM25 (pm25Value r))
  /\ (0 <= pm10Value r /\ Covered PM10 (pm10Value r))
  /\ (0 <= no2Value r /\ Covered NO2 (no2Value r))
  /\ (0 <= so2Value r /\ Covered SO2 (so2Value r))
  /\ (0 <= coValue r /\ Covered CO (coValue r))
  /\ (0 <= o3Value r /\ Covered O3 (o3Value r)).
Proof.
  intros -> -> -> -> -> ->.
  assert (forall p k, 0 <= inject_Z (Math_max 0 [k])
                      /\ Covered p (inject_Z (Math_max 0 [k]))) as Int.
  { intros p k. pose proof (Math_max_0 k) as H. split.
    - rewrite Zle_Qle in H. exact H.
    - apply integer_Covered. exact H. }
  repeat (split; [ apply Int | ]). split; [ | apply Int ].
  destruct (coReading_tenths x) as (k & Hk & Ek). split.
  - rewrite Ek. rewrite Zle_Qle in Hk. change (inject_Z 0) with 0 in Hk.
    clear Ek. revert Hk. generalize (inject_Z k). intros q Hq. lra.
  - apply (Covered_comp CO (inject_Z k * 0.1)); [ symmetry; exact Ek | ].
    exact (grid_Covered CO k Hk).
Qed.

Lemma generateSensorReadings_cases (random : nat -> Q) (draw : nat) (profile : string) :
  (inheritedName profile = false ->
     exists r,
       generateSensorReadings random draw profile = Return (Measured r)
       /\ (0 <= pm25Value r /\ Covered PM25 (pm25Value r))
       /\ (0 <= pm10Value r /\ Covered PM10 (pm10Value r))
       /\ (0 <= no2Value r /\ Covered NO2 (no2Value r))
       /\ (0 <= so2Value r /\ Covered SO2 (so2Value r))
       /\ (0 <= coValue r /\ Covered CO (coValue r))
       /\ (0 <= o3Value r /\ Covered O3 (o3Value r))
       /\ calculateAQI (pm25Value r) (pm10Value r) (no2Value r) (so2Value r)
            (coValue r) (o3Value r) = Return (aqiReading r)
       /\ (0 <= aqiReading r <= 500)%Z
       /\ aqiReadingCategory r = getAQICategory (aqiReading r))
  /\ (inheritedName profile = false ->
      ~ In profile ["industrial"; "urban"; "residential"; "mixed"]%string ->
      generateSensorReadings random draw profile
      = generateSensorReadings random draw "mixed")
  /\ (inheritedName profile = true ->
      generateSensorReadings random draw profile = Return NotANumber).
Proof.
  split; [ | split ].
  - intros N. rewrite (generateSensorReadings_baseOf _ _ _ N).
    destruct (readingsFrom_Measured random draw (baseOf profile))
      as (r & E & E1 & E2 & E3 & E4 & E5 & E6 & Eaqi & Ecat).
    exists r. split; [ exact E | ].
    destruct (generatedReadings_covered r _ _ _ _ _ _ E1 E2 E3 E4 E5 E6)
      as (C1 & C2 & C3 & C4 & C5 & C6).
    repeat (split; [ assumption | ]).
    split; [ exact (calculateAQI_bounds _ _ _ _ _ _ _ Eaqi) | exact Ecat ].
  - intros N Unknown. unfold generateSensorReadings, getProperty. rewrite N.
    destruct (property baseValues profile) as [base |] eqn:E; [ | reflexivity ].
    apply property_In in E. cbn in E. cbn in Unknown.
    exfalso. apply Unknown.
    repeat (destruct E as [E | E]; [ injection E as <- _; tauto | ]). destruct E.
  - intros I. unfold generateSensorReadings, getProperty.
    destruct (property baseValues profile) as [base |] eqn:E.
    + apply property_In in E. cbn in E.
      repeat (destruct E as [E | E];
              [ injection E as <- _; discriminate I | ]). destruct E.
    + rewrite I. reflexivity.
Qed.

(** For a profile name that [Object.prototype] does not define (the four
    profiles and every unknown name), [generateSensorReadings] returns six
    non-negative concentrations, each inside a bracket of its table or above
    the top (never in a gap), with the AQI [calculateAQI] gives for them,
    between 0 and 500, and the category of that AQI; a name that is not a
    profile gets the readings of the profile mixed.  For a name that
    [Object.prototype] defines the readings are not numbers. *)
Theorem generateSensorReadings_sound (random : nat -> Q) (draw : nat) (profile : string) :
  (inheritedName profile = false ->
     exists r,
       generateSensorReadings random draw profile = Return (Measured r)
       /\ (0 <= pm25Value r /\ Covered PM25 (pm25Value r))
       /\ (0 <= pm10Value r /\ Covered PM10 (pm10Value r))
       /\ (0 <= no2Value r /\ Covered NO2 (no2Value r))
       /\ (0 <= so2Value r /\ Covered SO2 (so2Value r))
       /\ (0 <= coValue r /\ Covered CO (coValue r))
       /\ (0 <= o3Value r /\ Covered O3 (o3Value r))
       /\ calculateAQI (pm25Value r) (pm10Value r) (no2Value r) (so2Value r)
            (coValue r) (o3Value r) = Return (aqiReading r)
       /\ (0 <= aqiReading r <= 500)%Z
       /\ aqiReadingCategory r = getAQICategory (aqiReading r))
  /\ (inheritedName profile = false ->
      ~ In profile ["industrial"; "urban"; "residential"; "mixed"]%string ->
      generateSensorReadings random draw profile
      = generateSensorReadings random draw "mixed")
  /\ (inheritedName profile = true ->
      generateSensorReadings random draw profile = Return NotANumber).
Proof. exact (generateSensorReadings_cases random draw profile). Qed.

(** The readings of an industrial location and of a name that is no
    profile. *)
Lemma generateSensorReadings_sound_witness :
  (exists r, generateSensorReadings (fun _ => 0.5) 0 "industrial" = Return (Measured r)
             /\ aqiReading r = 99%Z)
  /\ generateSensorReadings (fun _ => 0.5) 0 "rural"
     = generateSensorReadings (fun _ => 0.5) 0 "mixed".
Proof.
  destruct (generateSensorReadings_sound (fun _ => 0.5) 0 "industrial") as (H & _).
  destruct (generateSensorReadings_sound (fun _ => 0.5) 0 "rural") as (_ & F & _).
  split.
  - destruct (H eq_refl) as (r & E & _). exists r. split; [ exact E | ].
    vm_compute in E. injection E as <-. reflexivity.
  - apply F; [ reflexivity | ].
    cbn. intros [E | [E | [E | [E | []]]]]; discriminate E.
Defined.

(** With the draw in [[0, 1]], a rounded reading is at most the base
    value plus half the width of the noise, rounded half up. *)
Lemma reading_upper (base noise width : Q) (bound : Z) :
  0 <= noise <= 1 -> 0 < width -> (0 <= bound)%Z ->
  base + width * (1 # 2) < inject_Z bound + (1 # 2) ->
  inject_Z (Math_max 0 [Math_round (base + (noise - 0.5) * width)])
  <= inject_Z bound.
Proof.
  intros [N0 N1] W B H. rewrite <- Zle_Qle.
  apply Math_max_0_le; [ exact B | ].
  apply Math_round_upper.
  revert H. generalize (inject_Z bound). intros q H. nra.
Qed.

Lemma coReading_upper (base noise : Q) :
  0 <= noise <= 1 -> 0.5 <= base <= 1.5 ->
  Math_maxQ 0 (toFixed1 (base + (noise - 0.5) * 0.5)) <= 1.8.
Proof.
  intros [N0 N1] [B0 B1].
  set (x := base + (noise - 0.5) * 0.5).
  assert (0.25 <= x <= 1.75) as [X0 X1] by (unfold x; lra).
  unfold Math_maxQ, toFixed1.
  replace (Qle_bool 0 x) with true by (symmetry; apply Qle_bool_iff; lra).
  assert (Math_round (x * 10) <= 18)%Z as U
    by (apply Math_round_upper; change (inject_Z 18) with 18; lra).
  rewrite Zle_Qle in U.
  assert (inject_Z (Math_round (x * 10)) / 10 <= 1.8) as V.
  { apply Qle_shift_div_r; [ reflexivity | ].
    change (inject_Z 18) with 18 in U. lra. }
  destruct (Qle_bool 0 (inject_Z (Math_round (x * 10)) / 10)); lra.
Qed.

(** The sub-index at a reading below a bound is at most the sub-index at
    the bound, both being covered. *)
Lemma subIndex_at_most (p : Pollutant) (c bound : Q) (v limit : Z) :
  Covered p c -> Covered p bound -> c <= bound ->
  computeSubIndex p bound = Return limit ->
  computeSubIndex p c = Return v -> (v <= limit)%Z.
Proof.
  intros Cc Cb H Eb Ec. exact (subIndex_monotone p c bound v limit Cc Cb H Ec Eb).
Qed.

Lemma generateSensorReadings_bounded (random : nat -> Q) (draw : nat)
    (profile : string) :
  (forall n, 0 <= random n <= 1) -> inheritedName profile = false ->
  exists r,
    generateSensorReadings random draw profile = Return (Measured r)
    /\ pm25Value r <= 40 /\ pm10Value r <= 80 /\ no2Value r <= 45
    /\ so2Value r <= 33 /\ coValue r <= 1.8 /\ o3Value r <= 58
    /\ (0 <= aqiReading r <= 112)%Z
    /\ In (aqiReadingCategory r) ["good"; "moderate"; "unhealthy_for_sensitive"]%string.
Proof.
  intros R N. rewrite (generateSensorReadings_baseOf _ _ _ N).
  destruct (baseOf_bounds profile) as (B1 & B2 & B3 & B4 & B5 & B6).
  destruct (readingsFrom_Measured random draw (baseOf profile))
    as (r & E & E1 & E2 & E3 & E4 & E5 & E6 & Eaqi & Ecat).
  destruct (generatedReadings_covered r _ _ _ _ _ _ E1 E2 E3 E4 E5 E6)
    as ((_ & C1) & (_ & C2) & (_ & C3) & (_ & C4) & (_ & C5) & (_ & C6)).
  assert (pm25Value r <= 40) as U1
    by (rewrite E1; apply (reading_upper _ _ 10 40); [ apply R | reflexivity | lia | unfold inject_Z; lra ]).
  assert (pm10Value r <= 80) as U2
    by (rewrite E2; apply (reading_upper _ _ 20 80); [ apply R | reflexivity | lia | unfold inject_Z; lra ]).
  assert (no2Value r <= 45) as U3
    by (rewrite E3; apply (reading_upper _ _ 10 45); [ apply R | reflexivity | lia | unfold inject_Z; lra ]).
  assert (so2Value r <= 33) as U4
    by (rewrite E4; apply (reading_upper _ _ 5 33); [ apply R | reflexivity | lia | unfold inject_Z; lra ]).
  assert (coValue r <= 1.8) as U5
    by (rewrite E5; apply coReading_upper; [ apply R | lra ]).
  assert (o3Value r <= 58) as U6
    by (rewrite E6; apply (reading_upper _ _ 15 58); [ apply R | reflexivity | lia | unfold inject_Z; lra ]).
  exists r. split; [ exact E | ]. repeat (split; [ assumption | ]).
  destruct (calculateAQI_returns (pm25Value r) (pm10Value r) (no2Value r)
              (so2Value r) (coValue r) (o3Value r))
    as (a1 & a2 & a3 & a4 & a5 & a6 & S1 & S2 & S3 & S4 & S5 & S6 & S).
  rewrite S in Eaqi. injection Eaqi as Eaqi.
  assert (a1 <= 112)%Z as A1
    by (apply (subIndex_at_most PM25 (pm25Value r) 40 a1 112);
        [ exact C1 | apply (integer_Covered PM25 40); lia | exact U1
        | reflexivity | exact S1 ]).
  assert (a2 <= 63)%Z as A2
    by (apply (subIndex_at_most PM10 (pm10Value r) 80 a2 63);
        [ exact C2 | apply (integer_Covered PM10 80); lia | exact U2
        | reflexivity | exact S2 ]).
  assert (a3 <= 42)%Z as A3
    by (apply (subIndex_at_most NO2 (no2Value r) 45 a3 42);
        [ exact C3 | apply (integer_Covered NO2 45); lia | exact U3
        | reflexivity | exact S3 ]).
  assert (a4 <= 47)%Z as A4
    by (apply (subIndex_at_most SO2 (so2Value r) 33 a4 47);
        [ exact C4 | apply (integer_Covered SO2 33); lia | exact U4
        | reflexivity | exact S4 ]).
  assert (a5 <= 20)%Z as A5
    by (apply (subIndex_at_most CO (coValue r) 1.8 a5 20);
        [ exact C5
        | apply (Covered_comp CO (inject_Z 18 * 0.1)); [ reflexivity | ];
          apply (grid_Covered CO 18); lia
        | exact U5 | reflexivity | exact S5 ]).
  assert (a6 <= 61)%Z as A6
    by (apply (subIndex_at_most O3 (o3Value r) 58 a6 61);
        [ exact C6 | apply (integer_Covered O3 58); lia | exact U6
        | reflexivity | exact S6 ]).
  assert (0 <= aqiReading r <= 112)%Z as Range
    by (pose proof (subIndex_bounds _ _ _ S1); lia).
  split; [ exact Range | ].
  rewrite Ecat. unfold getAQICategory.
  destruct (Z.leb_spec (aqiReading r) 50); [ left; reflexivity | ].
  destruct (Z.leb_spec (aqiReading r) 100); [ right; left; reflexivity | ].
  destruct (Z.leb_spec (aqiReading r) 150); [ right; right; left; reflexivity | lia ].
Qed.

(** The same bounds on the binary64 numbers of the code, evaluated for the
    four profiles at 1025 draws: the multiples of [1/1024] and the largest
    draw. *)
Lemma sampleBoundsOn_grid : Binary64.sampleBoundsOn (Binary64.drawGrid 1024) = true.
Proof. vm_compute. reflexivity. Qed.

Lemma sampleBoundsOn_spec (draws : list float) :
  Binary64.sampleBoundsOn draws = true ->
  forall base r, In base baseValues -> In r draws ->
    exists readings,
      Binary64.readingsFrom (fun _ => r) 0 (snd base) = Some readings
      /\ (Binary64.pm25 readings <= 40)%Z /\ (Binary64.pm10 readings <= 80)%Z
      /\ (Binary64.no2 readings <= 45)%Z /\ (Binary64.so2 readings <= 33)%Z
      /\ PrimFloat.leb (Binary64.co readings) (Binary64.literal 1.8) = true
      /\ (Binary64.o3 readings <= 58)%Z
      /\ (0 <= Binary64.aqi readings <= 112)%Z.
Proof.
  unfold Binary64.sampleBoundsOn. rewrite forallb_forall. intros H base r Ib Ir.
  specialize (H base Ib). rewrite forallb_forall in H. specialize (H r Ir).
  destruct (Binary64.readingsFrom (fun _ => r) 0 (snd base)) as [readings |];
    [ | discriminate H ].
  exists readings. split; [ reflexivity | ].
  unfold Binary64.withinSampleBounds in H.
  rewrite !andb_true_iff, !Z.leb_le in H. tauto.
Qed.

(** With every value of [Math.random()] between 0 and 1, the readings
    generated for any profile name that [Object.prototype] does not define
    stay at or below PM2.5 40, PM10 80, NO2 45, SO2 33, CO 1.8 and O3 58, so
    the AQI is at most 112 and the category is good, moderate or unhealthy
    for sensitive groups: the sample data never reaches unhealthy.  On the
    binary64 numbers of the code the bounds hold for the four profiles at
    each of the 1025 draws of the grid, and the largest draw [1 - 2^-53]
    gives an industrial location exactly the readings 40, 80, 45, 33, 1.8
    and 58 with the AQI 112. *)
Theorem generateSensorReadings_at_most_112 (random : nat -> Q) (draw : nat)
    (profile : string) :
  (forall n, 0 <= random n <= 1) -> inheritedName profile = false ->
  (exists r,
     generateSensorReadings random draw profile = Return (Measured r)
     /\ pm25Value r <= 40 /\ pm10Value r <= 80 /\ no2Value r <= 45
     /\ so2Value r <= 33 /\ coValue r <= 1.8 /\ o3Value r <= 58
     /\ (0 <= aqiReading r <= 112)%Z
     /\ In (aqiReadingCategory r) ["good"; "moderate"; "unhealthy_for_sensitive"]%string)
  /\ (forall base r, In base baseValues -> In r (Binary64.drawGrid 1024) ->
        exists readings,
          Binary64.readingsFrom (fun _ => r) 0 (snd base) = Some readings
          /\ (Binary64.pm25 readings <= 40)%Z /\ (Binary64.pm10 readings <= 80)%Z
          /\ (Binary64.no2 readings <= 45)%Z /\ (Binary64.so2 readings <= 33)%Z
          /\ PrimFloat.leb (Binary64.co readings) (Binary64.literal 1.8) = true
          /\ (Binary64.o3 readings <= 58)%Z
          /\ (0 <= Binary64.aqi readings <= 112)%Z)
  /\ Binary64.readingsFrom (fun _ => Binary64.maxDraw) 0 (baseOf "industrial")
     = Some (Binary64.mkReadings 40 80 45 33 (Binary64.literal 1.8) 58 112
               "unhealthy_for_sensitive").
Proof.
  intros R N. split; [ | split ].
  - exact (generateSensorReadings_bounded random draw profile R N).
  - exact (sampleBoundsOn_spec _ sampleBoundsOn_grid).
  - vm_compute. reflexivity.
Qed.

(** The bounds at the draw 1 for an industrial location: SO2 33, CO 1.8,
    O3 58 and the AQI 112 are reached. *)
Lemma generateSensorReadings_at_most_112_witness :
  exists r,
    generateSensorReadings (fun _ => 1) 0 "industrial" = Return (Measured r)
    /\ so2Value r == 33 /\ coValue r == 1.8 /\ o3Value r == 58
    /\ (aqiReading r <= 112)%Z /\ aqiReading r = 112%Z.
Proof.
  destruct (generateSensorReadings_at_most_112 (fun _ => 1) 0 "industrial")
    as ((r & E & _ & _ & _ & _ & _ & _ & [_ U] & _) & _).
  - intros n. split; discriminate.
  - reflexivity.
  - exists r. split; [ exact E | ].
    vm_compute in E. injection E as <-.
    repeat split; try reflexivity; try exact U.
Defined.

(** ** Risk levels, scores and what is displayed for them *)

Local Open Scope string_scope.

(** For every AQI value the risk level computed in [calculateHealthRisks]
    and the category of [getAQICategory] are the same tier of the scale;
    the colour [updateHealthRiskDisplay] picks for the level is the colour
    [getAQIColor] gives the category, and none of the display functions
    falls to its default (grey, Unknown, Unknown Risk) on them. *)
Theorem level_and_category_agree (aqi : Z) :
  In (baseRiskLevel aqi, getAQICategory aqi)
     [ ("minimal", "good"); ("low", "moderate");
       ("moderate", "unhealthy_for_sensitive"); ("high", "unhealthy");
       ("very_high", "very_unhealthy"); ("severe", "hazardous") ]
  /\ riskColor (baseRiskLevel aqi) = getAQIColor (getAQICategory aqi)
  /\ getAQIColor (getAQICategory aqi) <> "#808080"
  /\ formatAQICategory (getAQICategory aqi) <> "Unknown"
  /\ formatRiskLevel (baseRiskLevel aqi) <> "Unknown Risk".
Proof.
  unfold baseRiskLevel, getAQICategory.
  repeat match goal with |- context [(?a <=? ?b)%Z] => destruct (a <=? b)%Z end;
    cbn; repeat split; try discriminate; tauto.
Qed.

Local Close Scope string_scope.

Lemma baseRiskScore_monotone (aqi aqi' : Z) :
  (aqi <= aqi')%Z ->
  (10 <= baseRiskScore (baseRiskLevel aqi)
   /\ baseRiskScore (baseRiskLevel aqi) <= baseRiskScore (baseRiskLevel aqi')
   /\ baseRiskScore (baseRiskLevel aqi') <= 100)%Z.
Proof.
  intros H. unfold baseRiskLevel.
  repeat match goal with
    | |- context [(?a <=? ?b)%Z] => destruct (Z.leb_spec a b)
    end; cbn; lia.
Qed.

(** For a fixed factor that is not negative the stored score never
    decreases when the AQI grows; for a fixed AQI it never decreases when
    the factor grows, so it is ordered General, Children, Elderly,
    Cardiovascular, Respiratory; for the five groups it lies between 10 and
    100. *)
Theorem groupRisk_score_monotone (aqi aqi' : Z) (group group' : string)
    (factor factor' : Q) :
  (aqi <= aqi')%Z -> 0 <= factor <= factor' ->
  (score (groupRisk aqi group factor) <= score (groupRisk aqi' group factor))%Z
  /\ (score (groupRisk aqi group factor) <= score (groupRisk aqi group' factor'))%Z
  /\ (In (group, factor) riskFactors ->
      (10 <= score (groupRisk aqi group factor) <= 100)%Z)
  /\ map snd riskFactors = [1.0; 1.5; 1.3; 2.0; 1.8].
Proof.
  intros Ha [F0 F1].
  pose proof (baseRiskScore_monotone aqi aqi' Ha) as B.
  unfold groupRisk; cbn [score]. unfold Math_min.
  set (s := baseRiskScore (baseRiskLevel aqi)) in *.
  set (s' := baseRiskScore (baseRiskLevel aqi')) in *.
  assert (0 <= inject_Z s <= inject_Z s') as [S0 S1]
    by (split; [ change 0 with (inject_Z 0) | ]; rewrite <- Zle_Qle; lia).
  split; [ | split; [ | split; [ | reflexivity ] ] ].
  - apply Z.min_le_compat_l, Math_round_le.
    revert S0 S1. generalize (inject_Z s), (inject_Z s'). intros q q' S0 S1. nra.
  - apply Z.min_le_compat_l, Math_round_le.
    revert S0. generalize (inject_Z s). intros q S0. nra.
  - intros I. split; [ | lia ].
    apply Z.min_glb; [ lia | ].
    apply Math_round_lower.
    assert (1 <= factor) as F.
    { cbn in I.
      repeat (destruct I as [I | I]; [ injection I as _ <-; discriminate | ]).
      destruct I. }
    assert (10 <= inject_Z s) as S10
      by (change 10 with (inject_Z 10); rewrite <- Zle_Qle; lia).
    change (inject_Z 10) with 10.
    revert S10. generalize (inject_Z s). intros q S10. nra.
Qed.

(** The score of PM-laden air for the elderly, from AQI 101 to 151 and
    from the factor 1.3 of children to 1.5. *)
Lemma groupRisk_score_monotone_witness :
  (score (groupRisk 101 "elderly" 1.5) <= score (groupRisk 151 "elderly" 1.5))%Z.
Proof.
  refine (proj1 (groupRisk_score_monotone 101 151 "elderly" "elderly" 1.5 1.5 _ _)).
  - lia.
  - split; discriminate.
Defined.

(** ** The health-risk store *)

Lemma property_assign_other {A} (obj : list (string * A)) (key key' : string) (value : A) :
  key <> key' -> property (assign obj key value) key' = property obj key'.
Proof.
  intros N. induction obj as [| [k v] rest IH]; simpl.
  - destruct (String.eqb_spec key key'); [ contradiction | reflexivity ].
  - destruct (String.eqb_spec k key) as [-> | Nk]; simpl.
    + destruct (String.eqb_spec key key'); [ contradiction | reflexivity ].
    + rewrite IH. reflexivity.
Qed.

(** What [calculateHealthRisks] leaves under a key: the risks of the last
    sensor with that id, or what was there before. *)
Lemma calculateHealthRisks_property (sensors : list Sensor)
    (healthRisks : list (string * HealthRisks)) (key : string) :
  property (calculateHealthRisks sensors healthRisks) key
  = match find (fun sensor => String.eqb (id sensor) key) (rev sensors) with
    | Some sensor => Some (sensorHealthRisks sensor)
    | None => property healthRisks key
    end.
Proof.
  induction sensors as [| sensor sensors IH] using rev_ind.
  - reflexivity.
  - unfold calculateHealthRisks in *. rewrite fold_left_app, rev_app_distr. simpl.
    destruct (String.eqb_spec (id sensor) key) as [<- | N].
    + apply property_assign.
    + rewrite property_assign_other by assumption. exact IH.
Qed.

(** The first element a search accepts, with what precedes it. *)
Lemma find_split {A} (f : A -> bool) (l : list A) (x : A) :
  find f l = Some x ->
  exists l1 l2, l = (l1 ++ x :: l2)%list /\ f x = true
                /\ forall y, In y l1 -> f y = false.
Proof.
  induction l as [| a l IH]; intros F; [ discriminate F | ].
  cbn in F. destruct (f a) eqn:Fa.
  - injection F as ->. exists [], l. repeat split; [ exact Fa | intros y [] ].
  - destruct (IH F) as (l1 & l2 & -> & Fx & N).
    exists (a :: l1), l2. repeat split; [ exact Fx | ].
    intros y [<- | I]; [ exact Fa | exact (N y I) ].
Qed.

Lemma find_last_wins (before after : list Sensor) (last : Sensor) :
  (forall s, In s after -> id s <> id last) ->
  find (fun s => String.eqb (id s) (id last)) (rev (before ++ last :: after))
  = Some last.
Proof.
  intros N. rewrite rev_app_distr. cbn [rev]. rewrite <- app_assoc. cbn [app].
  assert (forall l, (forall s, In s l -> id s <> id last) ->
            forall tail, find (fun s => String.eqb (id s) (id last)) (l ++ tail)
                         = find (fun s => String.eqb (id s) (id last)) tail) as Skip.
  { induction l as [| a l IH]; intros Nl tail; [ reflexivity | ].
    cbn. destruct (String.eqb_spec (id a) (id last)) as [E | _].
    - exfalso. exact (Nl a (or_introl eq_refl) E).
    - apply IH. intros s I. apply Nl. right; exact I. }
  rewrite Skip.
  - cbn. rewrite String.eqb_refl. reflexivity.
  - intros s I. apply N. rewrite in_rev. exact I.
Qed.

(** After [calculateHealthRisks], [getHealthRisks] finds under a sensor's
    id the risks of the last sensor of the list carrying that id: of the
    sensor [last] when no sensor after it has its id, and every sensor's id
    has such a last sensor.  With distinct ids that is the sensor itself.
    The risks are computed from that sensor's AQI, for the five groups;
    every key that is no sensor's id is as it was before.  The sensor ids
    are taken not to be [__proto__]. *)
Theorem calculateHealthRisks_last_wins (sensors : list Sensor)
    (healthRisks : list (string * HealthRisks)) :
  ~ In "__proto__"%string (map id sensors) ->
  let stored := calculateHealthRisks sensors healthRisks in
  (forall before last after,
     sensors = (before ++ last :: after)%list ->
     (forall s, In s after -> id s <> id last) ->
     getProperty stored (id last) = Own (sensorHealthRisks last)
     /\ aqi (sensorHealthRisks last) = aqiValue last
     /\ map fst (risks (sensorHealthRisks last)) = map fst riskFactors)
  /\ (forall sensor, In sensor sensors ->
        exists before last after,
          sensors = (before ++ last :: after)%list
          /\ id last = id sensor
          /\ (forall s, In s after -> id s <> id sensor)
          /\ getProperty stored (id sensor) = Own (sensorHealthRisks last))
  /\ (NoDup (map id sensors) ->
      forall sensor, In sensor sensors ->
        getProperty stored (id sensor) = Own (sensorHealthRisks sensor))
  /\ (forall key, ~ In key (map id sensors) ->
        getProperty stored key = getProperty healthRisks key).
Proof.
  intros _ stored.
  assert (forall before last after,
            sensors = (before ++ last :: after)%list ->
            (forall s, In s after -> id s <> id last) ->
            getProperty stored (id last) = Own (sensorHealthRisks last)) as Wins.
  { intros before last after -> N. unfold getProperty, stored.
    rewrite calculateHealthRisks_property, (find_last_wins before after last N).
    reflexivity. }
  assert (forall sensor, In sensor sensors ->
            exists before last after,
              sensors = (before ++ last :: after)%list
              /\ id last = id sensor
              /\ (forall s, In s after -> id s <> id sensor)) as Last.
  { intros sensor I.
    destruct (find (fun s => String.eqb (id s) (id sensor)) (rev sensors))
      as [last |] eqn:F.
    - destruct (find_split _ _ _ F) as (l1 & l2 & E & Fx & N).
      exists (rev l2), last, (rev l1). split; [ | split ].
      + rewrite <- (rev_involutive sensors), E, rev_app_distr. cbn [rev].
        rewrite <- app_assoc. reflexivity.
      + apply String.eqb_eq. exact Fx.
      + intros s Is Es. rewrite <- in_rev in Is.
        pose proof (N s Is) as Fs. cbn in Fs.
        rewrite Es, String.eqb_refl in Fs. discriminate Fs.
    - assert (In sensor (rev sensors)) as Ir by (rewrite <- in_rev; exact I).
      pose proof (find_none _ _ F sensor Ir) as H. cbn in H.
      rewrite String.eqb_refl in H. discriminate H. }
  split; [ | split; [ | split ] ].
  - intros before last after E N.
    split; [ exact (Wins before last after E N) | split; [ reflexivity | ] ].
    unfold sensorHealthRisks; cbn [risks]. rewrite map_map. reflexivity.
  - intros sensor I. destruct (Last sensor I) as (before & last & after & E & El & N).
    exists before, last, after. repeat split; try assumption.
    rewrite <- El. apply (Wins before last after E).
    intros s Is. rewrite El. exact (N s Is).
  - intros ND sensor I.
    destruct (Last sensor I) as (before & last & after & E & El & N).
    rewrite <- El.
    rewrite (Wins before last after E)
      by (intros s Is; rewrite El; exact (N s Is)).
    f_equal. f_equal.
    assert (In last sensors) as Il by (rewrite E; apply in_elt).
    clear E N Wins Last. induction sensors as [| s rest IH]; [ destruct I | ].
    cbn in ND. inversion ND as [| ? ? Hn ND']; subst.
    destruct I as [-> | I], Il as [-> | Il]; trivial.
    + exfalso. apply Hn. rewrite <- El. apply in_map. exact Il.
    + exfalso. apply Hn. rewrite El. apply in_map. exact I.
    + exact (IH ND' I Il).
  - intros key N. unfold getProperty, stored.
    rewrite calculateHealthRisks_property.
    destruct (find (fun s => String.eqb (id s) key) (rev sensors)) as [s |] eqn:F;
      [ | reflexivity ].
    apply find_some in F. destruct F as [Is Es].
    exfalso. apply N. apply String.eqb_eq in Es. rewrite <- Es.
    apply in_map. rewrite in_rev. exact Is.
Qed.

(** The store of two sensors sharing the id [a] keeps the risks of the
    second, computed from its AQI of 120. *)
Lemma calculateHealthRisks_last_wins_witness :
  getProperty (calculateHealthRisks
                 [mkSensor "a" "North" 40 "good";
                  mkSensor "a" "South" 120 "unhealthy_for_sensitive"] [])
              "a"
  = Own (sensorHealthRisks (mkSensor "a" "South" 120 "unhealthy_for_sensitive"))
  /\ aqi (sensorHealthRisks (mkSensor "a" "South" 120 "unhealthy_for_sensitive"))
     = 120%Z.
Proof.
  destruct (calculateHealthRisks_last_wins
              [mkSensor "a" "North" 40 "good";
               mkSensor "a" "South" 120 "unhealthy_for_sensitive"] []) as [H _].
  - cbn. intros [E | [E | []]]; discriminate E.
  - destruct (H [mkSensor "a" "North" 40 "good"]
                (mkSensor "a" "South" 120 "unhealthy_for_sensitive") [])
      as (Stored & Aqi & _).
    + reflexivity.
    + intros s [].
    + split; [ exact Stored | exact Aqi ].
Defined.

(** ** [getPersonalizedRecommendations] *)

Local Open Scope string_scope.

Lemma property_None {A} (obj : list (string * A)) (key : string) :
  ~ In key (map fst obj) -> property obj key = None.
Proof.
  induction obj as [| [k v] rest IH]; simpl; [ reflexivity | ].
  intros N. destruct (String.eqb_spec k key) as [-> | Nk]; [ tauto | ].
  apply IH. tauto.
Qed.

Lemma risks_lookup (sensor : Sensor) (group : string) :
  getProperty (risks (sensorHealthRisks sensor)) group
  = match property riskFactors group with
    | Some factor => Own (groupRisk (aqiValue sensor) group factor)
    | None => if inheritedName group then Inherited else Missing
    end.
Proof.
  unfold getProperty, sensorHealthRisks; cbn [risks].
  assert (forall factors,
            property (map (fun gf : string * Q =>
                             (fst gf, groupRisk (aqiValue sensor) (fst gf) (snd gf)))
                          factors) group
            = option_map (groupRisk (aqiValue sensor) group) (property factors group)) as M.
  { induction factors as [| [k f] rest IH]; [ reflexivity | ]. cbn.
    destruct (String.eqb_spec k group) as [-> | N]; [ reflexivity | exact IH ]. }
  rewrite M. destruct (property riskFactors group); reflexivity.
Qed.

Lemma store_lookup (sensors : list Sensor) (key : string) :
  getProperty (calculateHealthRisks sensors []) key
  = match find (fun sensor => String.eqb (id sensor) key) (rev sensors) with
    | Some sensor => Own (sensorHealthRisks sensor)
    | None => if inheritedName key then Inherited else Missing
    end.
Proof.
  unfold getProperty. rewrite calculateHealthRisks_property.
  destruct (find (fun sensor => String.eqb (id sensor) key) (rev sensors));
    reflexivity.
Qed.

Lemma reportedGroup_factor (group : string) :
  exists factor,
    property riskFactors (reportedGroup group) = Some factor
    /\ In (reportedGroup group, factor) riskFactors
    /\ (property riskFactors group = Some factor
        \/ (property riskFactors group = None /\ reportedGroup group = "general")).
Proof.
  unfold reportedGroup. cbn [map fst riskFactors existsb].
  destruct (String.eqb_spec group "general") as [-> | N1];
    [ eexists; cbn; split; [ reflexivity | split; [ left; reflexivity | left; reflexivity ] ] | ].
  destruct (String.eqb_spec group "elderly") as [-> | N2];
    [ eexists; cbn; split; [ reflexivity | split; [ tauto | left; reflexivity ] ] | ].
  destruct (String.eqb_spec group "children") as [-> | N3];
    [ eexists; cbn; split; [ reflexivity | split; [ tauto | left; reflexivity ] ] | ].
  destruct (String.eqb_spec group "respiratory") as [-> | N4];
    [ eexists; cbn; split; [ reflexivity | split; [ tauto | left; reflexivity ] ] | ].
  destruct (String.eqb_spec group "cardiovascular") as [-> | N5];
    [ eexists; cbn; split; [ reflexivity | split; [ tauto | left; reflexivity ] ] | ].
  exists 1.0%Q. cbn [orb]. split; [ reflexivity | split; [ left; reflexivity | ] ].
  right. split; [ | reflexivity ].
  apply property_None. cbn [In map fst riskFactors]. intuition congruence.
Qed.

(** For a sensor of the store (ids distinct, none [__proto__]) and any
    group name that [Object.prototype] does not define,
    [getPersonalizedRecommendations] returns the location, AQI and category
    of that sensor, the base risk level of its AQI, and the score and the
    recommendations of the group asked for, or of the general public when
    the name is not one of the five groups. *)
Theorem getPersonalizedRecommendations_found (m : Manager) (sensors : list Sensor)
    (sensor : Sensor) (demographicGroup : string) :
  healthRisks m = calculateHealthRisks sensors [] ->
  NoDup (map id sensors) -> ~ In "__proto__" (map id sensors) ->
  In sensor sensors -> inheritedName demographicGroup = false ->
  let reported := reportedGroup demographicGroup in
  let riskLevel := baseRiskLevel (aqiValue sensor) in
  exists factor,
    In (reported, factor) riskFactors
    /\ getPersonalizedRecommendations m (id sensor) demographicGroup
       = Return (Some
           {| Advice.location := locationName sensor;
              Advice.aqi := aqiValue sensor;
              Advice.aqiCategory := aqiCategory sensor;
              Advice.riskLevel := Some riskLevel;
              Advice.riskScore :=
                Some (Math_min 100 (Math_round (inject_Z (baseRiskScore riskLevel) * factor)));
              Advice.recommendations :=
                Some (generateHealthRecommendations riskLevel reported) |}).
Proof.
  intros Hm ND _ I N reported riskLevel.
  destruct (reportedGroup_factor demographicGroup) as (factor & Pf & If & Cases).
  exists factor. split; [ exact If | ].
  unfold getPersonalizedRecommendations. rewrite Hm.
  rewrite store_lookup.
  assert (find (fun s => String.eqb (id s) (id sensor)) (rev sensors) = Some sensor) as F.
  { destruct (find (fun s => String.eqb (id s) (id sensor)) (rev sensors))
      as [found |] eqn:F.
    - apply find_some in F. destruct F as [If' Ef].
      rewrite <- in_rev in If'. apply String.eqb_eq in Ef. f_equal.
      clear - ND I If' Ef. induction sensors as [| s rest IH]; [ destruct I | ].
      cbn in ND. inversion ND as [| ? ? Hn ND']; subst.
      destruct I as [-> | I], If' as [-> | If']; trivial.
      + exfalso. apply Hn. rewrite <- Ef. apply in_map. exact If'.
      + exfalso. apply Hn. rewrite Ef. apply in_map. exact I.
      + exact (IH ND' I If').
    - assert (In sensor (rev sensors)) as Ir by (rewrite <- in_rev; exact I).
      pose proof (find_none _ _ F sensor Ir) as H. cbn in H.
      rewrite String.eqb_refl in H. discriminate H. }
  rewrite F. rewrite !risks_lookup.
  destruct Cases as [Pown | [Pnone General]].
  - rewrite Pown. unfold reported, reportedGroup in *.
    assert (existsb (String.eqb demographicGroup) (map fst riskFactors) = true) as Ex.
    { apply property_In in Pown. apply existsb_exists.
      exists demographicGroup. split; [ | apply String.eqb_refl ].
      apply (in_map fst) in Pown. exact Pown. }
    rewrite Ex. reflexivity.
  - rewrite Pnone, N. unfold reported. rewrite General in *.
    rewrite Pf. reflexivity.
Qed.

(** A found sensor asked for a group that does not exist. *)
Lemma getPersonalizedRecommendations_found_witness :
  exists advice,
    getPersonalizedRecommendations
      {| sensors := []; pollutionSources := [];
         healthRisks := calculateHealthRisks [mkSensor "s1" "North" 120 "unhealthy_for_sensitive"] [];
         forecasts := []; initialized := true |} "s1" "athletes"
    = Return (Some advice)
    /\ Advice.riskLevel advice = Some "moderate"
    /\ Advice.riskScore advice = Some 50%Z.
Proof.
  destruct (getPersonalizedRecommendations_found
              {| sensors := []; pollutionSources := [];
                 healthRisks := calculateHealthRisks [mkSensor "s1" "North" 120 "unhealthy_for_sensitive"] [];
                 forecasts := []; initialized := true |}
              [mkSensor "s1" "North" 120 "unhealthy_for_sensitive"]
              (mkSensor "s1" "North" 120 "unhealthy_for_sensitive") "athletes")
    as (factor & If & E).
  - reflexivity.
  - repeat constructor. intros [].
  - cbn. intros [E | []]. discriminate E.
  - left; reflexivity.
  - reflexivity.
  - eexists. split; [ exact E | ].
    cbn in If. destruct If as [If | [If | [If | [If | [If | []]]]]];
      try discriminate If.
    injection If as <-. split; reflexivity.
Defined.

(** For a sensor id that is not in the store,
    [getPersonalizedRecommendations] returns [null], unless the id is a
    property name of [Object.prototype], when it throws a [TypeError]; for a
    stored sensor and a group name that [Object.prototype] defines it returns
    an object whose level, score and recommendations are [undefined]. *)
Theorem getPersonalizedRecommendations_edges (m : Manager) (sensors : list Sensor)
    (sensorId demographicGroup : string) :
  healthRisks m = calculateHealthRisks sensors [] ->
  ~ In "__proto__" (map id sensors) ->
  (~ In sensorId (map id sensors) -> inheritedName sensorId = false ->
     getPersonalizedRecommendations m sensorId demographicGroup = Return None)
  /\ (~ In sensorId (map id sensors) -> inheritedName sensorId = true ->
        getPersonalizedRecommendations m sensorId demographicGroup = Throw TypeError)
  /\ (In sensorId (map id sensors) -> inheritedName demographicGroup = true ->
        exists advice,
          getPersonalizedRecommendations m sensorId demographicGroup
          = Return (Some advice)
          /\ Advice.riskLevel advice = None /\ Advice.riskScore advice = None
          /\ Advice.recommendations advice = None).
Proof.
  intros Hm _. unfold getPersonalizedRecommendations. rewrite Hm.
  rewrite store_lookup.
  destruct (find (fun s => String.eqb (id s) sensorId) (rev sensors))
    as [found |] eqn:F.
  - apply find_some in F. destruct F as [If Ef]. apply String.eqb_eq in Ef.
    rewrite <- in_rev in If.
    assert (In sensorId (map id sensors)) as Id by (rewrite <- Ef; apply in_map; exact If).
    split; [ intros N; contradiction | split; [ intros N; contradiction | ] ].
    intros _ G. rewrite risks_lookup.
    assert (property riskFactors demographicGroup = None) as P.
    { destruct (property riskFactors demographicGroup) as [f |] eqn:P; [ | reflexivity ].
      apply property_In in P. cbn in P.
      repeat (destruct P as [P | P]; [ injection P as <- _; discriminate G | ]).
      destruct P. }
    rewrite P, G. eexists. split; [ reflexivity | repeat split ].
  - split; [ intros _ -> ; reflexivity | split; [ intros _ ->; reflexivity | ] ].
    intros Id. exfalso. apply in_map_iff in Id. destruct Id as (s & Es & Is).
    assert (In s (rev sensors)) as Ir by (rewrite <- in_rev; exact Is).
    pose proof (find_none _ _ F s Ir) as H. cbn in H.
    rewrite Es, String.eqb_refl in H. discriminate H.
Qed.

(** An unknown sensor id, and the id [toString]. *)
Lemma getPersonalizedRecommendations_edges_witness :
  getPersonalizedRecommendations newManager "sensor_999" "general" = Return None
  /\ getPersonalizedRecommendations newManager "toString" "general" = Throw TypeError.
Proof.
  destruct (getPersonalizedRecommendations_edges newManager [] "sensor_999" "general"
              eq_refl (fun H => H)) as (H1 & _).
  destruct (getPersonalizedRecommendations_edges newManager [] "toString" "general"
              eq_refl (fun H => H)) as (_ & H2 & _).
  split.
  - apply H1; [ intros [] | reflexivity ].
  - apply H2; [ intros [] | reflexivity ].
Defined.

Local Close Scope string_scope.

(** ** Forecasts: retrieval, bounds and the rows displayed *)

Section ForecastStore.

Variable clockHour : Z -> Z.
Variable random : nat -> Q.

Lemma hourly_length (currentAQI : Z) (draw : nat) :
  List.length (hourly clockHour random currentAQI draw) = 48%nat.
Proof. rewrite hourly_points, length_map, length_seq. reflexivity. Qed.

Lemma forecastSensors_length (sensors : list Sensor) (draw : nat) :
  List.length (forecastSensors clockHour random sensors draw) = List.length sensors.
Proof.
  revert draw. induction sensors as [| s rest IH]; intros draw; simpl;
    [ reflexivity | rewrite IH; reflexivity ].
Qed.

Lemma forecastSensors_find_In (sensors : list Sensor) (draw : nat) (sensor : Sensor) :
  In sensor sensors ->
  exists forecast,
    find (fun f => String.eqb (sensorId f) (id sensor))
         (forecastSensors clockHour random sensors draw) = Some forecast
    /\ sensorId forecast = id sensor
    /\ List.length (hourlyPoints forecast) = 48%nat.
Proof.
  revert draw. induction sensors as [| s rest IH]; intros draw I; [ destruct I | ].
  cbn [forecastSensors find sensorId].
  destruct (String.eqb_spec (id s) (id sensor)) as [E | N].
  - eexists. split; [ reflexivity | ]. cbn [sensorId hourlyPoints].
    split; [ exact E | apply hourly_length ].
  - destruct I as [-> | I]; [ contradiction | ]. exact (IH (draw + 48)%nat I).
Qed.

Lemma forecastSensors_find_nth (sensors : list Sensor) (draw i : nat) (sensor : Sensor) :
  NoDup (map id sensors) -> nth_error sensors i = Some sensor ->
  find (fun f => String.eqb (sensorId f) (id sensor))
       (forecastSensors clockHour random sensors draw)
  = Some {| sensorId := id sensor;
            forecastLocation := locationName sensor;
            hourlyPoints := hourly clockHour random (aqiValue sensor)
                              (draw + 48 * i) |}.
Proof.
  revert draw i. induction sensors as [| s rest IH]; intros draw i ND Hn.
  - destruct i; discriminate Hn.
  - cbn in ND. inversion ND as [| ? ? Hnot ND']; subst.
    cbn [forecastSensors find sensorId]. destruct i as [| i]; cbn in Hn.
    + injection Hn as ->. rewrite String.eqb_refl.
      rewrite Nat.mul_0_r, Nat.add_0_r. reflexivity.
    + destruct (String.eqb_spec (id s) (id sensor)) as [E | N].
      * exfalso. apply Hnot. rewrite E. apply in_map.
        exact (nth_error_In _ _ Hn).
      * rewrite (IH (draw + 48)%nat i ND' Hn).
        replace (draw + 48 + 48 * i)%nat with (draw + 48 * S i)%nat by lia.
        reflexivity.
Qed.

Lemma forecastSensors_find_None (sensors : list Sensor) (draw : nat) (key : string) :
  ~ In key (map id sensors) ->
  find (fun f => String.eqb (sensorId f) key)
       (forecastSensors clockHour random sensors draw) = None.
Proof.
  revert draw. induction sensors as [| s rest IH]; intros draw N; [ reflexivity | ].
  cbn [forecastSensors find sensorId]. cbn in N.
  destruct (String.eqb_spec (id s) key) as [E | _]; [ tauto | ].
  apply IH. tauto.
Qed.

End ForecastStore.

(** After [generateForecasts] on an empty list of forecasts there is one
    forecast per sensor; [getForecast] finds for every sensor's id a
    forecast of 48 hourly points carrying that id, for the [i]-th sensor
    (ids distinct) the one made from its AQI with the random draws from
    [48 * i] on, and nothing for an id no sensor has. *)
Theorem generateForecasts_getForecast (clockHour : Z -> Z) (random : nat -> Q)
    (m : Manager) (sensors : list Sensor) :
  forecasts m = generateForecasts clockHour random sensors [] ->
  List.length (forecasts m) = List.length sensors
  /\ (forall sensor, In sensor sensors ->
        exists forecast,
          getForecast m (id sensor) = Some forecast
          /\ sensorId forecast = id sensor
          /\ List.length (hourlyPoints forecast) = 48%nat)
  /\ (NoDup (map id sensors) ->
      forall i sensor, nth_error sensors i = Some sensor ->
        getForecast m (id sensor)
        = Some {| sensorId := id sensor;
                  forecastLocation := locationName sensor;
                  hourlyPoints := hourly clockHour random (aqiValue sensor) (48 * i) |})
  /\ (forall key, ~ In key (map id sensors) -> getForecast m key = None).
Proof.
  intros Hm. unfold getForecast. rewrite Hm. unfold generateForecasts.
  cbn [app]. split; [ apply forecastSensors_length | ]. split; [ | split ].
  - intros sensor I. exact (forecastSensors_find_In _ _ sensors 0 sensor I).
  - intros ND i sensor Hn.
    exact (forecastSensors_find_nth clockHour random sensors 0 i sensor ND Hn).
  - intros key N. exact (forecastSensors_find_None _ _ sensors 0 key N).
Qed.

(** The forecast of the second of two sensors. *)
Lemma generateForecasts_getForecast_witness :
  exists forecast,
    getForecast
      {| sensors := []; pollutionSources := []; healthRisks := [];
         forecasts := generateForecasts (fun _ => 8%Z) (fun _ => 0.5)
                        [mkSensor "a" "North" 40 "good"; mkSensor "b" "South" 60 "moderate"] [];
         initialized := true |} "b" = Some forecast
    /\ List.length (hourlyPoints forecast) = 48%nat.
Proof.
  destruct (generateForecasts_getForecast (fun _ => 8%Z) (fun _ => 0.5)
              {| sensors := []; pollutionSources := []; healthRisks := [];
                 forecasts := generateForecasts (fun _ => 8%Z) (fun _ => 0.5)
                                [mkSensor "a" "North" 40 "good";
                                 mkSensor "b" "South" 60 "moderate"] [];
                 initialized := true |}
              [mkSensor "a" "North" 40 "good"; mkSensor "b" "South" 60 "moderate"]
              eq_refl) as (_ & H & _).
  destruct (H (mkSensor "b" "South" 60 "moderate")) as (forecast & E & _ & L).
  - right; left; reflexivity.
  - exists forecast. split; assumption.
Defined.

Lemma hourly_In (clockHour : Z -> Z) (random : nat -> Q) (currentAQI : Z)
    (draw : nat) (point : ForecastPoint) :
  In point (hourly clockHour random currentAQI draw) ->
  exists i, (i < 48)%nat
    /\ point = forecastPoint clockHour random currentAQI (1 + Z.of_nat i) (draw + i).
Proof.
  rewrite hourly_points. intros I. apply in_map_iff in I.
  destruct I as (i & <- & Hi). apply in_seq in Hi. exists i. split; [ lia | reflexivity ].
Qed.

(** A forecast value from the bounds of its variation. *)
Lemma forecastedAQI_bounds (currentAQI low high : Z) (variation : Q) :
  inject_Z low - (1 # 2) <= variation < inject_Z high + (1 # 2) ->
  (Z.max 0 (currentAQI + low)
   <= Z.max 0 (Math_round (inject_Z currentAQI + variation))
   <= Z.max 0 (currentAQI + high))%Z
  /\ (currentAQI + low <= Z.max 0 (Math_round (inject_Z currentAQI + variation)))%Z.
Proof.
  intros [L H].
  assert (currentAQI + low <= Math_round (inject_Z currentAQI + variation))%Z
    by (apply Math_round_lower; rewrite inject_Z_plus; lra).
  assert (Math_round (inject_Z currentAQI + variation) <= currentAQI + high)%Z
    by (apply Math_round_upper; rewrite inject_Z_plus; lra).
  lia.
Qed.

(** The forecast values on the binary64 numbers of the code, evaluated
    for every current AQI from 0 to 500, every hour of the day and 17 draws:
    the multiples of [1/16] and the largest draw. *)
Lemma forecastBoundsOn_grid :
  Binary64.forecastBoundsOn (map Z.of_nat (seq 0 501)) (map Z.of_nat (seq 0 24))
    (Binary64.drawGrid 16) = true.
Proof. vm_compute. reflexivity. Qed.

Lemma In_range (n : nat) (z : Z) :
  (0 <= z < Z.of_nat n)%Z -> In z (map Z.of_nat (seq 0 n)).
Proof.
  intros H. apply in_map_iff. exists (Z.to_nat z). split; [ lia | ].
  apply in_seq. lia.
Qed.

Lemma forecastBoundsOn_spec (values hours : list Z) (draws : list float) :
  Binary64.forecastBoundsOn values hours draws = true ->
  forall currentAQI hourOfDay r,
    In currentAQI values -> In hourOfDay hours -> In r draws ->
    exists forecast,
      Binary64.forecastedAQI currentAQI hourOfDay r = Some forecast
      /\ (Z.max 0 (currentAQI - 17) <= forecast)%Z
      /\ (forecast <= Z.max 0 (currentAQI + 28))%Z
      /\ ((7 <= hourOfDay <= 9)%Z -> (currentAQI + 8 <= forecast)%Z)
      /\ ((16 <= hourOfDay <= 19)%Z -> (currentAQI + 13 <= forecast)%Z)
      /\ ((22 <= hourOfDay \/ hourOfDay <= 5)%Z ->
          (forecast <= Z.max 0 (currentAQI - 2))%Z).
Proof.
  unfold Binary64.forecastBoundsOn. rewrite forallb_forall.
  intros H a h r Ia Ih Ir.
  specialize (H a Ia). rewrite forallb_forall in H.
  specialize (H h Ih). rewrite forallb_forall in H.
  specialize (H r Ir).
  destruct (Binary64.forecastedAQI a h r) as [f |]; [ | discriminate H ].
  exists f. split; [ reflexivity | ].
  unfold Binary64.withinForecastBounds in H.
  rewrite !andb_true_iff in H. destruct H as ((((H1 & H2) & H3) & H4) & H5).
  apply Z.leb_le in H1, H2.
  split; [ exact H1 | split; [ exact H2 | ] ].
  split; [ | split ].
  - intros [L U]. apply Z.leb_le in L, U. rewrite L, U in H3.
    apply Z.leb_le. exact H3.
  - intros [L U]. apply Z.leb_le in L, U. rewrite L, U in H4.
    apply Z.leb_le. exact H4.
  - intros N.
    assert ((22 <=? h)%Z || (h <=? 5)%Z = true) as E
      by (apply orb_true_iff; rewrite !Z.leb_le; exact N).
    rewrite E in H5. apply Z.leb_le. exact H5.
Qed.

(** With every value of [Math.random()] between 0 and 1, every point of
    an hourly forecast has an hour from 1 to 48, a confidence from 60 to 89,
    the category of its AQI, and an AQI that is never negative and lies
    between the current AQI minus 17 and plus 28 (or 0); in the morning rush
    (hours 7 to 9 of the day) it is at least 8 above the current AQI, in the
    evening rush (16 to 19) at least 13 above, and at night (22 to 5) at
    most 2 below or 0.  On the binary64 numbers of the code the same bounds
    hold for every current AQI from 0 to 500 and every hour of the day at
    each of the 17 draws of the grid, and the largest draw [1 - 2^-53]
    reaches them: from 100 it gives 128 in the evening rush and 98 at
    night. *)
Theorem forecast_point_bounds (clockHour : Z -> Z) (random : nat -> Q)
    (currentAQI : Z) (draw : nat) (point : ForecastPoint) :
  (forall n, 0 <= random n <= 1) ->
  In point (hourly clockHour random currentAQI draw) ->
  let hourOfDay := ((clockHour (hourOffset point) + hourOffset point) mod 24)%Z in
  ((1 <= hourOffset point <= 48)%Z
   /\ (60 <= confidence point <= 89)%Z
   /\ forecastCategory point = getAQICategory (forecastAqi point)
   /\ (0 <= forecastAqi point)%Z
   /\ (Z.max 0 (currentAQI - 17) <= forecastAqi point <= Z.max 0 (currentAQI + 28))%Z
   /\ ((7 <= hourOfDay <= 9)%Z -> (currentAQI + 8 <= forecastAqi point)%Z)
   /\ ((16 <= hourOfDay <= 19)%Z -> (currentAQI + 13 <= forecastAqi point)%Z)
   /\ ((22 <= hourOfDay \/ hourOfDay <= 5)%Z ->
       (forecastAqi point <= Z.max 0 (currentAQI - 2))%Z))
  /\ (forall current hour r,
        (0 <= current <= 500)%Z -> (0 <= hour <= 23)%Z ->
        In r (Binary64.drawGrid 16) ->
        exists forecast,
          Binary64.forecastedAQI current hour r = Some forecast
          /\ (Z.max 0 (current - 17) <= forecast)%Z
          /\ (forecast <= Z.max 0 (current + 28))%Z
          /\ ((7 <= hour <= 9)%Z -> (current + 8 <= forecast)%Z)
          /\ ((16 <= hour <= 19)%Z -> (current + 13 <= forecast)%Z)
          /\ ((22 <= hour \/ hour <= 5)%Z ->
              (forecast <= Z.max 0 (current - 2))%Z))
  /\ Binary64.forecastedAQI 100 17 Binary64.maxDraw = Some 128%Z
  /\ Binary64.forecastedAQI 100 23 Binary64.maxDraw = Some 98%Z.
Proof.
  intros R I hourOfDay.
  split; [ | split; [ | split; vm_compute; reflexivity ] ];
    [ | intros current hour r Hc Hh Ir;
        apply (forecastBoundsOn_spec _ _ _ forecastBoundsOn_grid);
        [ apply In_range; lia | apply In_range; lia | exact Ir ] ].
  subst hourOfDay.
  destruct (hourly_In _ _ _ _ _ I) as (i & Hi & ->).
  cbn [hourOffset confidence forecastCategory forecastAqi forecastPoint].
  set (hour := (1 + Z.of_nat i)%Z). assert (1 <= hour <= 48)%Z as Hh by lia.
  clearbody hour.
  set (hod := ((clockHour hour + hour) mod 24)%Z).
  destruct (R (draw + i)%nat) as [R0 R1].
  set (r := random (draw + i)%nat) in *. clearbody r.
  split; [ exact Hh | ].
  split.
  { assert (inject_Z 1 <= inject_Z hour <= inject_Z 48) as [H1 H48]
      by (split; rewrite <- Zle_Qle; lia).
    change (inject_Z 1) with 1 in H1. change (inject_Z 48) with 48 in H48.
    revert H1 H48. generalize (inject_Z hour). intros q H1 H48.
    assert (q / 48 * 30 == q * (5 # 8)) as E by field.
    split; [ apply Math_round_lower | apply Math_round_upper ];
      rewrite E; unfold inject_Z; lra. }
  split; [ reflexivity | ].
  split; [ lia | ].
  assert (forall low high : Z,
            inject_Z low - (1 # 2) <= rushHourVariation hod + (r - 0.5) * 15
              < inject_Z high + (1 # 2) ->
            (Z.max 0 (currentAQI + low)
             <= Z.max 0 (Math_round (inject_Z currentAQI
                   + (rushHourVariation hod + (r - 0.5) * 15)))
             <= Z.max 0 (currentAQI + high))%Z
            /\ (currentAQI + low
                <= Z.max 0 (Math_round (inject_Z currentAQI
                     + (rushHourVariation hod + (r - 0.5) * 15))))%Z) as B
    by (intros low high; apply forecastedAQI_bounds).
  unfold rushHourVariation in *.
  destruct (Z.leb_spec 7 hod), (Z.leb_spec hod 9); cbn [andb] in *.
  { destruct (B 8 23)%Z as [[? ?] ?]; [ unfold inject_Z; lra | ].
    repeat split; intros; lia. }
  all: destruct (Z.leb_spec 16 hod), (Z.leb_spec hod 19); cbn [andb] in *.
  all: try (destruct (B 13 28)%Z as [[? ?] ?]; [ unfold inject_Z; lra | ];
            repeat split; intros; lia).
  all: destruct (Z.leb_spec 22 hod), (Z.leb_spec hod 5); cbn [orb] in *.
  all: try (destruct (B (-17) (-2))%Z as [[? ?] ?]; [ unfold inject_Z; lra | ];
            repeat split; intros; lia).
  all: destruct (B (-7) 8)%Z as [[? ?] ?]; [ unfold inject_Z; lra | ];
       repeat split; intros; lia.
Qed.

(** The bounds at the first hour of a forecast made at 15 o'clock, the
    draw being 1: the hour of the day is 16 and the value 40 + 28. *)
Lemma forecast_point_bounds_witness :
  (40 + 13
   <= forecastAqi (forecastPoint (fun _ => 15%Z) (fun _ => 1%Q) 40 1 0))%Z
  /\ forecastAqi (forecastPoint (fun _ => 15%Z) (fun _ => 1%Q) 40 1 0) = 68%Z.
Proof.
  split; [ | reflexivity ].
  refine (proj1 (proj2 (proj2 (proj2 (proj2 (proj2 (proj2 (proj1
           (forecast_point_bounds (fun _ => 15%Z) (fun _ => 1%Q) 40 0
              (forecastPoint (fun _ => 15%Z) (fun _ => 1%Q) 40 1 0) _ _)))))))) _).
  - intros n. split; discriminate.
  - left. reflexivity.
  - cbn. lia.
Defined.

(** ** The rows of the forecast table *)

Lemma slice0_firstn {A} (arr : list A) (finish : Z) :
  slice0 arr finish
  = firstn (Z.to_nat (if (finish <? 0)%Z
                      then Z.max (Z.of_nat (List.length arr) + finish) 0
                      else Z.min finish (Z.of_nat (List.length arr)))) arr.
Proof. reflexivity. Qed.

(** For a forecast of 48 points, [updateForecastDisplay] shows the first
    24 when the range does not parse or is 0, the first [n] for a range [n]
    from 1 on (all 48 beyond 48), and for a negative range [n] all but the
    last [-n] points (none from -48 down); the rows are always a prefix of
    the forecast. *)
Theorem forecastData_rows (forecast : Forecast) (parsed : option Z) :
  List.length (hourlyPoints forecast) = 48%nat ->
  let points := hourlyPoints forecast in
  let rows := forecastData forecast parsed in
  (exists rest, points = rows ++ rest)
  /\ ((parsed = None \/ parsed = Some 0%Z) -> rows = firstn 24 points)
  /\ (forall n, parsed = Some n -> (1 <= n)%Z ->
        rows = firstn (Z.to_nat n) points
        /\ List.length rows = Z.to_nat (Z.min n 48))
  /\ (forall n, parsed = Some n -> (n < 0)%Z ->
        rows = firstn (48 - Z.to_nat (- n)) points
        /\ List.length rows = Z.to_nat (Z.max 0 (48 + n))).
Proof.
  intros L points rows. unfold rows, points, forecastData.
  rewrite slice0_firstn, L. split; [ | split; [ | split ] ].
  - eexists. symmetry. apply firstn_skipn.
  - intros [-> | ->]; reflexivity.
  - intros n -> Hn. assert (forecastRangeOf (Some n) = n) as ->
      by (destruct n; [ lia | reflexivity | lia ]).
    replace (n <? 0)%Z with false by (symmetry; apply Z.ltb_ge; lia).
    split.
    + destruct (Z.le_gt_cases n 48).
      * rewrite Z.min_l by lia. reflexivity.
      * rewrite Z.min_r by lia.
        rewrite !firstn_all2; [ reflexivity | | ]; rewrite L; lia.
    + rewrite length_firstn, L. lia.
  - intros n -> Hn. assert (forecastRangeOf (Some n) = n) as ->
      by (destruct n; [ lia | lia | reflexivity ]).
    replace (n <? 0)%Z with true by (symmetry; apply Z.ltb_lt; lia).
    split.
    + f_equal. lia.
    + rewrite length_firstn, L. lia.
Qed.

(** A range of 12 hours and a range of -5. *)
Lemma forecastData_rows_witness :
  List.length (forecastData
                 {| sensorId := "a"; forecastLocation := "North";
                    hourlyPoints := hourly (fun _ => 8%Z) (fun _ => 0.5) 40 0 |}
                 (Some (-5)%Z)) = 43%nat.
Proof.
  refine (proj2 (proj2 (proj2 (proj2 (forecastData_rows
            {| sensorId := "a"; forecastLocation := "North";
               hourlyPoints := hourly (fun _ => 8%Z) (fun _ => 0.5) 40 0 |}
            (Some (-5)%Z) _))) (-5)%Z eq_refl _)).
  - reflexivity.
  - lia.
Defined.

(** ** [initialize] *)

Local Open Scope string_scope.

Lemma pollutionProfileOf_known (name : string) :
  In (pollutionProfileOf name) ["industrial"; "urban"; "residential"; "mixed"].
Proof.
  unfold pollutionProfileOf.
  destruct (includes name "Industrial"); [ cbn; tauto | ].
  destruct (includes name "Downtown" || includes name "Central"); [ cbn; tauto | ].
  destruct (includes name "Residential"); cbn; tauto.
Qed.

Lemma pollutionProfileOf_own (name : string) :
  inheritedName (pollutionProfileOf name) = false.
Proof.
  destruct (pollutionProfileOf_known name) as [<- | [<- | [<- | [<- | []]]]];
    reflexivity.
Qed.

Lemma loadSensors_spec (random : nat -> Q) (locations : list Sample.Location) :
  forall (index draw : nat) (sensors : list Sample.SensorObject),
  exists loaded,
    loadSensors random locations index draw sensors
    = Return ((sensors ++ loaded)%list, (draw + 6 * List.length locations)%nat)
    /\ map Sample.location loaded = locations
    /\ map Sample.id loaded = map sensorIdOf (seq index (List.length locations))
    /\ Forall (Generates random) loaded.
Proof.
  induction locations as [| location rest IH]; intros index draw sensors.
  - exists []. cbn. rewrite app_nil_r, Nat.add_0_r. repeat split. constructor.
  - cbn [loadSensors].
    destruct (generateSensorReadings_cases random draw
                (pollutionProfileOf (Sample.name location))) as (H & _).
    destruct (H (pollutionProfileOf_own _)) as (r & E & _).
    rewrite E. cbn [bind].
    match goal with
    | |- context [loadSensors _ _ _ _ (sensors ++ [?x])%list] => set (sensor := x)
    end.
    destruct (IH (S index) (draw + 6)%nat (sensors ++ [sensor])%list)
      as (loaded & EL & Hloc & Hid & Hgen).
    exists (sensor :: loaded). rewrite EL. split; [ | split; [ | split ] ].
    + rewrite <- app_assoc. cbn [List.length]. do 2 f_equal. lia.
    + cbn. rewrite Hloc. reflexivity.
    + cbn [map seq List.length]. rewrite Hid. reflexivity.
    + constructor; [ | exact Hgen ]. exists draw. exact E.
Qed.

(** In a list with distinct keys [find] by the key of an element returns
    that element. *)
Lemma find_unique {A} (key : A -> string) (l : list A) (x : A) :
  NoDup (map key l) -> In x l ->
  find (fun y => String.eqb (key y) (key x)) l = Some x.
Proof.
  induction l as [| y rest IH]; intros ND I; [ destruct I | ].
  cbn in ND. inversion ND as [| ? ? Hn ND']; subst. cbn [find].
  destruct (String.eqb_spec (key y) (key x)) as [E | N].
  - destruct I as [-> | I]; [ reflexivity | ].
    exfalso. apply Hn. rewrite E. apply in_map. exact I.
  - destruct I as [-> | I]; [ contradiction | ]. exact (IH ND' I).
Qed.

Lemma sampleIds_NoDup : NoDup (map sensorIdOf (seq 0 8)).
Proof.
  cbn. repeat constructor; cbn; intuition discriminate.
Qed.

Lemma Generates_WellFormed (random : nat -> Q) (sensor : Sample.SensorObject) :
  Generates random sensor -> WellFormedSensor sensor.
Proof.
  intros [draw E].
  destruct (generateSensorReadings_cases random draw
              (pollutionProfileOf (Sample.name (Sample.location sensor)))) as (H & _).
  destruct (H (pollutionProfileOf_own _)) as (r & Er & _ & _ & _ & _ & _ & _ & Ea & Eb & Ec).
  rewrite Er in E. injection E as E. exists r. auto.
Qed.

(** Whatever the clock and the random draws, [initialize] on a new manager
    returns: it leaves the flag set, the eight sensors [sensor_001] to
    [sensor_008] at the eight sample locations, each with measured readings
    and an AQI between 0 and 500 that is [calculateAQI] of its readings, and
    the five pollution sources; every sensor is found by [getSensorById],
    has under its id the health risks computed from its AQI and has a
    forecast of 48 points; and a further call of [initialize] changes
    nothing. *)
Theorem initialize_state (clockHour : Z -> Z) (random : nat -> Q) (draw : nat) :
  exists m,
    initialize clockHour random draw newManager = Return m
    /\ initialized m = true
    /\ map Sample.id (sensors m)
       = [ "sensor_001"; "sensor_002"; "sensor_003"; "sensor_004";
           "sensor_005"; "sensor_006"; "sensor_007"; "sensor_008" ]
    /\ map Sample.location (sensors m) = sensorLocations
    /\ map (fun sensor => pollutionProfileOf (Sample.name (Sample.location sensor)))
           (sensors m)
       = [ "urban"; "mixed"; "mixed"; "mixed"; "mixed"; "urban"; "industrial";
           "residential" ]
    /\ List.length (pollutionSources m) = 5%nat
    /\ (forall sensor, In sensor (sensors m) ->
          WellFormedSensor sensor
          /\ getSensorById m (Sample.id sensor) = Some sensor
          /\ getHealthRisks m (Sample.id sensor)
             = Own (sensorHealthRisks (sensorView sensor))
          /\ exists forecast,
               getForecast m (Sample.id sensor) = Some forecast
               /\ List.length (hourlyPoints forecast) = 48%nat)
    /\ (forall clockHour' random' draw',
          initialize clockHour' random' draw' m = Return m).
Proof.
  unfold initialize at 1. cbn [initialized newManager sensors healthRisks forecasts].
  unfold loadSampleSensorData.
  destruct (loadSensors_spec random sensorLocations 0 draw [])
    as (loaded & EL & Hloc & Hid & Hgen).
  rewrite EL. cbn [bind fst snd app].
  eexists. split; [ reflexivity | ].
  cbn [initialized sensors pollutionSources].
  assert (NoDup (map Sample.id loaded)) as ND by (rewrite Hid; exact sampleIds_NoDup).
  split; [ reflexivity | ]. split; [ rewrite Hid; reflexivity | ].
  split; [ exact Hloc | ].
  split.
  { rewrite <- (map_map Sample.location
                  (fun l => pollutionProfileOf (Sample.name l))), Hloc.
    reflexivity. }
  split; [ reflexivity | ].
  split; [ | intros; reflexivity ].
  intros sensor I.
  split; [ apply (Generates_WellFormed random);
           exact (proj1 (Forall_forall _ _) Hgen sensor I) | ].
  split; [ unfold getSensorById; cbn [sensors];
           exact (find_unique Sample.id loaded sensor ND I) | ].
  split.
  - unfold getHealthRisks; cbn [healthRisks]. rewrite store_lookup.
    change (Sample.id sensor) with (id (sensorView sensor)).
    rewrite (find_unique id (rev (map sensorView loaded)) (sensorView sensor)).
    + reflexivity.
    + rewrite <- map_rev, map_map. cbn [sensorView id]. rewrite map_rev.
      apply NoDup_rev. exact ND.
    + rewrite <- in_rev. apply in_map. exact I.
  - unfold getForecast; cbn [forecasts]. unfold generateForecasts. cbn [app].
    change (Sample.id sensor) with (id (sensorView sensor)).
    destruct (forecastSensors_find_In clockHour
                (fun n => random (draw + 6 * List.length sensorLocations + n)%nat)
                (map sensorView loaded) 0 (sensorView sensor))
      as (forecast & F & _ & L).
    + apply in_map. exact I.
    + exists forecast. split; assumption.
Qed.

(** When [Math.random()] stays in [[0, 1)], every sensor [initialize]
    loads has an AQI of at most 112, so its category is never worse than
    unhealthy for sensitive groups, and every risk stored for it has the
    level minimal, low or moderate. *)
Theorem initialize_sample_bounds (clockHour : Z -> Z) (random : nat -> Q)
    (draw : nat) (m : Manager) :
  (forall n, 0 <= random n < 1) ->
  initialize clockHour random draw newManager = Return m ->
  forall sensor, In sensor (sensors m) ->
    (0 <= aqiValue (sensorView sensor) <= 112)%Z
    /\ In (aqiCategory (sensorView sensor))
          ["good"; "moderate"; "unhealthy_for_sensitive"]
    /\ (forall group risk,
          In (group, risk) (risks (sensorHealthRisks (sensorView sensor))) ->
          In (level risk) ["minimal"; "low"; "moderate"]
          /\ (10 <= score risk <= 100)%Z).
Proof.
  intros R. unfold initialize at 1.
  cbn [initialized newManager sensors healthRisks forecasts].
  unfold loadSampleSensorData.
  destruct (loadSensors_spec random sensorLocations 0 draw [])
    as (loaded & EL & Hloc & Hid & Hgen).
  rewrite EL. cbn [bind fst snd app]. intros [= <-]. cbn [sensors].
  intros sensor I.
  destruct (proj1 (Forall_forall _ _) Hgen sensor I) as [d E].
  destruct (generateSensorReadings_bounded random d
              (pollutionProfileOf (Sample.name (Sample.location sensor)))
              (fun n => conj (proj1 (R n)) (Qlt_le_weak _ _ (proj2 (R n))))
              (pollutionProfileOf_own _))
    as (r & Er & _ & _ & _ & _ & _ & _ & Range & Cat).
  rewrite Er in E. injection E as E.
  unfold sensorView; cbn [aqiValue aqiCategory]. rewrite <- E.
  cbn [generatedAqi generatedCategory].
  split; [ exact Range | split; [ exact Cat | ] ].
  intros group risk Ir. unfold sensorHealthRisks in Ir; cbn [risks aqiValue] in Ir.
  apply in_map_iff in Ir. destruct Ir as ([g f] & Eg & If).
  cbn [fst snd] in Eg. injection Eg as <- <-.
  unfold groupRisk; cbn [level score]. split.
  - unfold baseRiskLevel.
    destruct (Z.leb_spec (aqiReading r) 50); [ cbn; tauto | ].
    destruct (Z.leb_spec (aqiReading r) 100); [ cbn; tauto | ].
    destruct (Z.leb_spec (aqiReading r) 150); [ cbn; tauto | lia ].
  - unfold baseRiskLevel.
    cbn in If.
    repeat (destruct If as [If | If]; [ injection If as <- <- | ]); try destruct If;
    repeat match goal with
      | |- context [(?a <=? ?b)%Z] => destruct (a <=? b)%Z
      end; vm_compute; split; discriminate.
Qed.

(** The bounds for the sensor of Downtown when every draw is 0.5. *)
Lemma initialize_sample_bounds_witness :
  exists m sensor,
    initialize (fun _ => 8%Z) (fun _ => 0.5%Q) 0 newManager = Return m
    /\ In sensor (sensors m)
    /\ (0 <= aqiValue (sensorView sensor) <= 112)%Z.
Proof.
  destruct (initialize (fun _ => 8%Z) (fun _ => 0.5%Q) 0 newManager)
    as [m | e] eqn:E; [ | vm_compute in E; discriminate E ].
  assert (exists sensor, In sensor (sensors m)) as [sensor Is].
  { pose proof E as E'. vm_compute in E'. injection E' as <-.
    eexists. left. reflexivity. }
  exists m, sensor. split; [ reflexivity | split; [ exact Is | ] ].
  refine (proj1 (initialize_sample_bounds (fun _ => 8%Z) (fun _ => 0.5%Q) 0 m _ E
                   sensor Is)).
  intros n. split; discriminate || reflexivity.
Defined.

Local Close Scope string_scope.

(** ** The filter of pollution sources *)

Local Open Scope string_scope.

Lemma assign_new {A} (obj : list (string * A)) (key : string) (value : A) :
  ~ In key (map fst obj) -> assign obj key value = (obj ++ [(key, value)])%list.
Proof.
  induction obj as [| [k v] rest IH]; simpl; intros N; [ reflexivity | ].
  destruct (String.eqb_spec k key) as [-> | _]; [ tauto | ].
  rewrite IH by tauto. reflexivity.
Qed.

(** With distinct check-box values, none of them [__proto__], the
    [filters] object lists the check boxes as they are. *)
Lemma filtersOf_distinct (checkboxes : list (string * bool)) :
  NoDup (map fst checkboxes) -> ~ In "__proto__" (map fst checkboxes) ->
  filtersOf checkboxes = checkboxes.
Proof.
  unfold filtersOf.
  assert (forall acc : list (string * bool),
            NoDup (map fst (acc ++ checkboxes)) ->
            ~ In "__proto__" (map fst checkboxes) ->
            fold_left (fun filters checkbox =>
                         if fst checkbox =? "__proto__" then filters
                         else assign filters (fst checkbox) (snd checkbox))
                      checkboxes acc
            = (acc ++ checkboxes)%list) as G.
  { induction checkboxes as [| [k b] rest IH]; intros acc ND NP.
    - cbn. rewrite app_nil_r. reflexivity.
    - cbn [fold_left fst snd]. cbn in NP.
      destruct (String.eqb_spec k "__proto__") as [-> | _]; [ tauto | ].
      rewrite assign_new.
      + rewrite IH; [ rewrite <- app_assoc; reflexivity | | tauto ].
        rewrite <- app_assoc. exact ND.
      + rewrite map_app in ND. cbn in ND.
        apply NoDup_remove_2 in ND. intros I. apply ND.
        apply in_or_app. left. exact I. }
  intros ND NP. exact (G [] ND NP).
Qed.

(** With distinct values, the truth value of [filters[key]] is whether a
    checked box has that value. *)
Lemma truthy_checked (checkboxes : list (string * bool)) (key : string) :
  NoDup (map fst checkboxes) -> inheritedName key = false ->
  truthy (getProperty checkboxes key)
  = existsb (fun checkbox => (fst checkbox =? key) && snd checkbox) checkboxes.
Proof.
  intros ND N. unfold getProperty.
  induction checkboxes as [| [k b] rest IH]; cbn [property existsb fst snd].
  - rewrite N. reflexivity.
  - cbn in ND. inversion ND as [| ? ? Hn ND']; subst.
    destruct (String.eqb_spec k key) as [-> | Nk]; cbn [andb orb].
    + cbn [truthy]. destruct b; [ reflexivity | ]. symmetry.
      apply not_true_iff_false. intros H. apply existsb_exists in H.
      destruct H as ([k' b'] & I & H). cbn [fst snd] in H.
      apply andb_true_iff in H. destruct H as [H _]. apply String.eqb_eq in H.
      subst k'. apply Hn. apply (in_map fst) in I. exact I.
    + exact (IH ND').
Qed.

(** With distinct check-box values (none [__proto__]) and source types that
    [Object.prototype] does not define: when no box is checked every source
    is shown; when some box is checked, the sources shown are those whose
    type has a checked box, in their order; and nothing is ever shown that
    is not a source. *)
Theorem filteredSources_spec (checkboxes : list (string * bool))
    (sources : list Source.PollutionSource) :
  NoDup (map fst checkboxes) -> ~ In "__proto__" (map fst checkboxes) ->
  (forall source, In source sources -> inheritedName (Source.type source) = false) ->
  (existsb snd checkboxes = false -> filteredSources checkboxes sources = sources)
  /\ (existsb snd checkboxes = true ->
      filteredSources checkboxes sources
      = filter (fun source =>
                  existsb (fun checkbox =>
                             (fst checkbox =? Source.type source) && snd checkbox)
                          checkboxes)
               sources)
  /\ (forall source, In source (filteredSources checkboxes sources) ->
        In source sources).
Proof.
  intros ND NP Types. unfold filteredSources.
  rewrite (filtersOf_distinct checkboxes ND NP).
  replace (existsb (fun filter : string * bool => snd filter) checkboxes)
    with (existsb snd checkboxes) by reflexivity.
  split; [ intros ->; reflexivity | split ].
  - intros ->. apply filter_ext_in. intros source I.
    exact (truthy_checked checkboxes (Source.type source) ND (Types source I)).
  - intros source. destruct (existsb snd checkboxes); [ | trivial ].
    intros I. apply filter_In in I. exact (proj1 I).
Qed.

(** The five sample sources with only the box [energy] checked, and with
    no box checked. *)
Lemma filteredSources_spec_witness :
  map Source.id (filteredSources [("industrial", false); ("energy", true)]
                   loadSamplePollutionSources) = ["source_004"]
  /\ filteredSources [("industrial", false); ("energy", false)]
       loadSamplePollutionSources = loadSamplePollutionSources.
Proof.
  assert (forall source, In source loadSamplePollutionSources ->
            inheritedName (Source.type source) = false) as Types.
  { intros source I. cbn in I.
    repeat (destruct I as [<- | I]; [ reflexivity | ]). destruct I. }
  destruct (filteredSources_spec [("industrial", false); ("energy", true)]
              loadSamplePollutionSources) as (_ & H & _); trivial.
  { repeat constructor; cbn; intuition discriminate. }
  { cbn. intuition discriminate. }
  destruct (filteredSources_spec [("industrial", false); ("energy", false)]
              loadSamplePollutionSources) as (H' & _); trivial.
  { repeat constructor; cbn; intuition discriminate. }
  { cbn. intuition discriminate. }
  split.
  - rewrite H by reflexivity. reflexivity.
  - apply H'. reflexivity.
Defined.

Local Close Scope string_scope.
